(** * ml_dl_pkg: model backends, the training orchestrators and their
      checkpoint policy.

    A shallow embedding of
      - [ml/models/base_model.py]            (module [BaseModel]),
      - [ml/models/ml_models/decision_trees.py] (module [DecisionTrees]),
      - [ml/models/model_manager.py]         (module [ModelManager]),
      - [ml/models/train_managers/ml_train_manager.py] (module [MLTrain]),
      - [ml/models/rnn.py]                   (module [Rnn]),
      - [ml/preprocess/augment.py]           (module [Augment]).

    Python objects that are mutated in place are threaded explicitly;
    exceptions are values of [exn] carried in the left summand of [Res];
    configuration dictionaries are finite maps with string keys. *)

From Stdlib Require Import ZArith QArith List Bool Lia.
From stdpp Require Import base option list strings pretty gmap.

Local Open Scope Z_scope.
Local Open Scope string_scope.
Local Open Scope list_scope.

(** ** Python values, exceptions and results *)

Module Py.

(** Scalars found in a run configuration (argparse output). Python floats
    are carried as rationals: the code below only stores, counts and
    passes them on. *)
Inductive atom :=
| ANone
| ABool (b : bool)
| AInt (z : Z)
| AFloat (q : Q)
| AStr (s : string).

(** A configuration value: a scalar or a flat list of scalars. *)
Inductive pyval :=
| PAtom (a : atom)
| PList (l : list atom).

Definition PStr (s : string) : pyval := PAtom (AStr s).
Definition PFloat (q : Q) : pyval := PAtom (AFloat q).

Inductive exn :=
| AssertionError (msg : string)
| KeyError (key : string)
| TypeError (msg : string)
| ValueError (msg : string)
| IndexError (msg : string)
| UnboundLocalError (var : string)
| FileNotFoundError (msg : string)
| SystemExit (code : Z).

(** [inl e]: the call raised [e]; [inr a]: it returned [a]. *)
Definition Res (A : Type) : Type := exn + A.

Definition ok {A} (a : A) : Res A := inr a.
Definition raise {A} (e : exn) : Res A := inl e.

Arguments ok {A} a /.
Arguments raise {A} e /.

Definition rbind {A B} (m : Res A) (k : A -> Res B) : Res B :=
  match m with
  | inl e => inl e
  | inr a => k a
  end.

Definition rmap {A B} (f : A -> B) (m : Res A) : Res B :=
  match m with
  | inl e => inl e
  | inr a => inr (f a)
  end.

Definition is_ok {A} (r : Res A) : bool :=
  match r with inr _ => true | inl _ => false end.

(** [d[key]] on a dict. *)
Definition getitem (d : gmap string pyval) (key : string) : Res pyval :=
  match d !! key with
  | Some v => ok v
  | None => raise (KeyError key)
  end.

(** [v == s] for a string literal [s]. *)
Definition eq_str (v : pyval) (s : string) : bool :=
  match v with
  | PAtom (AStr s') => String.eqb s' s
  | _ => false
  end.

(** [len(v)]. *)
Definition len (v : pyval) : Res nat :=
  match v with
  | PList l => ok (length l)
  | PAtom (AStr s) => ok (String.length s)
  | PAtom _ => raise (TypeError "object has no len()")
  end.

(** The number an atom denotes inside a tensor, if any. *)
Definition atom_number (a : atom) : option Q :=
  match a with
  | AFloat q => Some q
  | AInt z => Some (inject_Z z)
  | ABool b => Some (if b then 1%Q else 0%Q)
  | ANone | AStr _ => None
  end.

(** [torch.tensor(v)] for the values a configuration can hold: a list of
    numbers gives the one-dimensional tensor of these numbers. *)
Definition torch_tensor (v : pyval) : Res (list Q) :=
  match v with
  | PList l =>
      match mapM atom_number l with
      | Some ws => ok ws
      | None => raise (TypeError "not a sequence of numbers")
      end
  | PAtom _ => raise (TypeError "not a sequence")
  end.

End Py.

Import Py.

Notation "'let*' x ':=' m 'in' k" := (rbind m (fun x => k))
  (at level 10, x pattern, m at level 100, k at level 200).

(** ** base_model.py *)

Module BaseModel.

(** [torch.nn.MSELoss()] and [torch.nn.BCELoss(weight=...)]. *)
Inductive Criterion :=
| MSELoss
| BCELoss (weight : list Q).

Section WithInner.

(** [Inner] is the wrapped predictor held in [self.model]; [FS] is the
    file store its [save_model]/[load_model] act on. These methods belong
    to the wrapped class, so they are taken as they come. [py_str] is
    Python's [str()] as used by f-strings. *)
Variables Inner FS : Type.
Variable inner_save : Inner -> pyval -> FS -> FS * Res unit.
Variable inner_load : Inner -> pyval -> FS -> FS * Res Inner.
Variable inner_fitted : Inner -> bool.
Variable py_str : pyval -> string.

Record t := mk {
  class_labels : list atom;
  cfg : gmap string pyval;
  criterion : Criterion;
  fitted : bool;
  model : Inner
}.

(** What a method can touch outside the object: files and the console. *)
Record World := mkWorld {
  fs : FS;
  stdout : list string
}.

Definition print (line : string) (w : World) : World :=
  {| fs := fs w; stdout := stdout w ++ [line] |}.

(** [_check_cfg]: every required key must be present. *)
Fixpoint _check_cfg (cfg : gmap string pyval) (must_contain_keys : list string)
  : Res (gmap string pyval) :=
  match must_contain_keys with
  | [] => ok cfg
  | key :: rest =>
      match cfg !! key with
      | Some _ => _check_cfg cfg rest
      | None => raise (AssertionError (key ++ " must be contained in the model conf"))
      end
  end.

(** [_set_criterion], reading [self.class_labels] and [self.cfg]. *)
Definition _set_criterion (class_labels : list atom) (cfg : gmap string pyval)
  : Res Criterion :=
  let* task_type := getitem cfg "task_type" in
  if eq_str task_type "regress" then ok MSELoss
  else
    let* loss_weight := getitem cfg "loss_weight" in
    let* n := len loss_weight in
    if Nat.eqb (length class_labels) n then
      let* loss_weight' := getitem cfg "loss_weight" in
      let* w := torch_tensor loss_weight' in
      ok (BCELoss w)
    else raise (AssertionError "loss weight needs to be matched with the number of classes").

(** [__init__]; the wrapped predictor [inner] is the one the subclass
    stores in [self.model]. *)
Definition __init__ (class_labels : list atom) (cfg : gmap string pyval)
    (must_contain_keys : list string) (inner : Inner) : Res t :=
  let* cfg' := _check_cfg cfg must_contain_keys in
  let* crit := _set_criterion class_labels cfg' in
  ok {| class_labels := class_labels; cfg := cfg'; criterion := crit;
        fitted := false; model := inner |}.

(** [anneal_lr] and [update_by_epoch]: both bodies are [pass]. *)
Definition anneal_lr (learning_anneal : pyval) (self : t) : t := self.
Definition update_by_epoch (phase : string) (self : t) : t := self.

(** [save_model]: hand the configured path to the wrapped predictor. *)
Definition save_model (self : t) (w : World) : World * Res unit :=
  match getitem (cfg self) "model_path" with
  | inl e => (w, inl e)
  | inr path =>
      let '(fs', r) := inner_save (model self) path (fs w) in
      ({| fs := fs'; stdout := stdout w |}, r)
  end.

(** [load_model]: only [FileNotFoundError] is handled, by printing the
    exception and the path and calling [exit(1)]. *)
Definition load_model (self : t) (w : World) : World * Res t :=
  match getitem (cfg self) "model_path" with
  | inl e => (w, inl e)
  | inr path =>
      let '(fs', r) := inner_load (model self) path (fs w) in
      let w' := {| fs := fs'; stdout := stdout w |} in
      match r with
      | inr inner' =>
          (print "Saved model loaded." w',
           ok {| class_labels := class_labels self; cfg := cfg self;
                 criterion := criterion self;
                 fitted := inner_fitted inner'; model := inner' |})
      | inl (FileNotFoundError e) =>
          let w1 := print e w' in
          let w2 := print ("trained model file doesn't exist at " ++ py_str path) w1 in
          (w2, raise (SystemExit 1))
      | inl e => (w', inl e)
      end
  end.

End WithInner.

Arguments mk {Inner}.
Arguments class_labels {Inner}.
Arguments cfg {Inner}.
Arguments criterion {Inner}.
Arguments fitted {Inner}.
Arguments model {Inner}.
Arguments mkWorld {FS}.
Arguments fs {FS}.
Arguments stdout {FS}.
Arguments print {FS}.
Arguments __init__ {Inner}.
Arguments anneal_lr {Inner}.
Arguments update_by_epoch {Inner}.
Arguments save_model {Inner FS}.
Arguments load_model {Inner FS}.

End BaseModel.

(** ** ml_models/decision_trees.py *)

Module DecisionTrees.

(** An insertion-ordered dict of dicts: [best_score_] of an estimator,
    evaluation-set name to metric name to score. *)
Definition ScoreDict : Type := list (string * list (string * Q)).

Section WithLibrary.

(** [Array] stands for [np.ndarray]; [Estimator] for the library object
    in [self.model] (lightgbm or catboost), with the attributes the
    wrappers read. The library's own [fit] and [predict] are taken as
    they come. *)
Variables Array Estimator : Type.
Variable best_score_ : Estimator -> ScoreDict.
Variable lib_fit :
  Estimator -> Array -> Array -> list (Array * option Array) -> Res Estimator.
Variable lib_predict : Estimator -> Array -> Res Array.
Variable reshape_flat : Array -> Array.

Record LightGBM := mkLightGBM {
  classify : bool;
  params : gmap string pyval;
  model : Estimator
}.

(** [list(d.keys())[-1]]. *)
Definition last_key (d : ScoreDict) : Res string :=
  match last (map fst d) with
  | Some k => ok k
  | None => raise (IndexError "list index out of range")
  end.

(** [d[key]] on one level of a score dict. *)
Definition score_getitem {V} (d : list (string * V)) (key : string) : Res V :=
  match find (fun kv => String.eqb (fst kv) key) d with
  | Some kv => ok (snd kv)
  | None => raise (KeyError key)
  end.

(** [LightGBM.fit(x, y, eval_x=None, eval_y=None)]. [eval_x] is [Some]
    exactly when it is an [np.ndarray]. The value returned is whatever
    the last line evaluates to, as a Python value. *)
Definition LightGBM_fit (self : LightGBM) (x y : Array)
    (eval_x eval_y : option Array) : Res (LightGBM * pyval) :=
  let eval_set := [(x, Some y)] in
  let eval_set :=
    match eval_x with
    | Some ex => eval_set ++ [(ex, eval_y)]
    | None => eval_set
    end in
  let* m := lib_fit (model self) x y eval_set in
  let self' := {| classify := classify self; params := params self; model := m |} in
  let* k := last_key (best_score_ m) in
  ok (self', PStr k).

Definition LightGBM_predict (self : LightGBM) (x : Array) : Res Array :=
  let* p := lib_predict (model self) x in
  ok (reshape_flat p).

(** [LightGBM.save_model(fname)]: pickle the estimator into the file. *)
Definition LightGBM_save_model (self : LightGBM) (fname : string)
    (files : gmap string Estimator) : gmap string Estimator :=
  <[fname := model self]> files.

Record CatBoost := mkCatBoost {
  cb_classify : bool;
  cb_model : Estimator
}.

(** [CatBoost.fit(x, y)]: the sibling wrapper returns the learnt score. *)
Definition CatBoost_fit (self : CatBoost) (x y : Array) : Res (CatBoost * pyval) :=
  let* m := lib_fit (cb_model self) x y [] in
  let self' := {| cb_classify := cb_classify self; cb_model := m |} in
  let* learn := score_getitem (best_score_ m) "learn" in
  let* s := score_getitem learn (if cb_classify self then "Accuracy" else "RMSE") in
  ok (self', PFloat s).

End WithLibrary.

Arguments mkLightGBM {Estimator}.
Arguments classify {Estimator}.
Arguments params {Estimator}.
Arguments model {Estimator}.
Arguments mkCatBoost {Estimator}.
Arguments cb_classify {Estimator}.
Arguments cb_model {Estimator}.
Arguments LightGBM_fit {Array Estimator}.
Arguments LightGBM_predict {Array Estimator}.
Arguments LightGBM_save_model {Estimator}.
Arguments CatBoost_fit {Array Estimator}.

(** A Python value is a scalar score when it is a number. *)
Definition is_scalar_score (v : pyval) : bool :=
  match v with
  | PAtom (AFloat _) | PAtom (AInt _) => true
  | _ => false
  end.

End DecisionTrees.

(** ** model_manager.py *)

Module ModelManager.

(** The phase names the managers use as dictionary keys. *)
Inductive Phase := train | val | test | infer.

Definition phase_name (p : Phase) : string :=
  match p with
  | train => "train"
  | val => "val"
  | test => "test"
  | infer => "infer"
  end.

Definition phase_eqb (p q : Phase) : bool :=
  match p, q with
  | train, train | val, val | test, test | infer, infer => true
  | _, _ => false
  end.

(** The methods of the backend in [self.model] that a manager can call. *)
Inductive Call :=
| CFit (phase : Phase)
| CPredict
| CSave
| CLoad
| CAnneal (learning_anneal : pyval)
| CUpdateByEpoch (phase : Phase).

Definition is_save (c : Call) : bool :=
  match c with CSave => true | _ => false end.
Definition is_anneal (c : Call) : bool :=
  match c with CAnneal _ => true | _ => false end.
Definition is_update_by_epoch (c : Call) : bool :=
  match c with CUpdateByEpoch _ => true | _ => false end.

(** [truthy v]: Python truth value of a configuration value. *)
Definition truthy (v : pyval) : bool :=
  match v with
  | PAtom ANone => false
  | PAtom (ABool b) => b
  | PAtom (AInt z) => negb (Z.eqb z 0)
  | PAtom (AFloat q) => negb (Qeq_bool q 0)
  | PAtom (AStr s) => negb (String.eqb s "")
  | PList l => negb (Nat.eqb (length l) 0)
  end.

(** The element types [_predict] chooses between for its two buffers:
    [np.int] and [np.float]. *)
Inductive Dtype := NpInt | NpFloat.

Section WithBackend.

(** The backend ([NNModel]/[MLModel]), the metric classes and the data
    loaders live outside these files. [Model] is the backend object, [V]
    the element type of prediction and label arrays, [Loss] and [Fitted]
    what [fit] returns, [Meter] the per-phase average meter of a metric
    and [Score] the numbers it holds. *)
Variables Model FS Inputs V Loss Fitted Meter Score : Type.

Local Abbreviation World := (BaseModel.World FS).

Variable model_fit :
  Inputs -> list V -> Phase -> Model -> World -> World * Res (Model * (Loss * Fitted)).
Variable model_predict : Inputs -> Model -> World -> World * Res (list V).
Variable model_save : Model -> World -> World * Res unit.
Variable model_load : Model -> World -> World * Res Model.
Variable model_anneal_lr : pyval -> Model -> World -> World * Res Model.
Variable model_criterion : Model -> list V -> list V -> Res Loss.

(** [pred_list == -1000000], elementwise, and the fill value itself. *)
Variable sentinel : V.
Variable is_sentinel : V -> bool.

(** numpy's cast of one element on assignment into a buffer of the given
    element type: a float stored in an integer buffer is truncated, an
    integer that does not fit wraps around. [V] holds the numbers of a
    numeric array, whatever its element type. *)
Variable astype : Dtype -> V -> V.

(** The loss handed to [metric.update]: a value computed by the model or
    an integer literal. *)
Inductive LossValue :=
| Computed (l : Loss)
| Literal (z : Z).

(** Modelled from the spec: the metric class of [ml.utils], which is not
    among these files, as this manager uses it: a name, the [save_model]
    flag and one average meter per phase. *)
Record Metric := mkMetric {
  name : string;
  save_model : bool;
  average_meter : Phase -> Meter
}.

Definition set_meter (m : Metric) (p : Phase) (a : Meter) : Metric :=
  {| name := name m; save_model := save_model m;
     average_meter := fun q => if phase_eqb q p then a else average_meter m q |}.

(** The metric classes' own methods and the renderings used in console
    output. *)
Variable metric_update : Phase -> LossValue -> Fitted + list V -> list V -> Metric -> Metric.
Variable update_best : Meter -> bool * Meter.
Variable reset : Meter -> Meter.
Variable meter_value : Meter -> Score.
Variable meter_average : Meter -> Score.
Variable fmt4 : Score -> string.
Variable str_score : Score -> string.
Variable py_str : pyval -> string.
Variable str_nat : nat -> string.
Variable str_Z : Z -> string.
Variable str_dataloaders : string.
Variable str_confusion_matrix : list V -> list V -> nat -> string.

(** The parts of the manager that training does not change. *)
Record Manager := mkManager {
  class_labels : list atom;
  cfg : gmap string pyval;
  dataloaders : Phase -> option (list (Inputs * list V));
  logger : bool
}.

(** The parts it does change: the backend, the outside world, the record
    of backend calls and what was sent to the tensorboard logger. *)
Record Env := mkEnv {
  model : Model;
  world : World;
  calls : list Call;
  tb_log : list (Z * list (string * Score))
}.

Definition set_model (m : Model) (e : Env) : Env :=
  {| model := m; world := world e; calls := calls e; tb_log := tb_log e |}.
Definition set_world (w : World) (e : Env) : Env :=
  {| model := model e; world := w; calls := calls e; tb_log := tb_log e |}.
Definition log_call (c : Call) (e : Env) : Env :=
  {| model := model e; world := world e; calls := calls e ++ [c]; tb_log := tb_log e |}.
Definition log_tb (epoch : Z) (values : list (string * Score)) (e : Env) : Env :=
  {| model := model e; world := world e; calls := calls e;
     tb_log := tb_log e ++ [(epoch, values)] |}.
Definition print (line : string) (e : Env) : Env :=
  set_world (BaseModel.print line (world e)) e.

(** [_init_logger]: a logger exists when the key is present. *)
Definition _init_logger (cfg : gmap string pyval) : bool :=
  match cfg !! "tensorboard" with Some _ => true | None => false end.

(** Invocations of the backend, each recorded before it runs. *)
Definition call_save (e : Env) : Env * Res unit :=
  let e1 := log_call CSave e in
  let '(w, r) := model_save (model e1) (world e1) in
  (set_world w e1, r).

Definition call_load (e : Env) : Env * Res unit :=
  let e1 := log_call CLoad e in
  let '(w, r) := model_load (model e1) (world e1) in
  match r with
  | inl x => (set_world w e1, inl x)
  | inr m => (set_model m (set_world w e1), ok tt)
  end.

Definition call_anneal_lr (learning_anneal : pyval) (e : Env) : Env * Res unit :=
  let e1 := log_call (CAnneal learning_anneal) e in
  let '(w, r) := model_anneal_lr learning_anneal (model e1) (world e1) in
  match r with
  | inl x => (set_world w e1, inl x)
  | inr m => (set_model m (set_world w e1), ok tt)
  end.

Definition call_fit (inputs : Inputs) (labels : list V) (phase : Phase) (e : Env)
  : Env * Res (Loss * Fitted) :=
  let e1 := log_call (CFit phase) e in
  let '(w, r) := model_fit inputs labels phase (model e1) (world e1) in
  match r with
  | inl x => (set_world w e1, inl x)
  | inr (m, out) => (set_model m (set_world w e1), ok out)
  end.

Definition call_predict (inputs : Inputs) (e : Env) : Env * Res (list V) :=
  let e1 := log_call CPredict e in
  let '(w, r) := model_predict inputs (model e1) (world e1) in
  (set_world w e1, r).

(** [check_keys_from_dict(phases, self.dataloaders)]. *)
Fixpoint check_keys_from_dict (mgr : Manager) (must_contain_keys : list Phase) : Res unit :=
  match must_contain_keys with
  | [] => ok tt
  | key :: rest =>
      match dataloaders mgr key with
      | Some _ => check_keys_from_dict mgr rest
      | None => raise (AssertionError (phase_name key ++ " must be in " ++ str_dataloaders))
      end
  end.

(** [for metric in self.metrics: ...], each metric changed in place; a
    body that raises leaves the metrics already visited changed. *)
Fixpoint for_metrics (body : Metric -> Env -> (Metric * Env) * Res unit)
    (ms : list Metric) (e : Env) : (list Metric * Env) * Res unit :=
  match ms with
  | [] => (([], e), ok tt)
  | m :: rest =>
      let '((m', e'), r) := body m e in
      match r with
      | inl x => ((m' :: rest, e'), inl x)
      | inr _ =>
          let '((rest', e''), r') := for_metrics body rest e' in
          ((m' :: rest', e''), r')
      end
  end.

(** One turn of the loop of [_update_by_epoch]. *)
Definition update_metric_by_epoch (mgr : Manager) (phase : Phase)
    (metric : Metric) (e : Env) : (Metric * Env) * Res unit :=
  let '(best_flag, am) := update_best (average_meter metric phase) in
  let metric1 := set_meter metric phase am in
  let '(e1, r) :=
    if save_model metric && best_flag && phase_eqb phase val then
      match getitem (cfg mgr) "model_path" with
      | inl x => (e, inl x)
      | inr path =>
          call_save (print ("Found better validated model, saving to " ++ py_str path) e)
      end
    else (e, ok tt) in
  match r with
  | inl x => ((metric1, e1), inl x)
  | inr _ => ((set_meter metric1 phase (reset am), e1), ok tt)
  end.

(** The condition of the [if] above on a metric as the loop finds it: it
    is save-triggering, its [update_best()] returns true, and the phase
    is the validation phase. *)
Definition triggers (phase : Phase) (m : Metric) : bool :=
  save_model m && fst (update_best (average_meter m phase)) && phase_eqb phase val.

(** [_update_by_epoch(phase, epoch, learning_anneal)]. *)
Definition _update_by_epoch (mgr : Manager) (phase : Phase) (epoch : Z)
    (learning_anneal : pyval) (ms : list Metric) (e : Env)
  : (list Metric * Env) * Res unit :=
  let '((ms', e1), r) := for_metrics (update_metric_by_epoch mgr phase) ms e in
  match r with
  | inl x => ((ms', e1), inl x)
  | inr _ =>
      let '(e2, r2) :=
        if phase_eqb phase train then call_anneal_lr learning_anneal e1
        else (e1, ok tt) in
      match r2 with
      | inl x => ((ms', e2), inl x)
      | inr _ =>
          let e3 :=
            if phase_eqb phase val
            then print ("epoch " ++ str_Z epoch ++ " ended.") e2 else e2 in
          ((ms', e3), ok tt)
      end
  end.

(** [_verbose(epoch, phase, i)]. *)
Definition _verbose (mgr : Manager) (epoch : Z) (phase : Phase) (i : nat)
    (ms : list Metric) (e : Env) : Env * Res unit :=
  match dataloaders mgr phase with
  | None => (e, raise (KeyError (phase_name phase)))
  | Some dl =>
      let e1 := print (phase_name phase ++ " epoch: [" ++ str_Z epoch ++ "]["
                       ++ str_nat (i + 1) ++ "/" ++ str_nat (length dl) ++ "]") e in
      let e2 := fold_left
        (fun acc metric =>
           print (name metric ++ " " ++ fmt4 (meter_value (average_meter metric phase))) acc)
        ms e1 in
      (print "" e2, ok tt)
  end.

(** [_record_log(phase, epoch)]; [TensorBoardLogger.update] files the
    values under step [epoch + 1]. *)
Definition _record_log (phase : Phase) (epoch : Z) (ms : list Metric) (e : Env) : Env :=
  let values :=
    map (fun metric => ((phase_name phase ++ "_" ++ name metric)%string,
                        meter_average (average_meter metric phase))) ms in
  let e1 := fold_left
    (fun acc kv => print (fst kv ++ " " ++ str_score (snd kv)) acc) values e in
  log_tb (epoch + 1) values e1.

(** A configuration value used where Python wants an integer. *)
Definition as_int (v : pyval) : option Z :=
  match v with
  | PAtom (AInt z) => Some z
  | PAtom (ABool b) => Some (if b then 1 else 0)
  | _ => None
  end.

(** Integer-valued configuration entries. *)
Definition get_int (cfg : gmap string pyval) (key : string) : Res Z :=
  let* v := getitem cfg key in
  match as_int v with
  | Some z => ok z
  | None => raise (TypeError (key ++ " is not an integer"))
  end.

(** The batch loop of one phase of [train]. *)
Fixpoint train_batches (mgr : Manager) (epoch : Z) (phase : Phase) (i : nat)
    (batches : list (Inputs * list V)) (ms : list Metric) (e : Env)
  : (list Metric * Env) * Res unit :=
  match batches with
  | [] => ((ms, e), ok tt)
  | (inputs, labels) :: rest =>
      let '(e1, r) := call_fit inputs labels phase e in
      match r with
      | inl x => ((ms, e1), inl x)
      | inr (loss, predicts) =>
          let ms1 := map (metric_update phase (Computed loss) (inl predicts) labels) ms in
          match getitem (cfg mgr) "silent" with
          | inl x => ((ms1, e1), inl x)
          | inr silent =>
              let '(e2, r2) :=
                if negb (truthy silent) then _verbose mgr epoch phase i ms1 e1
                else (e1, ok tt) in
              match r2 with
              | inl x => ((ms1, e2), inl x)
              | inr _ => train_batches mgr epoch phase (S i) rest ms1 e2
              end
          end
      end
  end.

(** One phase of one epoch of [train]. *)
Definition train_phase (mgr : Manager) (epoch : Z) (phase : Phase)
    (ms : list Metric) (e : Env) : (list Metric * Env) * Res unit :=
  match dataloaders mgr phase with
  | None => ((ms, e), raise (KeyError (phase_name phase)))
  | Some batches =>
      let '((ms1, e1), r) := train_batches mgr epoch phase 0 batches ms e in
      match r with
      | inl x => ((ms1, e1), inl x)
      | inr _ =>
          let e2 := if logger mgr then _record_log phase epoch ms1 e1 else e1 in
          match getitem (cfg mgr) "learning_anneal" with
          | inl x => ((ms1, e2), inl x)
          | inr la => _update_by_epoch mgr phase epoch la ms1 e2
          end
      end
  end.

(** [for phase in ['train', 'val']] inside one epoch. *)
Definition train_epoch (mgr : Manager) (epoch : Z) (ms : list Metric) (e : Env)
  : (list Metric * Env) * Res unit :=
  let '((ms1, e1), r) := train_phase mgr epoch train ms e in
  match r with
  | inl x => ((ms1, e1), inl x)
  | inr _ => train_phase mgr epoch val ms1 e1
  end.

(** [for epoch in range(n)], from epoch number [epoch] on. *)
Fixpoint train_epochs (mgr : Manager) (n : nat) (epoch : Z) (ms : list Metric) (e : Env)
  : (list Metric * Env) * Res unit :=
  match n with
  | O => ((ms, e), ok tt)
  | S n' =>
      let '((ms1, e1), r) := train_epoch mgr epoch ms e in
      match r with
      | inl x => ((ms1, e1), inl x)
      | inr _ => train_epochs mgr n' (epoch + 1) ms1 e1
      end
  end.

(** [train()]. *)
Definition train_ (mgr : Manager) (ms : list Metric) (e : Env)
  : (list Metric * Env) * Res unit :=
  match check_keys_from_dict mgr [train; val] with
  | inl x => ((ms, e), inl x)
  | inr _ =>
      match get_int (cfg mgr) "epochs" with
      | inl x => ((ms, e), inl x)
      | inr epochs => train_epochs mgr (Z.to_nat epochs) 0 ms e
      end
  end.

(** [buf[start : start + len(v), 0] = v] on a numpy buffer: the slice is
    clipped to the buffer; a value of another length is broadcast when it
    has one element and refused otherwise. *)
Definition slice_assign (buf : list V) (start : nat) (v : list V) : Res (list V) :=
  let n := length buf in
  let s := Nat.min start n in
  let stop := Nat.min (start + length v) n in
  let k := (stop - s)%nat in
  if Nat.eqb (length v) k then ok (take s buf ++ v ++ drop stop buf)
  else
    match v with
    | [x] => ok (take s buf ++ replicate k x ++ drop stop buf)
    | _ => raise (ValueError "could not broadcast input array")
    end.

(** The enumerate loop of [_predict]; both buffers have the element type
    [dtype_], and what is written into them is cast to it. *)
Fixpoint predict_batches (dtype_ : Dtype) (batch_size : nat) (i : nat)
    (batches : list (Inputs * list V)) (pred_list label_list : list V) (e : Env)
  : Env * Res (list V * list V) :=
  match batches with
  | [] => (e, ok (pred_list, label_list))
  | (inputs, labels) :: rest =>
      let '(e1, r) := call_predict inputs e in
      match r with
      | inl x => (e1, inl x)
      | inr preds =>
          match slice_assign pred_list (i * batch_size) (map (astype dtype_) preds) with
          | inl x => (e1, inl x)
          | inr pred_list' =>
              match slice_assign label_list (i * batch_size) (map (astype dtype_) labels) with
              | inl x => (e1, inl x)
              | inr label_list' =>
                  predict_batches dtype_ batch_size (S i) rest pred_list' label_list' e1
              end
          end
      end
  end.

(** What the backend predicts for the batches, in delivery order, kept
    in a growing sequence; the yardstick for the fixed-size buffer of
    [_predict]. *)
Fixpoint predict_all (batches : list (Inputs * list V)) (e : Env)
  : Env * Res (list (list V)) :=
  match batches with
  | [] => (e, ok [])
  | (inputs, _) :: rest =>
      let '(e1, r) := call_predict inputs e in
      match r with
      | inl x => (e1, inl x)
      | inr preds =>
          let '(e2, r2) := predict_all rest e1 in
          match r2 with
          | inl x => (e2, inl x)
          | inr ps => (e2, ok (preds :: ps))
          end
      end
  end.

(** One batch's stretch of the buffer once the batch is written. *)
Definition pad_batch (batch_size : nat) (v : list V) : list V :=
  v ++ replicate (batch_size - length v) sentinel.

(** [x[~(x == -1000000)]]. *)
Definition strip_sentinel (l : list V) : list V :=
  filter (fun x => is_sentinel x = false) l.

(** [_predict(phase)]. *)
Definition _predict (mgr : Manager) (phase : Phase) (e : Env)
  : Env * Res (list V * list V) :=
  match getitem (cfg mgr) "batch_size" with
  | inl x => (e, inl x)
  | inr batch_size =>
      match check_keys_from_dict mgr [phase] with
      | inl x => (e, inl x)
      | inr _ =>
          match getitem (cfg mgr) "task_type", dataloaders mgr phase with
          | inl x, _ => (e, inl x)
          | inr _, None => (e, raise (KeyError (phase_name phase)))
          | inr task_type, Some batches =>
              let dtype_ := if eq_str task_type "classify" then NpInt else NpFloat in
              match as_int batch_size with
              | Some b =>
                  let size := Z.of_nat (length batches) * b in
                  if Z.ltb size 0 then (e, raise (ValueError "negative dimensions are not allowed"))
                  else
                    let buf := replicate (Z.to_nat size) sentinel in
                    let '(e1, r) :=
                      predict_batches dtype_ (Z.to_nat b) 0 batches buf buf e in
                    match r with
                    | inl x => (e1, inl x)
                    | inr (pred_list, label_list) =>
                        (e1, ok (strip_sentinel pred_list, strip_sentinel label_list))
                    end
              | None => (e, raise (TypeError "batch_size cannot be interpreted as an integer"))
              end
          end
      end
  end.

(** The metric loop of [test]; [loss_value] is the local variable of that
    name, unbound ([None]) until a turn of the loop assigns it. *)
Fixpoint test_metrics (mgr : Manager) (pred_list label_list : list V)
    (ms : list Metric) (loss_value : option LossValue) (e : Env)
  : (list Metric * Env) * Res unit :=
  match ms with
  | [] => (([], e), ok tt)
  | metric :: rest =>
      let update (lv : option LossValue) :=
        match lv with
        | None => ((metric :: rest, e), raise (UnboundLocalError "loss_value"))
        | Some v =>
            let metric' := metric_update test v (inr pred_list) label_list metric in
            let e1 := print (name metric' ++ ": "
                             ++ fmt4 (meter_value (average_meter metric' test))) e in
            let '((rest', e2), r) := test_metrics mgr pred_list label_list rest lv e1 in
            ((metric' :: rest', e2), r)
        end in
      if String.eqb (name metric) "loss" then
        match getitem (cfg mgr) "task_type" with
        | inl x => ((metric :: rest, e), inl x)
        | inr task_type =>
            if eq_str task_type "classify" then
              let '((rest', e2), r) :=
                test_metrics mgr pred_list label_list rest loss_value e in
              ((metric :: rest', e2), r)
            else
              match getitem (cfg mgr) "model_type" with
              | inl x => ((metric :: rest, e), inl x)
              | inr model_type =>
                  if eq_str model_type "rnn" || eq_str model_type "cnn" then
                    match model_criterion (model e) pred_list label_list with
                    | inl x => ((metric :: rest, e), inl x)
                    | inr l => update (Some (Computed l))
                    end
                  else update loss_value
              end
        end
      else update (Some (Literal 10000000))
  end.

(** [test(return_metrics, load_best)]; the metrics come back with the
    environment whether or not the caller asked for them. *)
Definition test_ (mgr : Manager) (load_best : bool) (ms : list Metric) (e : Env)
  : (list Metric * Env) * Res (list V * list V) :=
  let '(e1, r) := if load_best then call_load e else (e, ok tt) in
  match r with
  | inl x => ((ms, e1), inl x)
  | inr _ =>
      let '(e2, r2) := _predict mgr test e1 in
      match r2 with
      | inl x => ((ms, e2), inl x)
      | inr (pred_list, label_list) =>
          let '((ms', e3), r3) := test_metrics mgr pred_list label_list ms None e2 in
          match r3 with
          | inl x => ((ms', e3), inl x)
          | inr _ =>
              match getitem (cfg mgr) "task_type" with
              | inl x => ((ms', e3), inl x)
              | inr task_type =>
                  let e4 :=
                    if eq_str task_type "classify"
                    then print (str_confusion_matrix label_list pred_list
                                  (length (class_labels mgr))) e3
                    else e3 in
                  ((ms', e4), ok (pred_list, label_list))
              end
          end
      end
  end.

(** [infer(load_best)]. *)
Definition infer_ (mgr : Manager) (load_best : bool) (e : Env) : Env * Res (list V) :=
  let '(e1, r) := if load_best then call_load e else (e, ok tt) in
  match r with
  | inl x => (e1, inl x)
  | inr _ =>
      let '(e2, r2) := _predict mgr infer e1 in
      match r2 with
      | inl x => (e2, inl x)
      | inr (pred_list, _) => (e2, ok pred_list)
      end
  end.

End WithBackend.

Arguments mkMetric {Meter}.
Arguments name {Meter}.
Arguments save_model {Meter}.
Arguments average_meter {Meter}.
Arguments set_meter {Meter}.
Arguments mkManager {Inputs V}.
Arguments class_labels {Inputs V}.
Arguments cfg {Inputs V}.
Arguments dataloaders {Inputs V}.
Arguments logger {Inputs V}.
Arguments mkEnv {Model FS Score}.
Arguments model {Model FS Score}.
Arguments world {Model FS Score}.
Arguments calls {Model FS Score}.
Arguments tb_log {Model FS Score}.
Arguments Computed {Loss}.
Arguments Literal {Loss}.
Arguments set_model {Model FS Score}.
Arguments set_world {Model FS Score}.
Arguments log_call {Model FS Score}.
Arguments log_tb {Model FS Score}.
Arguments print {Model FS Score}.
Arguments call_save {Model FS Score}.
Arguments call_load {Model FS Score}.
Arguments call_anneal_lr {Model FS Score}.
Arguments call_fit {Model FS Inputs V Loss Fitted Score}.
Arguments call_predict {Model FS Inputs V Score}.
Arguments check_keys_from_dict {Inputs V}.
Arguments for_metrics {Model FS Meter Score}.
Arguments update_metric_by_epoch {Model FS Inputs V Meter Score}.
Arguments _update_by_epoch {Model FS Inputs V Meter Score}.
Arguments triggers {Meter}.
Arguments _verbose {Model FS Inputs V Meter Score}.
Arguments _record_log {Model FS Meter Score}.
Arguments train_batches {Model FS Inputs V Loss Fitted Meter Score}.
Arguments train_phase {Model FS Inputs V Loss Fitted Meter Score}.
Arguments train_epoch {Model FS Inputs V Loss Fitted Meter Score}.
Arguments train_epochs {Model FS Inputs V Loss Fitted Meter Score}.
Arguments train_ {Model FS Inputs V Loss Fitted Meter Score}.
Arguments slice_assign {V}.
Arguments strip_sentinel {V}.
Arguments predict_batches {Model FS Inputs V Score}.
Arguments _predict {Model FS Inputs V Score}.
Arguments predict_all {Model FS Inputs V Score}.
Arguments pad_batch {V}.
Arguments test_metrics {Model FS Inputs V Loss Fitted Meter Score}.
Arguments test_ {Model FS Inputs V Loss Fitted Meter Score}.
Arguments infer_ {Model FS Inputs V Score}.

End ModelManager.

(** ** train_managers/ml_train_manager.py *)

Module MLTrain.

Import ModelManager.

(** Modelled from the spec: the average meter of [ml.utils.utils], which
    is not among these files. It holds the last value, the running sum
    and count, the running average and the remembered best. *)
Record AverageMeter (Score : Type) := mkMeter {
  value : Score;
  sum : Score;
  count : nat;
  average : Score;
  best_score : Score
}.

Arguments mkMeter {Score}.
Arguments value {Score}.
Arguments sum {Score}.
Arguments count {Score}.
Arguments average {Score}.
Arguments best_score {Score}.

(** Modelled from the spec: a metric of [ml.utils.utils] as this manager
    uses it, one meter per metric object. *)
Record Metric (Score : Type) := mkMetric {
  name : string;
  lower_is_better : bool;
  save_model : bool;
  average_meter : AverageMeter Score
}.

Arguments mkMetric {Score}.
Arguments name {Score}.
Arguments lower_is_better {Score}.
Arguments save_model {Score}.
Arguments average_meter {Score}.

(** [metric.average_meter.best_score = metric.average_meter.average]. *)
Definition assign_best {Score} (m : Metric Score) : Metric Score :=
  {| name := name m; lower_is_better := lower_is_better m; save_model := save_model m;
     average_meter :=
       {| value := value (average_meter m); sum := sum (average_meter m);
          count := count (average_meter m); average := average (average_meter m);
          best_score := average (average_meter m) |} |}.

Definition tab : string := String (Ascii.ascii_of_nat 9) EmptyString.

Section WithModelManager.

(** [MM] is the [MLModelManager] in [self.model_manager], [W] the world
    its [save_model] writes to, [Array] stands for [np.ndarray] and
    [LossT] for what [fit] returns. Metric objects live in a store and
    the per-phase lists of [self.metrics] hold references into it, so
    that one object listed twice is one object. *)
Variables MM W Array LossT Score : Type.
Variable mm_fit : Array -> Array -> option (Array * Array) -> MM -> Res (MM * LossT).
Variable mm_predict : Array -> MM -> Res Array.
Variable mm_save_model : MM -> W -> W * Res unit.
Variable vstack : list Array -> Res Array.
Variable hstack : list Array -> Res Array.
Variable metric_update : LossT -> Array -> Array -> Metric Score -> Metric Score.
Variable fmt4 : Score -> string.
Variable str_dataloaders : string.

Record Manager := mkManager {
  cfg : gmap string pyval;
  dataloaders : Phase -> option (list (Array * Array));
  metrics : Phase -> option (list nat)
}.

Record Env := mkEnv {
  model_manager : MM;
  world : W;
  store : gmap nat (Metric Score);
  calls : list Call;
  info_log : list string
}.

Definition log_call (c : Call) (e : Env) : Env :=
  {| model_manager := model_manager e; world := world e; store := store e;
     calls := calls e ++ [c]; info_log := info_log e |}.
Definition set_model_manager (m : MM) (e : Env) : Env :=
  {| model_manager := m; world := world e; store := store e;
     calls := calls e; info_log := info_log e |}.
Definition set_world (w : W) (e : Env) : Env :=
  {| model_manager := model_manager e; world := w; store := store e;
     calls := calls e; info_log := info_log e |}.
Definition set_store (s : gmap nat (Metric Score)) (e : Env) : Env :=
  {| model_manager := model_manager e; world := world e; store := s;
     calls := calls e; info_log := info_log e |}.
Definition logger_info (msg : string) (e : Env) : Env :=
  {| model_manager := model_manager e; world := world e; store := store e;
     calls := calls e; info_log := info_log e ++ [msg] |}.

(** A dict keyed by phase, in insertion order. *)
Definition pdict (A : Type) : Type := list (Phase * A).

Definition pdict_get {A} (d : pdict A) (p : Phase) : Res A :=
  match find (fun kv => phase_eqb (fst kv) p) d with
  | Some kv => ok (snd kv)
  | None => raise (KeyError (phase_name p))
  end.

(** [d[p] = a]: replaces in place or appends. *)
Fixpoint pdict_set {A} (d : pdict A) (p : Phase) (a : A) : pdict A :=
  match d with
  | [] => [(p, a)]
  | (q, b) :: rest =>
      if phase_eqb q p then (p, a) :: rest else (q, b) :: pdict_set rest p a
  end.

Definition mem_phase (p : Phase) (phases : list Phase) : bool :=
  existsb (phase_eqb p) phases.

(** Modelled from the spec: [check_keys_from_dict] of the base train
    manager, which is not among these files: a missing key fails fast,
    naming the key. *)
Fixpoint check_keys_from_dict (mgr : Manager) (must_contain_keys : list Phase) : Res unit :=
  match must_contain_keys with
  | [] => ok tt
  | key :: rest =>
      match dataloaders mgr key with
      | Some _ => check_keys_from_dict mgr rest
      | None => raise (AssertionError (phase_name key ++ " must be in " ++ str_dataloaders))
      end
  end.

(** The loop that materialises [inputs] and [labels] per phase. *)
Fixpoint stack_phases (mgr : Manager) (phases : list Phase)
    (inputs labels : pdict Array) : Res (pdict Array * pdict Array) :=
  match phases with
  | [] => ok (inputs, labels)
  | phase :: rest =>
      match dataloaders mgr phase with
      | None => raise (KeyError (phase_name phase))
      | Some batches =>
          let* xs := vstack (map fst batches) in
          let* ys := hstack (map snd batches) in
          stack_phases mgr rest (pdict_set inputs phase xs) (pdict_set labels phase ys)
      end
  end.

(** [for phase in phases: predicts[phase] = self.model_manager.predict(...)]. *)
Fixpoint predict_phases (phases : list Phase) (inputs : pdict Array)
    (predicts : pdict Array) (e : Env) : Env * Res (pdict Array) :=
  match phases with
  | [] => (e, ok predicts)
  | phase :: rest =>
      match pdict_get inputs phase with
      | inl x => (e, inl x)
      | inr xs =>
          let e1 := log_call CPredict e in
          match mm_predict xs (model_manager e1) with
          | inl x => (e1, inl x)
          | inr p => predict_phases rest inputs (pdict_set predicts phase p) e1
          end
      end
  end.

(** The body of [for metric in self.metrics[phase]], on one reference. *)
Definition update_metric (loss : LossT) (preds labels : Array) (ref : nat) (e : Env) : Env :=
  set_store (alter (fun m => assign_best (metric_update loss preds labels m)) ref (store e)) e.

(** The metric loop over one phase; [loss] and [predicts] are the local
    variables of these names, [None] while unbound. *)
Definition update_phase (mgr : Manager) (loss : option LossT)
    (predicts : option (pdict Array)) (labels : pdict Array) (phase : Phase) (e : Env)
  : Env * Res unit :=
  match metrics mgr phase with
  | None => (e, raise (KeyError (phase_name phase)))
  | Some [] => (e, ok tt)
  | Some refs =>
      match loss, predicts with
      | None, _ => (e, raise (UnboundLocalError "loss"))
      | Some _, None => (e, raise (UnboundLocalError "predicts"))
      | Some l, Some ps =>
          match pdict_get ps phase, pdict_get labels phase with
          | inl x, _ => (e, inl x)
          | inr _, inl x => (e, inl x)
          | inr p, inr y => (fold_left (fun acc ref => update_metric l p y ref acc) refs e, ok tt)
          end
      end
  end.

Fixpoint update_phases (mgr : Manager) (loss : option LossT)
    (predicts : option (pdict Array)) (labels : pdict Array) (phases : list Phase) (e : Env)
  : Env * Res unit :=
  match phases with
  | [] => (e, ok tt)
  | phase :: rest =>
      let '(e1, r) := update_phase mgr loss predicts labels phase e in
      match r with
      | inl x => (e1, inl x)
      | inr _ => update_phases mgr loss predicts labels rest e1
      end
  end.

(** The text handed to [logger.info]. *)
Fixpoint message (mgr : Manager) (phases : list Phase) (e : Env) : Res string :=
  match phases with
  | [] => ok ""
  | phase :: rest =>
      match metrics mgr phase with
      | None => raise (KeyError (phase_name phase))
      | Some refs =>
          let shown :=
            omap (fun ref => (fun m => (name m ++ ": " ++ fmt4 (average (average_meter m)))%string)
                               <$> store e !! ref) refs in
          let* tail := message mgr rest e in
          ok (phase_name phase ++ " [" ++ String.concat tab shown ++ "]" ++ tab ++ tail)%string
      end
  end.

(** The phases a call runs, from its two flags. *)
Definition phases_of (with_validate only_validate : bool) : list Phase :=
  let phases := if with_validate then [train; val] else [train] in
  if only_validate then [val] else phases.

(** The block under [if 'train' in phases:]. It binds the local variables
    [loss] and [predicts]; when it is skipped they stay unbound. *)
Definition fit_and_predict (mgr : Manager) (phases : list Phase)
    (inputs labels : pdict Array) (e : Env)
  : Env * Res (option LossT * option (pdict Array)) :=
  if mem_phase train phases then
    match getitem (cfg mgr) "early_stopping" with
    | inl x => (e, inl x)
    | inr early_stopping =>
        let fit_args :=
          let* x := pdict_get inputs train in
          let* y := pdict_get labels train in
          if truthy early_stopping && mem_phase val phases then
            let* vx := pdict_get inputs val in
            let* vy := pdict_get labels val in
            ok (x, y, Some (vx, vy))
          else ok (x, y, None) in
        match fit_args with
        | inl x => (e, inl x)
        | inr (x, y, held_out) =>
            let e0 := log_call (CFit train) e in
            match mm_fit x y held_out (model_manager e0) with
            | inl err => (e0, inl err)
            | inr (m, loss) =>
                let '(e', rp) :=
                  predict_phases phases inputs [] (set_model_manager m e0) in
                match rp with
                | inl err => (e', inl err)
                | inr predicts => (e', ok (Some loss, Some predicts))
                end
            end
        end
    end
  else (e, ok (None, None)).

(** [train(model_manager=None, with_validate=True, only_validate=False)];
    the value returned is the last entry of [predicts]. *)
Definition train_ (mgr : Manager) (model_manager_arg : option MM)
    (with_validate only_validate : bool) (e : Env) : Env * Res Array :=
  let e := match model_manager_arg with
           | Some m => set_model_manager m e
           | None => e
           end in
  let phases := phases_of with_validate only_validate in
  match (let* _ := check_keys_from_dict mgr phases in stack_phases mgr phases [] []) with
  | inl x => (e, inl x)
  | inr (inputs, labels) =>
      let '(e1, r) := fit_and_predict mgr phases inputs labels e in
      match r with
      | inl x => (e1, inl x)
      | inr (loss, predicts) =>
          let '(e2, r2) := update_phases mgr loss predicts labels phases e1 in
          match r2 with
          | inl x => (e2, inl x)
          | inr _ =>
              match message mgr phases e2 with
              | inl x => (e2, inl x)
              | inr msg =>
                  let e3 := log_call CSave (logger_info msg e2) in
                  let '(w, rs) := mm_save_model (model_manager e3) (world e3) in
                  let e4 := set_world w e3 in
                  match rs with
                  | inl x => (e4, inl x)
                  | inr _ =>
                      match predicts with
                      | None => (e4, raise (UnboundLocalError "predicts"))
                      | Some ps =>
                          match last (map snd ps) with
                          | Some p => (e4, ok p)
                          | None => (e4, raise (IndexError "list index out of range"))
                          end
                      end
                  end
              end
          end
      end
  end.

End WithModelManager.

Arguments mkManager {Array}.
Arguments cfg {Array}.
Arguments dataloaders {Array}.
Arguments metrics {Array}.
Arguments mkEnv {MM W Score}.
Arguments model_manager {MM W Score}.
Arguments world {MM W Score}.
Arguments store {MM W Score}.
Arguments calls {MM W Score}.
Arguments info_log {MM W Score}.
Arguments log_call {MM W Score}.
Arguments set_model_manager {MM W Score}.
Arguments set_world {MM W Score}.
Arguments set_store {MM W Score}.
Arguments logger_info {MM W Score}.
Arguments check_keys_from_dict {Array}.
Arguments stack_phases {Array}.
Arguments predict_phases {MM W Array Score}.
Arguments update_metric {MM W Array LossT Score}.
Arguments update_phase {MM W Array LossT Score}.
Arguments update_phases {MM W Array LossT Score}.
Arguments message {MM W Array Score}.
Arguments fit_and_predict {MM W Array LossT Score}.
Arguments train_ {MM W Array LossT Score}.

End MLTrain.

(** ** What the metric loop of ml_train_manager.py is meant to do

    Written from the description of [train], not from its code: the
    properties below compare the loop with it. *)

Module MLTrainSpec.

Import ModelManager MLTrain.

(** One metric object after the overwrite: its [best_score] holds its
    current average, whatever it held before and whatever the metric's
    direction; nothing else about it changes. *)
Definition best_to_average {Score} (m : Metric Score) : Metric Score :=
  mkMetric (name m) (lower_is_better m) (save_model m)
    (mkMeter (value (average_meter m)) (sum (average_meter m)) (count (average_meter m))
       (average (average_meter m)) (average (average_meter m))).

(** How often a metric object is listed for a phase. *)
Definition listed_times {Array} (mgr : Manager Array) (phase : Phase) (ref : nat) : nat :=
  count_occ Nat.eq_dec (default [] (metrics mgr phase)) ref.

End MLTrainSpec.

(** ** Concrete instances

    A small, fully concrete world in which the definitions above can be
    run: an estimator that records what it was fitted on, a backend that
    wraps a [LightGBM] predictor, loaders over integer arrays and
    metrics whose meters follow the spec. *)

Module Meter.

Import MLTrain.

Local Open Scope Q_scope.

Definition Qltb (a b : Q) : bool := negb (Qle_bool b a).

(** Modelled from the spec: the meter's [update] folds one value into the
    running sum and count; average = sum / count. *)
Definition update (v : Q) (a : AverageMeter Q) : AverageMeter Q :=
  let s := Qred (sum a + v) in
  let c := S (count a) in
  {| value := v; sum := s; count := c;
     average := Qred (s / inject_Z (Z.of_nat c)); best_score := best_score a |}.

(** Modelled from the spec: [reset] zeroes sum and count; best is never
    cleared. *)
Definition reset (a : AverageMeter Q) : AverageMeter Q :=
  {| value := 0; sum := 0; count := 0; average := 0; best_score := best_score a |}.

(** Modelled from the spec: [update_best] compares the current average
    with the stored best by the metric's direction; on a strict
    improvement it stores the average and returns true. *)
Definition update_best (lower_is_better : bool) (a : AverageMeter Q)
  : bool * AverageMeter Q :=
  let improved :=
    if lower_is_better then Qltb (average a) (best_score a)
    else Qltb (best_score a) (average a) in
  if improved then
    (true, {| value := value a; sum := sum a; count := count a;
              average := average a; best_score := average a |})
  else (false, a).

End Meter.

Module Demo.

Import ModelManager.

(** The library estimator: whether it was fitted and its [best_score_]. *)
Record Estimator := mkEstimator {
  est_fitted : bool;
  est_best_score : DecisionTrees.ScoreDict
}.

(** The library's [fit]: one entry of [best_score_] per evaluation set,
    named as lightgbm names them. *)
Definition lib_fit (m : Estimator) (x y : list Z)
    (eval_set : list (list Z * option (list Z))) : Res Estimator :=
  ok {| est_fitted := true;
        est_best_score :=
          match eval_set with
          | [] => []
          | [_] => [("training", [("binary_logloss", (1 # 4)%Q)])]
          | _ => [("training", [("binary_logloss", (1 # 4)%Q)]);
                  ("valid_1", [("binary_logloss", (1 # 2)%Q)])]
          end |}.

Definition Predictor : Type := DecisionTrees.LightGBM Estimator.
Definition Files : Type := gmap string Estimator.

Definition fit (self : Predictor) (x y : list Z) (eval_x eval_y : option (list Z)) :=
  DecisionTrees.LightGBM_fit est_best_score lib_fit self x y eval_x eval_y.

(** [self.model.save_model(path)] for a path that is a string. *)
Definition inner_save (self : Predictor) (path : pyval) (files : Files) : Files * Res unit :=
  match path with
  | PAtom (AStr s) => (DecisionTrees.LightGBM_save_model self s files, ok tt)
  | _ => (files, raise (TypeError "expected str, bytes or os.PathLike object"))
  end.

(** Modelled from the spec: [load_model] of the wrapped predictor, which
    is not among these files: it restores from the path, and an absent
    file is a file-not-found failure. *)
Definition inner_load (self : Predictor) (path : pyval) (files : Files)
  : Files * Res Predictor :=
  match path with
  | PAtom (AStr s) =>
      match files !! s with
      | Some est =>
          (files, ok (DecisionTrees.mkLightGBM (DecisionTrees.classify self)
                        (DecisionTrees.params self) est))
      | None => (files, raise (FileNotFoundError ("No such file or directory: " ++ s)))
      end
  | _ => (files, raise (TypeError "expected str, bytes or os.PathLike object"))
  end.

Definition inner_fitted (self : Predictor) : bool := est_fitted (DecisionTrees.model self).

Definition py_str (v : pyval) : string :=
  match v with
  | PAtom (AStr s) => s
  | _ => ""
  end.

Definition Backend : Type := BaseModel.t Predictor.
Definition World : Type := BaseModel.World Files.

Definition blank : Predictor :=
  DecisionTrees.mkLightGBM true ∅ (mkEstimator false []).

Definition cfg0 : gmap string pyval :=
  list_to_map
    [("task_type", PStr "classify");
     ("loss_weight", PList [AFloat 1%Q; AFloat 1%Q]);
     ("model_path", PStr "model.pkl");
     ("model_type", PStr "xgboost");
     ("batch_size", PAtom (AInt 2));
     ("epochs", PAtom (AInt 1));
     ("silent", PAtom (ABool true));
     ("learning_anneal", PFloat (11 # 10));
     ("early_stopping", PAtom (ABool true))].

Definition cfg_regress : gmap string pyval := <["task_type" := PStr "regress"]> cfg0.

Definition labels2 : list atom := [AStr "neg"; AStr "pos"].
Definition labels3 : list atom := [AStr "a"; AStr "b"; AStr "c"].

(** An unfitted backend, as [__init__] leaves it. *)
Definition backend0 : Backend :=
  BaseModel.mk labels2 cfg0 (BaseModel.BCELoss [1; 1]%Q) false blank.

Definition world0 : World := BaseModel.mkWorld ∅ [].

(** The backend methods the manager calls. [predict] echoes its input
    batch; [fit] reports how many labels the batch gets wrong. *)
Definition model_predict (inputs : list Z) (m : Backend) (w : World)
  : World * Res (list Z) := (w, ok inputs).

Definition errors (inputs labels : list Z) : Q :=
  inject_Z (Z.of_nat (length (filter (fun p => fst p <> snd p) (zip inputs labels)))).

Definition model_fit (inputs labels : list Z) (phase : Phase) (m : Backend) (w : World)
  : World * Res (Backend * (Q * list Z)) :=
  (w, ok (m, (errors inputs labels, inputs))).

Definition model_save := BaseModel.save_model inner_save (FS := Files).
Definition model_load := BaseModel.load_model inner_load inner_fitted py_str.
Definition model_anneal_lr (la : pyval) (m : Backend) (w : World) : World * Res Backend :=
  (w, ok (BaseModel.anneal_lr la m)).
Definition model_criterion (m : Backend) (preds labels : list Z) : Res Q :=
  ok (errors preds labels).

Definition sentinel : Z := -1000000.
Definition is_sentinel (v : Z) : bool := Z.eqb v (-1000000).

(** The arrays of this world hold integers. Stored in an [np.int] buffer
    (64 bits) an integer wraps around; stored in an [np.float] buffer it
    is rounded to the nearest number with a significand of 53 bits, ties
    to even. *)
Definition wrap_int64 (z : Z) : Z := (z + 2 ^ 63) mod 2 ^ 64 - 2 ^ 63.

Definition round_float64 (z : Z) : Z :=
  let a := Z.abs z in
  let drop := Z.log2 a - 52 in
  if Z.leb drop 0 then z
  else
    let q := a / 2 ^ drop in
    let r := a mod 2 ^ drop in
    let half := 2 ^ (drop - 1) in
    let q' := if Z.ltb half r || (Z.eqb r half && Z.odd q) then q + 1 else q in
    Z.sgn z * (q' * 2 ^ drop).

Definition astype (d : Dtype) (z : Z) : Z :=
  match d with
  | NpInt => wrap_int64 z
  | NpFloat => round_float64 z
  end.

(** A meter with its metric's direction. *)
Definition DMeter : Type := bool * MLTrain.AverageMeter Q.

Definition update_best (a : DMeter) : bool * DMeter :=
  let '(flag, a') := Meter.update_best (fst a) (snd a) in (flag, (fst a, a')).
Definition reset (a : DMeter) : DMeter := (fst a, Meter.reset (snd a)).
Definition meter_value (a : DMeter) : Q := MLTrain.value (snd a).
Definition meter_average (a : DMeter) : Q := MLTrain.average (snd a).

Definition loss_number (lv : LossValue Q) : Q :=
  match lv with
  | Computed l => l
  | Literal z => inject_Z z
  end.

(** Modelled from the spec: [Metric.update] for a loss-passthrough
    metric folds the loss into the phase's meter. *)
Definition metric_update (phase : Phase) (lv : LossValue Q)
    (preds : list Z + list Z) (labels : list Z) (m : Metric DMeter) : Metric DMeter :=
  set_meter m phase
    (fst (average_meter m phase),
     Meter.update (loss_number lv) (snd (average_meter m phase))).

Definition no_text {A} (_ : A) : string := "".

Definition fresh_meter (lower : bool) (best : Q) : DMeter :=
  (lower, MLTrain.mkMeter 0%Q 0%Q 0%nat 0%Q best).

(** A lower-is-better, save-triggering loss metric and a
    higher-is-better accuracy metric that does not trigger saving. *)
Definition loss_metric : Metric DMeter :=
  mkMetric "loss" true (fun _ => fresh_meter true 10000).
Definition accuracy_metric : Metric DMeter :=
  mkMetric "accuracy" false (fun _ => fresh_meter false 0).

(** The loss metric after one validation batch with loss 1/2. *)
Definition val_loss_metric : Metric DMeter :=
  metric_update val (Computed (1 # 2)%Q) (inl []) [] loss_metric.

Definition test_batches : list (list Z * list Z) := [([0; 1], [0; 1]); ([1], [1])].

Definition loaders (p : Phase) : option (list (list Z * list Z)) :=
  match p with
  | train => Some [([0; 1], [0; 1]); ([1], [0])]
  | val => Some [([1; 1], [1; 0])]
  | test => Some test_batches
  | infer => None
  end.

Definition manager0 : Manager (list Z) Z := mkManager labels2 cfg0 loaders false.

Definition env0 : Env Backend Files Q := mkEnv backend0 world0 [] [].

Definition end_of_phase :=
  _update_by_epoch (Inputs := list Z) (V := Z) (Score := Q)
    model_save model_anneal_lr update_best reset py_str (pretty : Z -> string).

Definition learning_anneal : pyval := PFloat (11 # 10).

(** The end of a validation phase in which the loss metric improved, and
    the end of a train phase over the same metrics. *)
Definition end_of_val :=
  end_of_phase manager0 val 0 learning_anneal [val_loss_metric; accuracy_metric] env0.
Definition end_of_train :=
  end_of_phase manager0 train 0 learning_anneal [val_loss_metric; accuracy_metric] env0.

Definition predict_ :=
  _predict (Score := Q) model_predict sentinel is_sentinel astype "".

Definition run_test :=
  test_ (Fitted := list Z) model_predict model_load model_criterion sentinel is_sentinel
    astype
    metric_update meter_value no_text "" (fun _ _ _ => "").


(** A test loader whose second batch predicts the fill value. *)
Definition loaders_collision (p : Phase) : option (list (list Z * list Z)) :=
  match p with
  | test => Some [([1; 2], [0; 1]); ([-1000000], [1])]
  | _ => None
  end.

Definition manager_collision : Manager (list Z) Z :=
  mkManager labels2 cfg_regress loaders_collision false.

(** The one-shot manager over the same predictor. *)
Definition mm_fit (x y : list Z) (held_out : option (list Z * list Z)) (m : Predictor)
  : Res (Predictor * pyval) :=
  fit m x y (fst <$> held_out) (snd <$> held_out).
Definition mm_predict (x : list Z) (m : Predictor) : Res (list Z) := ok x.
Definition mm_save_model (m : Predictor) (files : Files) : Files * Res unit :=
  inner_save m (PStr "model.pkl") files.
Definition stack (l : list (list Z)) : Res (list Z) := ok (concat l).

(** Modelled from the spec: an accuracy metric's [update] folds the
    share of correct predictions into its meter. *)
Definition ml_metric_update (loss : pyval) (preds labels : list Z)
    (m : MLTrain.Metric Q) : MLTrain.Metric Q :=
  MLTrain.mkMetric (MLTrain.name m) (MLTrain.lower_is_better m) (MLTrain.save_model m)
    (Meter.update
       (1 - errors preds labels / inject_Z (Z.of_nat (length labels)))%Q
       (MLTrain.average_meter m)).

Definition ml_loaders (p : Phase) : option (list (list Z * list Z)) :=
  match p with
  | train => Some [([0; 1], [0; 1]); ([1; 1], [0; 1])]
  | val => Some [([1; 0], [1; 0])]
  | _ => None
  end.

Definition ml_metrics (p : Phase) : option (list nat) :=
  match p with
  | train => Some [0%nat]
  | val => Some [1%nat; 0%nat]
  | _ => None
  end.

Definition ml_manager : MLTrain.Manager (list Z) :=
  MLTrain.mkManager cfg0 ml_loaders ml_metrics.

Definition ml_store : gmap nat (MLTrain.Metric Q) :=
  list_to_map
    [(0%nat, MLTrain.mkMetric "accuracy" false false
               (MLTrain.mkMeter 0%Q 0%Q 0%nat 0%Q 1%Q));
     (1%nat, MLTrain.mkMetric "recall" false false
               (MLTrain.mkMeter 0%Q 0%Q 0%nat 0%Q (9 # 10)%Q))].

Definition ml_env0 : MLTrain.Env Predictor Files Q :=
  MLTrain.mkEnv blank ∅ ml_store [] [].

Definition ml_train :=
  MLTrain.train_ mm_fit mm_predict mm_save_model stack stack ml_metric_update no_text "".

(** Two epochs of [train] over the loaders above. *)
Definition manager_two_epochs : Manager (list Z) Z :=
  mkManager labels2 (<["epochs" := PAtom (AInt 2)]> cfg0) loaders false.

Definition train_run :=
  train_ (Score := Q) model_fit model_save model_anneal_lr metric_update update_best reset
    meter_value meter_average no_text no_text py_str pretty pretty ""
    manager_two_epochs [loss_metric; accuracy_metric] env0.

(** The runs the statements below look at. *)
Definition test_predictions := predict_all (Score := Q) model_predict test_batches env0.
Definition test_run := run_test manager0 false [loss_metric; accuracy_metric] env0.
Definition ml_run := ml_train ml_manager None true false ml_env0.
Definition ml_run_train_only := ml_train ml_manager None false false ml_env0.
Definition ml_run_only_validate := ml_train ml_manager None true true ml_env0.

End Demo.

(** ** The rest of model_manager.py *)

Module ManagerInit.

Import ModelManager.

Definition is_fit (c : Call) : bool :=
  match c with CFit _ => true | _ => false end.
Definition is_predict (c : Call) : bool :=
  match c with CPredict => true | _ => false end.

(** How often a kind of call occurs in a call record. *)
Definition count_calls (f : Call -> bool) (l : list Call) : nat :=
  length (List.filter f l).

(** [torch.device("cuda")] or [torch.device("cpu")]. *)
Inductive Device := Cuda | Cpu.

(** [v in names] for a list of string literals. *)
Definition in_names (v : pyval) (names : list string) : bool :=
  existsb (eq_str v) names.

(** What the train loader answers when asked for its sizes. *)
Record Sizing := mkSizing {
  get_input_size : pyval;
  get_batch_norm_size : pyval;
  get_seq_len : pyval;
  get_image_size : pyval;
  get_n_channels : pyval
}.

(** The generators [_init_seed] seeds, in the order it seeds them:
    [torch.manual_seed], [torch.cuda.manual_seed_all], [np.random.seed]
    and [random.seed]. *)
Inductive Generator := Torch | TorchCuda | Numpy | PyRandom.

(** The value each generator was seeded with. *)
Record Seeds := mkSeeds {
  torch_seed : pyval;
  cuda_seed : pyval;
  numpy_seed : pyval;
  random_seed : pyval
}.

Section WithConstructors.

(** [NNModel] and [MLModel] are built outside these files, and
    [supported_nn_models] is a constant of the module that defines
    [NNModel]. *)
Variable Model : Type.
Variable nn_model : list atom -> gmap string pyval -> Res Model.
Variable ml_model : list atom -> gmap string pyval -> Res Model.
Variable supported_nn_models : list string.

(** The seeding functions of torch, numpy and [random] are library code;
    each may reject the value it is given. *)
Variable seed_generator : Generator -> pyval -> Res unit.

(** [_init_device]: the device, and the GPU selected if any. *)
Definition _init_device (cfg : gmap string pyval) : Res (Device * option pyval) :=
  let* cuda := getitem cfg "cuda" in
  if truthy cuda then
    let* model_type := getitem cfg "model_type" in
    if in_names model_type supported_nn_models then
      let* gpu_id := getitem cfg "gpu_id" in
      ok (Cuda, Some gpu_id)
    else ok (Cpu, None)
  else ok (Cpu, None).

(** [_init_model]: the configuration as the method leaves it (it is
    changed in place also when a later step raises) and the backend, where
    [None] is Python's [None]. [train_sizes] is [None] when there is no
    train loader. *)
Definition _init_model (class_labels : list atom) (train_sizes : option Sizing)
    (cfg : gmap string pyval) : gmap string pyval * Res (option Model) :=
  match train_sizes with
  | None => (cfg, raise (KeyError "train"))
  | Some sz =>
      let cfg1 := <["input_size" := get_input_size sz]> cfg in
      match getitem cfg1 "model_type" with
      | inl x => (cfg1, inl x)
      | inr model_type =>
          if in_names model_type ["rnn"; "cnn"; "cnn_rnn"] then
            let cfg2 :=
              if in_names model_type ["rnn"; "cnn_rnn"] then
                <["seq_len" := get_seq_len sz]>
                  (<["batch_norm_size" := get_batch_norm_size sz]> cfg1)
              else
                <["n_channels" := get_n_channels sz]>
                  (<["image_size" := get_image_size sz]> cfg1) in
            (cfg2, rmap Some (nn_model class_labels cfg2))
          else if in_names model_type ["xgboost"; "catboost"; "sgdc"; "knn"] then
            (cfg1, rmap Some (ml_model class_labels cfg1))
          else (cfg1, ok None)
      end
  end.

(** [_init_seed]: four library calls, each reading [cfg['seed']]. *)
Definition _init_seed (cfg : gmap string pyval) : Res Seeds :=
  let* s1 := getitem cfg "seed" in
  let* _ := seed_generator Torch s1 in
  let* s2 := getitem cfg "seed" in
  let* _ := seed_generator TorchCuda s2 in
  let* s3 := getitem cfg "seed" in
  let* _ := seed_generator Numpy s3 in
  let* s4 := getitem cfg "seed" in
  let* _ := seed_generator PyRandom s4 in
  ok {| torch_seed := s1; cuda_seed := s2; numpy_seed := s3; random_seed := s4 |}.

(** [_init_logger] with the arguments the logger is built from. *)
Definition _init_logger_args (cfg : gmap string pyval) : Res (option (pyval * pyval)) :=
  match cfg !! "tensorboard" with
  | Some _ =>
      let* log_id := getitem cfg "log_id" in
      let* log_dir := getitem cfg "log_dir" in
      ok (Some (log_id, log_dir))
  | None => ok None
  end.

(** A manager as [__init__] leaves it. *)
Record Built := mkBuilt {
  built_cfg : gmap string pyval;
  built_device : Device;
  built_gpu : option pyval;
  built_model : option Model;
  built_seeds : Seeds;
  built_logger : option (pyval * pyval);
  built_model_dir_of : string
}.

(** [BaseModelManager.__init__]; the last step makes the directory that
    is to hold the file at [model_path], which must be a path string. *)
Definition __init__ (class_labels : list atom) (cfg : gmap string pyval)
    (train_sizes : option Sizing) : Res Built :=
  let* dev := _init_device cfg in
  let '(cfg', r) := _init_model class_labels train_sizes cfg in
  let* model := r in
  let* seeds := _init_seed cfg' in
  let* logger := _init_logger_args cfg' in
  let* model_path := getitem cfg' "model_path" in
  match model_path with
  | PAtom (AStr path) =>
      ok {| built_cfg := cfg'; built_device := fst dev; built_gpu := snd dev;
            built_model := model; built_seeds := seeds; built_logger := logger;
            built_model_dir_of := path |}
  | _ => raise (TypeError "expected str, bytes or os.PathLike object")
  end.

End WithConstructors.

Arguments _init_model {Model}.
Arguments __init__ {Model}.
Arguments mkBuilt {Model}.
Arguments built_cfg {Model}.
Arguments built_device {Model}.
Arguments built_gpu {Model}.
Arguments built_model {Model}.
Arguments built_seeds {Model}.
Arguments built_logger {Model}.
Arguments built_model_dir_of {Model}.

(** The keys [_init_model] may write. *)
Definition sizing_keys : list string :=
  ["input_size"; "batch_norm_size"; "seq_len"; "image_size"; "n_channels"].

End ManagerInit.

(** ** The rest of ml_models/decision_trees.py *)

Module DecisionTreesInit.

Import DecisionTrees.

(** The keyword arguments of the [dict(...)] in [LightGBM.__init__] that
    are read from the configuration, in the order written: parameter
    name and configuration key. *)
Definition lgbm_param_sources : list (string * string) :=
  [("num_leaves", "n_leaves"); ("learning_rate", "lr"); ("max_depth", "max_depth");
   ("subsample", "subsample"); ("n_jobs", "n_jobs"); ("reg_lambda", "reg_lambda");
   ("reg_alpha", "reg_alpha"); ("seed", "seed"); ("max_bin", "max_bin");
   ("num_iterations", "num_iterations"); ("min_child_samples", "min_data_in_leaf");
   ("colsample_bytree", "feature_fraction")].

(** Evaluate the entries of a dict literal from left to right. *)
Fixpoint copy_entries (cfg : gmap string pyval) (sources : list (string * string))
    (acc : gmap string pyval) : Res (gmap string pyval) :=
  match sources with
  | [] => ok acc
  | (param, key) :: rest =>
      let* v := getitem cfg key in
      copy_entries cfg rest (<[param := v]> acc)
  end.

Section WithLibrary.

(** The estimator classes of lightgbm and the base predictor's
    [__init__] are outside these files. *)
Variable Estimator : Type.
Variable LGBMClassifier : gmap string pyval -> Res Estimator.
Variable LGBMRegressor : gmap string pyval -> Res Estimator.
Variable base_init : list atom -> gmap string pyval -> Res unit.

(** [LightGBM.__init__(class_labels, cfg)]. *)
Definition LightGBM_init (class_labels : list atom) (cfg : gmap string pyval)
  : Res (LightGBM Estimator) :=
  let* task_type := getitem cfg "task_type" in
  let classify := eq_str task_type "classify" in
  let* params :=
    copy_entries cfg lgbm_param_sources
      (<["missing" := PAtom ANone]> (<["class_weight" := PStr "balanced"]> ∅)) in
  let* built :=
    if classify then
      let* class_names := getitem cfg "class_names" in
      let* n := len class_names in
      let* params :=
        if Nat.eqb n 2 then
          ok (<["objective" := PStr "binary"]> (<["metric" := PStr "binary_logloss"]> params))
        else
          let* class_names' := getitem cfg "class_names" in
          let* n' := len class_names' in
          ok (<["metric" := PStr "multi_logloss"]>
                (<["num_class" := PAtom (AInt (Z.of_nat n'))]> params)) in
      let* model := LGBMClassifier params in
      ok (params, model)
    else
      let params :=
        <["metric" := PStr "rmse"]> (<["objective" := PStr "regression"]> params) in
      let* n_estimators := getitem cfg "n_estimators" in
      let* model := LGBMRegressor (<["num_trees" := n_estimators]> params) in
      ok (params, model) in
  let* _ := base_init class_labels cfg in
  ok {| classify := classify; params := fst built; model := snd built |}.

End WithLibrary.

Arguments LightGBM_init {Estimator}.

End DecisionTreesInit.

(** ** Concrete constructions *)

Module DemoInit.

Import ModelManager ManagerInit.

(** A manager whose infer loader delivers the test batches. *)
Definition loaders_infer (p : Phase) : option (list (list Z * list Z)) :=
  match p with
  | infer => Some Demo.test_batches
  | _ => Demo.loaders p
  end.

Definition manager_infer : Manager (list Z) Z :=
  mkManager Demo.labels2 Demo.cfg0 loaders_infer false.

Definition run_infer :=
  infer_ (Score := Q) Demo.model_predict Demo.model_load Demo.sentinel Demo.is_sentinel
    Demo.astype "".

(** What a train loader of eight features answers. *)
Definition sizes : Sizing :=
  mkSizing (PAtom (AInt 8)) (PAtom (AInt 2)) (PAtom (AInt 16))
           (PList [AInt 4; AInt 4]) (PAtom (AInt 1)).

Definition cfg_manager : gmap string pyval :=
  <["cuda" := PAtom (ABool true)]> (<["seed" := PAtom (AInt 7)]> Demo.cfg0).

(** Stand-ins for [NNModel] and [MLModel]: both build the backend of
    [BaseModel.__init__] around a blank predictor. *)
Definition build_backend (class_labels : list atom) (cfg : gmap string pyval)
  : Res Demo.Backend :=
  BaseModel.__init__ class_labels cfg ["task_type"] Demo.blank.

(** A seeding function that takes integers only. *)
Definition seed_generator (g : Generator) (v : pyval) : Res unit :=
  match as_int v with
  | Some _ => ok tt
  | None => raise (TypeError "an integer is required")
  end.

Definition build_manager :=
  __init__ build_backend build_backend ["rnn"; "cnn"; "cnn_rnn"] seed_generator
    Demo.labels2 cfg_manager (Some sizes).

(** A LightGBM configuration for a two-class task. *)
Definition cfg_lgbm : gmap string pyval :=
  list_to_map
    [("task_type", PStr "classify");
     ("class_names", PList [AStr "neg"; AStr "pos"]);
     ("n_leaves", PAtom (AInt 32)); ("lr", PFloat (1 # 10));
     ("max_depth", PAtom (AInt 5)); ("subsample", PFloat (4 # 5));
     ("n_jobs", PAtom (AInt 4)); ("reg_lambda", PFloat (1 # 2));
     ("reg_alpha", PFloat (1 # 2)); ("seed", PAtom (AInt 0));
     ("max_bin", PAtom (AInt 255)); ("num_iterations", PAtom (AInt 1000));
     ("min_data_in_leaf", PAtom (AInt 50)); ("feature_fraction", PFloat (4 # 5))].

(** The same configuration without a learning rate. *)
Definition cfg_lgbm_no_lr : gmap string pyval := delete "lr" cfg_lgbm.

Definition new_estimator (params : gmap string pyval) : Res Demo.Estimator :=
  ok (Demo.mkEstimator false []).

Definition base_init (class_labels : list atom) (cfg : gmap string pyval) : Res unit :=
  ok tt.

Definition build_lgbm (cfg : gmap string pyval) :=
  DecisionTreesInit.LightGBM_init new_estimator new_estimator base_init Demo.labels2 cfg.

End DemoInit.

(** ** Exceptions of the network modules *)

Module PyExt.

(** What a call into the network code can raise: one of the exceptions
    above, the tensor library's [RuntimeError] or [NotImplementedError]. *)
Inductive err :=
| Builtin (e : exn)
| RuntimeError (msg : string)
| NotImplementedError.

Definition Out (A : Type) : Type := err + A.

Definition lift {A} (r : Res A) : Out A :=
  match r with
  | inl e => inl (Builtin e)
  | inr a => inr a
  end.

Definition obind {A B} (m : Out A) (k : A -> Out B) : Out B :=
  match m with
  | inl e => inl e
  | inr a => k a
  end.

End PyExt.

Import PyExt.

Notation "'let+' x ':=' m 'in' k" := (obind m (fun x => k))
  (at level 10, x pattern, m at level 100, k at level 200).

(** ** models/rnn.py *)

Module Rnn.

Import ModelManager.

(** The recurrent layer classes: [nn.LSTM], [nn.RNN], [nn.GRU], and any
    other class by its [__name__]. *)
Inductive RnnClass :=
| LSTM
| RNN
| GRU
| OtherClass (name : string).

Definition class_eqb (a b : RnnClass) : bool :=
  match a, b with
  | LSTM, LSTM | RNN, RNN | GRU, GRU => true
  | OtherClass x, OtherClass y => String.eqb x y
  | _, _ => false
  end.

Definition class_name (c : RnnClass) : string :=
  match c with
  | LSTM => "LSTM"
  | RNN => "RNN"
  | GRU => "GRU"
  | OtherClass name => name
  end.

Definition supported_rnns : list (string * RnnClass) :=
  [("lstm", LSTM); ("rnn", RNN); ("gru", GRU)].

(** [dict((v, k) for k, v in supported_rnns.items())]. *)
Definition supported_rnns_inv : list (RnnClass * string) :=
  map (fun kv => (snd kv, fst kv)) supported_rnns.

(** [d.get(key)] on a dict given by its items. *)
Definition lookup_name (key : string) (d : list (string * RnnClass)) : option RnnClass :=
  snd <$> List.find (fun kv => String.eqb (fst kv) key) d.

Definition lookup_class (key : RnnClass) (d : list (RnnClass * string)) : option string :=
  snd <$> List.find (fun kv => class_eqb (fst kv) key) d.

(** The message of the [TypeError] for a call that leaves parameters
    without a default unbound; [given] pairs each such parameter with
    whether the call supplies it. *)
Definition missing (given : list (string * bool)) : list string :=
  fst <$> List.filter (fun p => negb (snd p)) given.

Definition missing_arguments (given : list (string * bool)) : err :=
  Builtin (TypeError ("__init__() missing required positional arguments: "
                      ++ String.concat ", " (missing given))).

Section WithTorch.

(** The layers of torch and the objects that only pass through: a
    recurrent cell, a batch normalisation, a linear layer, a convolution
    stack, and everything else a checkpoint can hold. *)
Variables Cell BatchNorm Linear Conv Opaque : Type.
Variable new_cell : RnnClass -> pyval -> pyval -> pyval -> Out Cell.
Variable BatchNorm1d : pyval -> Out BatchNorm.
Variable new_linear : pyval -> pyval -> Out Linear.

(** Python's [a * b], and the [repr] in the [KeyError] of a key that is
    not a string. *)
Variable py_mul : pyval -> pyval -> Out pyval.
Variable py_repr : atom -> string.

Record BatchRNN := mkBatchRNN {
  input_size : pyval;
  batch_size : pyval;
  hidden_size : pyval;
  bidirectional : pyval;
  batch_norm : option BatchNorm;
  rnn : Cell;
  num_directions : Z
}.

(** [BatchRNN.__init__]; every caller in this file passes all of its
    arguments. *)
Definition BatchRNN_init (input_size seq_len hidden_size batch_size : pyval)
    (rnn_type : RnnClass) (bidirectional batch_norm : pyval) : Out BatchRNN :=
  let+ bn :=
    if truthy batch_norm then
      let+ b := BatchNorm1d batch_size in inr (Some b)
    else inr None in
  let+ cell := new_cell rnn_type input_size hidden_size bidirectional in
  inr {| input_size := input_size; batch_size := batch_size; hidden_size := hidden_size;
         bidirectional := bidirectional; batch_norm := bn; rnn := cell;
         num_directions := if truthy bidirectional then 2 else 1 |}.

Record RNNClassifier := mkRNNClassifier {
  rnns : list (string * BatchRNN);
  fc : BatchNorm * Linear;
  is_inference_softmax : pyval
}.

(** The loop [for x in range(n_layers - 1)] of [RNNClassifier.__init__],
    [k] rounds to go, the next [x] being [x]. *)
Fixpoint more_layers (seq_len hidden batch_size : pyval) (rnn_type : RnnClass)
    (bidirectional batch_norm : pyval) (k x : nat) (acc : list (string * BatchRNN))
  : Out (list (string * BatchRNN)) :=
  match k with
  | O => inr acc
  | S k' =>
      let+ layer :=
        BatchRNN_init hidden seq_len hidden batch_size rnn_type bidirectional batch_norm in
      more_layers seq_len hidden batch_size rnn_type bidirectional batch_norm k' (S x)
        (acc ++ [(pretty (x + 1)%nat, layer)])
  end.

(** The body of [RNNClassifier.__init__], all parameters bound. *)
Definition RNNClassifier_body (batch_size input_size seq_len output_size : pyval)
    (rnn_type : RnnClass)
    (rnn_hidden_size n_layers bidirectional is_inference_softmax batch_norm : pyval)
  : Out RNNClassifier :=
  let+ first :=
    BatchRNN_init input_size seq_len rnn_hidden_size batch_size rnn_type bidirectional
      batch_norm in
  let+ n :=
    match as_int n_layers with
    | Some z => inr (Z.to_nat (z - 1))
    | None => inl (Builtin (TypeError "unsupported operand type(s) for -"))
    end in
  let+ layers :=
    more_layers seq_len rnn_hidden_size batch_size rnn_type bidirectional batch_norm n 0
      [("0", first)] in
  let+ bn := BatchNorm1d batch_size in
  let+ in_features := py_mul rnn_hidden_size seq_len in
  let+ linear := new_linear in_features output_size in
  inr {| rnns := layers; fc := (bn, linear); is_inference_softmax := is_inference_softmax |}.

(** A call [RNNClassifier(...)]: each parameter is supplied or not. The
    four parameters without a default must be supplied. *)
Definition RNNClassifier_new (batch_size input_size seq_len output_size : option pyval)
    (rnn_type : option RnnClass)
    (rnn_hidden_size n_layers bidirectional is_inference_softmax batch_norm : option pyval)
  : Out RNNClassifier :=
  match batch_size, input_size, seq_len, output_size with
  | Some batch_size, Some input_size, Some seq_len, Some output_size =>
      RNNClassifier_body batch_size input_size seq_len output_size
        (default LSTM rnn_type)
        (default (PAtom (AInt 768)) rnn_hidden_size)
        (default (PAtom (AInt 5)) n_layers)
        (default (PAtom (ABool true)) bidirectional)
        (default (PAtom (ABool true)) is_inference_softmax)
        (default (PAtom (ABool true)) batch_norm)
  | _, _, _, _ =>
      inl (missing_arguments
             [("batch_size", bool_decide (is_Some batch_size));
              ("input_size", bool_decide (is_Some input_size));
              ("seq_len", bool_decide (is_Some seq_len));
              ("output_size", bool_decide (is_Some output_size))])
  end.

(** [supported_rnns[key]]. *)
Definition supported_rnns_getitem (key : pyval) : Out RnnClass :=
  match key with
  | PAtom (AStr s) =>
      match lookup_name s supported_rnns with
      | Some c => inr c
      | None => inl (Builtin (KeyError s))
      end
  | PAtom a => inl (Builtin (KeyError (py_repr a)))
  | PList _ => inl (Builtin (TypeError "unhashable type: 'list'"))
  end.

(** [construct_rnn(cfg, output_size)]. The statements after
    [raise NotImplementedError] are never run. *)
Definition construct_rnn (cfg : gmap string pyval) (output_size : pyval)
  : Out RNNClassifier :=
  let+ rnn_type := lift (getitem cfg "rnn_type") in
  if eq_str rnn_type "deepspeech" then inl NotImplementedError
  else
    let+ batch_size := lift (getitem cfg "batch_size") in
    let+ input_size := lift (getitem cfg "input_size") in
    let+ seq_len := lift (getitem cfg "seq_len") in
    let+ cls := supported_rnns_getitem rnn_type in
    let+ rnn_hidden_size := lift (getitem cfg "rnn_hidden_size") in
    let+ n_layers := lift (getitem cfg "rnn_n_layers") in
    let+ bidirectional := lift (getitem cfg "bidirectional") in
    let is_inference_softmax :=
      default (PAtom (ABool true)) (cfg !! "is_inference_softmax") in
    let+ batch_norm := lift (getitem cfg "batch_norm") in
    RNNClassifier_new (Some batch_size) (Some input_size) (Some seq_len) (Some output_size)
      (Some cls) (Some rnn_hidden_size) (Some n_layers) (Some bidirectional)
      (Some is_inference_softmax) (Some batch_norm).

(** A value of a checkpoint dict or an attribute of a model. *)
Inductive value :=
| VPy (v : pyval)
| VObj (o : Opaque).

Definition is_none (v : value) : bool :=
  match v with
  | VPy (PAtom ANone) => true
  | _ => false
  end.

Record DeepSpeech := mkDeepSpeech {
  base : RNNClassifier;
  version : string;
  ds_hidden_size : value;
  hidden_layers : value;
  ds_rnn_type : RnnClass;
  eeg_conf : value;
  labels : value;
  ds_bidirectional : value;
  conv : Conv
}.

(** The empty dict [{}], the truth value of an object, and [x or {}]. *)
Variable empty_dict : Opaque.
Variable object_truthy : Opaque -> bool.

Definition or_empty_dict (v : value) : value :=
  match v with
  | VPy p => if truthy p then v else VObj empty_dict
  | VObj o => if object_truthy o then v else VObj empty_dict
  end.

(** A call [DeepSpeech(...)]: [conv], [conv_out_ftrs] and [batch_size]
    have no default. The call of the parent's [__init__] supplies
    [batch_size], [input_size], [rnn_type], [rnn_hidden_size], [n_layers],
    [bidirectional] and [is_inference_softmax]. *)
Definition DeepSpeech_new (conv : option Conv) (conv_out_ftrs batch_size : option pyval)
    (rnn_type : option RnnClass) (labels eeg_conf rnn_hidden_size n_layers
                                   bidirectional : option value)
    (is_inference_softmax : option pyval) : Out DeepSpeech :=
  match conv, conv_out_ftrs, batch_size with
  | Some conv, Some conv_out_ftrs, Some batch_size =>
      let+ base :=
        RNNClassifier_new (Some batch_size) (Some conv_out_ftrs) None None (Some LSTM)
          (Some (PAtom (AInt 768))) (Some (PAtom (AInt 5))) (Some (PAtom (ABool true)))
          (Some (default (PAtom (ABool true)) is_inference_softmax)) None in
      let eeg_conf := default (VPy (PAtom ANone)) eeg_conf in
      let eeg_conf := if is_none eeg_conf then VObj empty_dict else eeg_conf in
      inr {| base := base; version := "0.0.1";
             ds_hidden_size := default (VPy (PAtom (AInt 768))) rnn_hidden_size;
             hidden_layers := default (VPy (PAtom (AInt 5))) n_layers;
             ds_rnn_type := default LSTM rnn_type;
             eeg_conf := or_empty_dict eeg_conf;
             labels := default (VPy (PStr "abc")) labels;
             ds_bidirectional := default (VPy (PAtom (ABool true))) bidirectional;
             conv := conv |}
  | _, _, _ =>
      inl (missing_arguments
             [("conv", bool_decide (is_Some conv));
              ("conv_out_ftrs", bool_decide (is_Some conv_out_ftrs));
              ("batch_size", bool_decide (is_Some batch_size))])
  end.

(** [package[key]] and [supported_rnns[package['rnn_type']]]; a key that
    is an object raises what the object's hash or the lookup raises. *)
Variable object_key_error : Opaque -> err.

Definition package_getitem (package : gmap string value) (key : string) : Out value :=
  match package !! key with
  | Some v => inr v
  | None => inl (Builtin (KeyError key))
  end.

Definition supported_rnns_getitem_value (key : value) : Out RnnClass :=
  match key with
  | VPy k => supported_rnns_getitem k
  | VObj o => inl (object_key_error o)
  end.

(** [load_state_dict] of the model. *)
Variable load_state_dict : value -> DeepSpeech -> Out DeepSpeech.

(** [DeepSpeech.load_model_package(package)]. *)
Definition load_model_package (package : gmap string value) : Out DeepSpeech :=
  let+ hidden_size := package_getitem package "hidden_size" in
  let+ hidden_layers := package_getitem package "hidden_layers" in
  let+ labels := package_getitem package "labels" in
  let+ eeg_conf := package_getitem package "eeg_conf" in
  let+ rnn_type_name := package_getitem package "rnn_type" in
  let+ rnn_type := supported_rnns_getitem_value rnn_type_name in
  let bidirectional := default (VPy (PAtom (ABool true))) (package !! "bidirectional") in
  let+ model :=
    DeepSpeech_new None None None (Some rnn_type) (Some labels) (Some eeg_conf)
      (Some hidden_size) (Some hidden_layers) (Some bidirectional) None in
  let+ state := package_getitem package "state_dict" in
  load_state_dict state model.

(** [torch.load(path, ...)] and [flatten_parameters] of the layers. *)
Variable torch_load : string -> Out (gmap string value).
Variable flatten_parameters : DeepSpeech -> Out DeepSpeech.

(** [DeepSpeech.load_model(path)]. *)
Definition load_model (path : string) : Out DeepSpeech :=
  let+ package := torch_load path in
  let+ hidden_size := package_getitem package "hidden_size" in
  let+ hidden_layers := package_getitem package "hidden_layers" in
  let+ labels := package_getitem package "labels" in
  let+ eeg_conf := package_getitem package "eeg_conf" in
  let+ rnn_type_name := package_getitem package "rnn_type" in
  let+ rnn_type := supported_rnns_getitem_value rnn_type_name in
  let bidirectional := default (VPy (PAtom (ABool true))) (package !! "bidirectional") in
  let+ model :=
    DeepSpeech_new None None None (Some rnn_type) (Some labels) (Some eeg_conf)
      (Some hidden_size) (Some hidden_layers) (Some bidirectional) None in
  let+ state := package_getitem package "state_dict" in
  let+ model := load_state_dict state model in
  flatten_parameters model.

(** The methods [serialize] calls on the objects handed to it, and
    [epoch + 1] for an [epoch] that is an object. *)
Variable model_state_dict : DeepSpeech -> Out value.
Variable optimizer_state_dict : value -> Out value.
Variable object_add_one : Opaque -> Out value.
Variable str_lower : string -> string.

(** [epoch + 1]. *)
Definition add_one (v : value) : Out value :=
  match v with
  | VPy (PAtom (AInt z)) => inr (VPy (PAtom (AInt (z + 1))))
  | VPy (PAtom (ABool b)) => inr (VPy (PAtom (AInt ((if b then 1 else 0) + 1))))
  | VPy (PAtom (AFloat q)) => inr (VPy (PAtom (AFloat (q + 1))))
  | VPy _ => inl (Builtin (TypeError "unsupported operand type(s) for +"))
  | VObj o => object_add_one o
  end.

(** [DeepSpeech.serialize]; an argument left out is [None]. *)
Definition serialize (model : DeepSpeech)
    (optimizer epoch iteration loss_results cer_results wer_results avg_loss meta : value)
  : Out (gmap string value) :=
  let rnn_type_name :=
    default (str_lower (class_name (ds_rnn_type model)))
            (lookup_class (ds_rnn_type model) supported_rnns_inv) in
  let+ state := model_state_dict model in
  let package : gmap string value :=
    <["bidirectional" := ds_bidirectional model]>
      (<["state_dict" := state]>
         (<["labels" := labels model]>
            (<["eeg_conf" := eeg_conf model]>
               (<["rnn_type" := VPy (PStr rnn_type_name)]>
                  (<["hidden_layers" := hidden_layers model]>
                     (<["hidden_size" := ds_hidden_size model]>
                        (<["version" := VPy (PStr (version model))]> ∅))))))) in
  let+ package :=
    if negb (is_none optimizer) then
      let+ optim := optimizer_state_dict optimizer in
      inr (<["optim_dict" := optim]> package)
    else inr package in
  let package :=
    if negb (is_none avg_loss) then <["avg_loss" := avg_loss]> package else package in
  let+ package :=
    if negb (is_none epoch) then
      let+ next_epoch := add_one epoch in
      inr (<["epoch" := next_epoch]> package)
    else inr package in
  let package :=
    if negb (is_none iteration) then <["iteration" := iteration]> package else package in
  let package :=
    if negb (is_none loss_results) then
      <["wer_results" := wer_results]>
        (<["cer_results" := cer_results]> (<["loss_results" := loss_results]> package))
    else package in
  let package := if negb (is_none meta) then <["meta" := meta]> package else package in
  inr package.

End WithTorch.

Arguments mkBatchRNN {Cell BatchNorm}.
Arguments input_size {Cell BatchNorm}.
Arguments batch_size {Cell BatchNorm}.
Arguments hidden_size {Cell BatchNorm}.
Arguments bidirectional {Cell BatchNorm}.
Arguments batch_norm {Cell BatchNorm}.
Arguments rnn {Cell BatchNorm}.
Arguments num_directions {Cell BatchNorm}.
Arguments mkRNNClassifier {Cell BatchNorm Linear}.
Arguments rnns {Cell BatchNorm Linear}.
Arguments fc {Cell BatchNorm Linear}.
Arguments is_inference_softmax {Cell BatchNorm Linear}.
Arguments VPy {Opaque}.
Arguments VObj {Opaque}.
Arguments is_none {Opaque}.
Arguments mkDeepSpeech {Cell BatchNorm Linear Conv Opaque}.
Arguments base {Cell BatchNorm Linear Conv Opaque}.
Arguments version {Cell BatchNorm Linear Conv Opaque}.
Arguments ds_hidden_size {Cell BatchNorm Linear Conv Opaque}.
Arguments hidden_layers {Cell BatchNorm Linear Conv Opaque}.
Arguments ds_rnn_type {Cell BatchNorm Linear Conv Opaque}.
Arguments eeg_conf {Cell BatchNorm Linear Conv Opaque}.
Arguments labels {Cell BatchNorm Linear Conv Opaque}.
Arguments ds_bidirectional {Cell BatchNorm Linear Conv Opaque}.
Arguments conv {Cell BatchNorm Linear Conv Opaque}.
Arguments package_getitem {Opaque}.

End Rnn.

(** ** preprocess/augment.py *)

Module Augment.

(** [t[i]] on a tuple, with Python's negative indices. *)
Definition tuple_getitem (t : list nat) (i : Z) : Out nat :=
  let j := if Z.ltb i 0 then i + Z.of_nat (length t) else i in
  if Z.ltb j 0 then inl (Builtin (IndexError "tuple index out of range"))
  else match nth_error t (Z.to_nat j) with
       | Some v => inr v
       | None => inl (Builtin (IndexError "tuple index out of range"))
       end.

(** [bgn <= i < bgn + distance]: index [i] lies in the slice
    [bgn : bgn + distance]. *)
Definition in_stripe (bgn distance : Z) (i : nat) : bool :=
  Z.leb bgn (Z.of_nat i) && Z.ltb (Z.of_nat i) (bgn + distance).

Section WithTensor.

(** Tensor elements with their 0, Python floats with the two operations
    the module applies to the drop rate, and the state of the random
    generator. *)
Variable A : Type.
Variable zero : A.
Variable Float : Type.
Variable float_is_zero : Float -> bool.
Variable int_of_product : Z -> Float -> Out Z.
Variable Rng : Type.
Variable next : Rng -> Z * Rng.

(** A dense tensor: its shape and its element at each index. *)
Record Tensor := mkTensor {
  shape : list nat;
  data : list nat -> A
}.

Record DropStripes := mkDropStripes {
  dim : Z;
  drop_rate : Float;
  stripes_num : Z;
  training : bool
}.

(** [DropStripes.__init__]; a new module is in training mode. *)
Definition __init__ (dim : Z) (drop_rate : Float) (stripes_num : Z) : Out DropStripes :=
  if Z.eqb dim 2 || Z.eqb dim 3 then
    inr {| dim := dim; drop_rate := drop_rate; stripes_num := stripes_num;
           training := true |}
  else inl (Builtin (AssertionError "")).

(** [torch.randint(low=low, high=high, size=(1,))[0]]: an integer of
    [low .. high - 1] read off the generator, and a [RuntimeError] when
    that range is empty. *)
Definition randint (low high : Z) (g : Rng) : Rng * Out Z :=
  if Z.leb high low then
    (g, inl (RuntimeError "random_ expects 'from' to be less than 'to'"))
  else
    let '(raw, g') := next g in
    (g', inr (low + raw mod (high - low))).

(** [input[n][:, bgn : bgn + distance, :] = 0] for [axis = 2] and
    [input[n][:, :, bgn : bgn + distance] = 0] for [axis = 3], with
    [0 <= bgn] and [0 <= distance] as [randint] delivers them. *)
Definition zero_stripe (axis n : nat) (bgn distance : Z) (t : Tensor) : Tensor :=
  {| shape := shape t;
     data := fun ix =>
               if Nat.eqb (nth 0 ix 0%nat) n && in_stripe bgn distance (nth axis ix 0%nat)
               then zero else data t ix |}.

(** The loop of [transform_slice] on sample [n] of the batch, [k]
    stripes to go. The tensor is changed in place, so it is part of the
    state also when a later draw fails. *)
Fixpoint drop_stripes (self : DropStripes) (n : nat) (total_width : Z) (k : nat)
    (t : Tensor) (g : Rng) : (Tensor * Rng) * Out unit :=
  match k with
  | O => ((t, g), inr tt)
  | S k' =>
      match int_of_product total_width (drop_rate self) with
      | inl x => ((t, g), inl x)
      | inr width =>
          let '(g1, r1) := randint 0 width g in
          match r1 with
          | inl x => ((t, g1), inl x)
          | inr distance =>
              let '(g2, r2) := randint 0 (total_width - distance) g1 in
              match r2 with
              | inl x => ((t, g2), inl x)
              | inr bgn =>
                  let t' :=
                    if Z.eqb (dim self) 2 then zero_stripe 2 n bgn distance t
                    else if Z.eqb (dim self) 3 then zero_stripe 3 n bgn distance t
                    else t in
                  drop_stripes self n total_width k' t' g2
              end
          end
      end
  end.

Definition transform_slice (self : DropStripes) (n : nat) (total_width : Z)
    (t : Tensor) (g : Rng) : (Tensor * Rng) * Out unit :=
  drop_stripes self n total_width (Z.to_nat (stripes_num self)) t g.

(** [for n in range(batch_size): self.transform_slice(input[n], total_width)]. *)
Fixpoint transform_samples (self : DropStripes) (total_width : Z) (ns : list nat)
    (t : Tensor) (g : Rng) : (Tensor * Rng) * Out unit :=
  match ns with
  | [] => ((t, g), inr tt)
  | n :: rest =>
      match transform_slice self n total_width t g with
      | (s, inl x) => (s, inl x)
      | ((t1, g1), inr _) => transform_samples self total_width rest t1 g1
      end
  end.

(** [DropStripes.forward]. What it returns is its argument, changed in
    place: the tensor of the resulting state. *)
Definition forward (self : DropStripes) (input : Tensor) (g : Rng)
  : (Tensor * Rng) * Out unit :=
  if negb (Nat.eqb (length (shape input)) 4) then
    ((input, g), inl (Builtin (AssertionError "")))
  else if negb (training self) || float_is_zero (drop_rate self) then
    ((input, g), inr tt)
  else
    match tuple_getitem (shape input) 0, tuple_getitem (shape input) (dim self) with
    | inl x, _ => ((input, g), inl x)
    | inr _, inl x => ((input, g), inl x)
    | inr batch_size, inr total_width =>
        transform_samples self (Z.of_nat total_width) (seq 0 batch_size) input g
    end.

Record SpecAugment := mkSpecAugment {
  time_dropper : DropStripes;
  freq_dropper : DropStripes
}.

(** [SpecAugment.__init__]; both stripe counts default to 1. *)
Definition SpecAugment_init (time_drop_rate freq_drop_rate : Float)
    (time_stripes_num freq_stripes_num : option Z) : Out SpecAugment :=
  match __init__ 2 time_drop_rate (default 1 time_stripes_num) with
  | inl x => inl x
  | inr td =>
      match __init__ 3 freq_drop_rate (default 1 freq_stripes_num) with
      | inl x => inl x
      | inr fd => inr {| time_dropper := td; freq_dropper := fd |}
      end
  end.

(** [SpecAugment.__call__]. *)
Definition __call__ (self : SpecAugment) (spect : Tensor) (g : Rng)
  : (Tensor * Rng) * Out unit :=
  match forward (time_dropper self) spect g with
  | (s, inl x) => (s, inl x)
  | ((y, g1), inr _) => forward (freq_dropper self) y g1
  end.

End WithTensor.

Arguments mkTensor {A}.
Arguments shape {A}.
Arguments data {A}.
Arguments mkDropStripes {Float}.
Arguments dim {Float}.
Arguments drop_rate {Float}.
Arguments stripes_num {Float}.
Arguments training {Float}.
Arguments __init__ {Float}.
Arguments randint {Rng}.
Arguments zero_stripe {A}.
Arguments drop_stripes {A} zero {Float} int_of_product {Rng}.
Arguments transform_slice {A} zero {Float} int_of_product {Rng}.
Arguments transform_samples {A} zero {Float} int_of_product {Rng}.
Arguments forward {A} zero {Float} float_is_zero int_of_product {Rng}.
Arguments mkSpecAugment {Float}.
Arguments time_dropper {Float}.
Arguments freq_dropper {Float}.
Arguments SpecAugment_init {Float}.
Arguments __call__ {A} zero {Float} float_is_zero int_of_product {Rng}.

End Augment.

(** ** Concrete networks and spectrograms *)

Module DemoRnn.

Import Rnn.

(** Layers that record what they were built from. *)
Definition Cell : Type := RnnClass * pyval * pyval.
Definition new_cell (c : RnnClass) (input_size hidden_size bidirectional : pyval)
  : Out Cell := inr (c, input_size, hidden_size).
Definition BatchNorm1d (n : pyval) : Out pyval := inr n.
Definition new_linear (in_features out_features : pyval) : Out (pyval * pyval) :=
  inr (in_features, out_features).

Definition py_mul (a b : pyval) : Out pyval :=
  match a, b with
  | PAtom (AInt x), PAtom (AInt y) => inr (PAtom (AInt (x * y)))
  | _, _ => inl (Builtin (TypeError "unsupported operand type(s) for *"))
  end.

Definition py_repr (a : atom) : string := "a key that is not a string".

Definition cfg_gru : gmap string pyval :=
  list_to_map
    [("rnn_type", PStr "gru"); ("batch_size", PAtom (AInt 32));
     ("input_size", PAtom (AInt 8)); ("seq_len", PAtom (AInt 16));
     ("rnn_hidden_size", PAtom (AInt 400)); ("rnn_n_layers", PAtom (AInt 3));
     ("bidirectional", PAtom (ABool true)); ("batch_norm", PAtom (ABool true))].

Definition construct :=
  construct_rnn Cell pyval (pyval * pyval) new_cell BatchNorm1d new_linear py_mul py_repr.

(** An object with the attributes [serialize] reads; objects that only
    pass through are given by a description. *)
Definition model : DeepSpeech Cell pyval (pyval * pyval) unit string :=
  mkDeepSpeech
    (mkRNNClassifier [] (PAtom (AInt 32), (PAtom (AInt 6400), PAtom (AInt 2)))
       (PAtom (ABool true)))
    "0.0.1" (VPy (PAtom (AInt 400))) (VPy (PAtom (AInt 3))) GRU (VObj "eeg conf")
    (VPy (PStr "abc")) (VPy (PAtom (ABool true))) tt.

Definition none : value string := VPy (PAtom ANone).

Definition model_state_dict (m : DeepSpeech Cell pyval (pyval * pyval) unit string)
  : Out (value string) := inr (VObj "weights").
Definition optimizer_state_dict (optimizer : value string) : Out (value string) :=
  inr (VObj "optimizer state").
Definition object_add_one (o : string) : Out (value string) :=
  inl (Builtin (TypeError "unsupported operand type(s) for +")).
Definition str_lower (name : string) : string := name.

Definition serialize :=
  Rnn.serialize Cell pyval (pyval * pyval) unit string
    model_state_dict optimizer_state_dict object_add_one str_lower.

(** Epoch 4 and error rates, but no loss results. *)
Definition package :=
  serialize model none (VPy (PAtom (AInt 4))) none none (VObj "cer") (VObj "wer") none none.

End DemoRnn.

Module DemoAugment.

Import Augment.

(** [int(x)] of a rational: truncation towards zero. *)
Definition py_int (q : Q) : Z := Z.quot (Qnum q) (Zpos (Qden q)).

Definition float_is_zero (q : Q) : bool := Qeq_bool q 0.
Definition int_of_product (n : Z) (q : Q) : Out Z := inr (py_int (inject_Z n * q)).

(** A generator that hands out a prepared list of numbers. *)
Definition next (g : list Z) : Z * list Z :=
  match g with
  | [] => (0, [])
  | x :: rest => (x, rest)
  end.

(** Two samples of one channel, four time steps and three frequency
    bins, with no entry equal to 0. *)
Definition spect : Tensor Z :=
  mkTensor [2; 1; 4; 3]%nat
    (fun ix => 1 + Z.of_nat (nth 0 ix 0 + 10 * nth 2 ix 0 + 100 * nth 3 ix 0)%nat).

Definition forward := Augment.forward 0 float_is_zero int_of_product next.

Definition half_time_dropper : DropStripes Q := mkDropStripes 2 (1 # 2) 1 true.
Definition narrow_time_dropper : DropStripes Q := mkDropStripes 2 (1 # 10) 1 true.

Definition draws : list Z := [1; 2; 1; 5].

End DemoAugment.

(** * Properties *)

(** ** Backend construction and persistence (base_model.py) *)

Section BaseModelProps.

Variables Inner FS : Type.
Variable inner_save : Inner -> pyval -> FS -> FS * Res unit.
Variable inner_load : Inner -> pyval -> FS -> FS * Res Inner.
Variable inner_fitted : Inner -> bool.
Variable py_str : pyval -> string.

Lemma check_cfg_result cfg keys :
  BaseModel._check_cfg cfg keys = ok cfg \/
  exists msg, BaseModel._check_cfg cfg keys = raise (AssertionError msg).
Proof.
  induction keys as [|k keys IH]; simpl.
  - now left.
  - destruct (cfg !! k); [exact IH|]. right. eauto.
Qed.

Lemma check_cfg_present cfg keys :
  Forall (fun k => is_Some (cfg !! k)) keys ->
  BaseModel._check_cfg cfg keys = ok cfg.
Proof.
  induction 1 as [|k keys [v Hk] _ IH]; simpl; [reflexivity|].
  now rewrite Hk.
Qed.

Lemma set_criterion_mismatch class_labels cfg task_type loss_weight n :
  cfg !! "task_type" = Some task_type ->
  eq_str task_type "regress" = false ->
  cfg !! "loss_weight" = Some loss_weight ->
  len loss_weight = ok n ->
  length class_labels <> n ->
  BaseModel._set_criterion class_labels cfg =
    raise (AssertionError "loss weight needs to be matched with the number of classes").
Proof.
  intros Ht Hr Hw Hn Hne. unfold BaseModel._set_criterion, getitem.
  rewrite Ht. simpl. rewrite Hr, Hw. simpl. rewrite Hn. simpl.
  destruct (Nat.eqb_spec (length class_labels) n); [contradiction|reflexivity].
Qed.

(** C5. A classify configuration whose [loss_weight] does not have one
    entry per class label never yields a backend: [__init__] itself
    raises an assertion error, and when the required keys are all present
    it is the loss-weight assertion of [_set_criterion]. *)
Theorem init_rejects_mismatched_loss_weight
    (class_labels : list atom) (cfg : gmap string pyval)
    (must_contain_keys : list string) (inner : Inner) (loss_weight : pyval) (n : nat) :
  cfg !! "task_type" = Some (PStr "classify") ->
  cfg !! "loss_weight" = Some loss_weight ->
  len loss_weight = ok n ->
  length class_labels <> n ->
  (exists msg, BaseModel.__init__ class_labels cfg must_contain_keys inner
               = raise (AssertionError msg)) /\
  (Forall (fun k => is_Some (cfg !! k)) must_contain_keys ->
   BaseModel.__init__ class_labels cfg must_contain_keys inner
   = raise (AssertionError "loss weight needs to be matched with the number of classes")).
Proof.
  intros Ht Hw Hn Hne.
  assert (Hc := set_criterion_mismatch class_labels cfg _ _ n Ht eq_refl Hw Hn Hne).
  unfold BaseModel.__init__. split.
  - destruct (check_cfg_result cfg must_contain_keys) as [-> | [msg ->]]; simpl.
    + rewrite Hc. simpl. eauto.
    + eauto.
  - intros Hk. rewrite (check_cfg_present _ _ Hk). simpl. now rewrite Hc.
Qed.

Lemma init_ok_inv class_labels cfg keys inner (b : BaseModel.t Inner) :
  BaseModel.__init__ class_labels cfg keys inner = ok b ->
  BaseModel._set_criterion class_labels cfg = ok (BaseModel.criterion b) /\
  BaseModel.fitted b = false /\ BaseModel.cfg b = cfg /\ BaseModel.model b = inner.
Proof.
  unfold BaseModel.__init__. intros H.
  destruct (check_cfg_result cfg keys) as [E | [msg E]]; rewrite E in H; simpl in H;
    [|discriminate].
  destruct (BaseModel._set_criterion class_labels cfg) as [x|c]; simpl in H;
    [discriminate|].
  injection H as <-. simpl. auto.
Qed.

(** C6. The criterion bound at construction: mean squared error for a
    regress configuration; for a classify configuration the (binary)
    cross-entropy loss whose weight tensor holds the configured
    [loss_weight] numbers. *)
Theorem init_selects_criterion
    (class_labels : list atom) (cfg : gmap string pyval)
    (must_contain_keys : list string) (inner : Inner) (b : BaseModel.t Inner) :
  BaseModel.__init__ class_labels cfg must_contain_keys inner = ok b ->
  (cfg !! "task_type" = Some (PStr "regress") ->
   BaseModel.criterion b = BaseModel.MSELoss) /\
  (forall lw, cfg !! "task_type" = Some (PStr "classify") ->
     cfg !! "loss_weight" = Some (PList lw) ->
     exists ws, mapM atom_number lw = Some ws /\
                BaseModel.criterion b = BaseModel.BCELoss ws).
Proof.
  intros H. apply init_ok_inv in H as (Hc & _).
  unfold BaseModel._set_criterion, getitem in Hc. split.
  - intros Ht. rewrite Ht in Hc. simpl in Hc. unfold ok in Hc. congruence.
  - intros lw Ht Hw. rewrite Ht, Hw in Hc. simpl in Hc.
    destruct (Nat.eqb _ _); simpl in Hc; [|discriminate].
    destruct (mapM atom_number lw) as [ws|]; simpl in Hc; [|discriminate].
    exists ws. split; [reflexivity|]. unfold ok in Hc. congruence.
Qed.

(** Construction succeeds on well-formed configurations, so the
    selection above is not about an empty set of backends. *)
Lemma init_succeeds_regress class_labels cfg keys (inner : Inner) :
  Forall (fun k => is_Some (cfg !! k)) keys ->
  cfg !! "task_type" = Some (PStr "regress") ->
  exists b, BaseModel.__init__ class_labels cfg keys inner = ok b.
Proof.
  intros Hk Ht. unfold BaseModel.__init__.
  rewrite (check_cfg_present _ _ Hk). simpl.
  unfold BaseModel._set_criterion, getitem. rewrite Ht. simpl. eauto.
Qed.

Lemma init_succeeds_classify class_labels cfg keys (inner : Inner) lw ws :
  Forall (fun k => is_Some (cfg !! k)) keys ->
  cfg !! "task_type" = Some (PStr "classify") ->
  cfg !! "loss_weight" = Some (PList lw) ->
  mapM atom_number lw = Some ws ->
  length class_labels = length lw ->
  exists b, BaseModel.__init__ class_labels cfg keys inner = ok b.
Proof.
  intros Hk Ht Hw Hm Hl. unfold BaseModel.__init__.
  rewrite (check_cfg_present _ _ Hk). simpl.
  unfold BaseModel._set_criterion, getitem. rewrite Ht, Hw. simpl.
  rewrite Hl, Nat.eqb_refl, Hm. simpl. eauto.
Qed.

(** C3, as the code has it. [save_model] never looks at the fitted flag:
    whatever its value, the configured path goes to the wrapped
    predictor's own [save_model] and that call's outcome is the outcome. *)
Theorem save_model_ignores_fitted
    (b : BaseModel.t Inner) (w : BaseModel.World FS) (path : pyval) (flag : bool) :
  BaseModel.cfg b !! "model_path" = Some path ->
  let b' := BaseModel.mk (BaseModel.class_labels b) (BaseModel.cfg b)
              (BaseModel.criterion b) flag (BaseModel.model b) in
  BaseModel.save_model inner_save b' w = BaseModel.save_model inner_save b w /\
  BaseModel.save_model inner_save b w =
    (BaseModel.mkWorld (fst (inner_save (BaseModel.model b) path (BaseModel.fs w)))
                       (BaseModel.stdout w),
     snd (inner_save (BaseModel.model b) path (BaseModel.fs w))).
Proof.
  intros Hp b'. unfold BaseModel.save_model, getitem. subst b'. simpl.
  rewrite Hp. split; [reflexivity|].
  unfold ok. cbn. now destruct (inner_save _ _ _).
Qed.

(** [load_model] when the wrapped predictor reports a missing file. *)
Lemma load_model_missing_file
    (b : BaseModel.t Inner) (w : BaseModel.World FS) path fs' msg :
  BaseModel.cfg b !! "model_path" = Some path ->
  inner_load (BaseModel.model b) path (BaseModel.fs w) = (fs', raise (FileNotFoundError msg)) ->
  BaseModel.load_model inner_load inner_fitted py_str b w =
    (BaseModel.mkWorld fs'
       (BaseModel.stdout w ++ [msg]
          ++ [("trained model file doesn't exist at " ++ py_str path)%string]),
     raise (SystemExit 1)).
Proof.
  intros Hp Hl. unfold BaseModel.load_model, getitem. rewrite Hp.
  unfold ok. cbn. rewrite Hl. unfold BaseModel.print. simpl.
  now rewrite <- app_assoc.
Qed.

End BaseModelProps.

(** ** The epoch loop and its end-of-phase bookkeeping (model_manager.py) *)

Section ManagerProps.

Import ModelManager.

Variables Model FS Inputs V Loss Fitted Meter Score : Type.
Variable model_fit :
  Inputs -> list V -> Phase -> Model -> BaseModel.World FS ->
  BaseModel.World FS * Res (Model * (Loss * Fitted)).
Variable model_predict : Inputs -> Model -> BaseModel.World FS -> BaseModel.World FS * Res (list V).
Variable model_save : Model -> BaseModel.World FS -> BaseModel.World FS * Res unit.
Variable model_load : Model -> BaseModel.World FS -> BaseModel.World FS * Res Model.
Variable model_anneal_lr : pyval -> Model -> BaseModel.World FS -> BaseModel.World FS * Res Model.
Variable model_criterion : Model -> list V -> list V -> Res Loss.
Variable sentinel : V.
Variable is_sentinel : V -> bool.
Variable astype : Dtype -> V -> V.
Variable metric_update :
  Phase -> LossValue Loss -> Fitted + list V -> list V -> Metric Meter -> Metric Meter.
Variable update_best : Meter -> bool * Meter.
Variable reset : Meter -> Meter.
Variable meter_value : Meter -> Score.
Variable meter_average : Meter -> Score.
Variable fmt4 : Score -> string.
Variable str_score : Score -> string.
Variable py_str : pyval -> string.
Variable str_nat : nat -> string.
Variable str_Z : Z -> string.
Variable str_dataloaders : string.
Variable str_confusion_matrix : list V -> list V -> nat -> string.

Implicit Types (mgr : Manager Inputs V) (e : Env Model FS Score).
Implicit Types (m : Metric Meter) (ms : list (Metric Meter)).

Local Abbreviation step_metric :=
  (update_metric_by_epoch model_save update_best reset py_str).
Local Abbreviation end_of_phase :=
  (_update_by_epoch model_save model_anneal_lr update_best reset py_str str_Z).
Local Abbreviation triggers := (ModelManager.triggers update_best).

Lemma phase_eqb_eq p q : phase_eqb p q = true <-> p = q.
Proof. destruct p, q; simpl; split; congruence. Qed.

Lemma calls_print line e : calls (print line e) = calls e.
Proof. reflexivity. Qed.

Lemma call_save_calls e : calls (fst (call_save model_save e)) = calls e ++ [CSave].
Proof. unfold call_save. simpl. now destruct (model_save _ _). Qed.

Lemma call_anneal_calls la e :
  calls (fst (call_anneal_lr model_anneal_lr la e)) = calls e ++ [CAnneal la].
Proof.
  unfold call_anneal_lr. simpl. destruct (model_anneal_lr _ _ _) as [w [x|m']]; reflexivity.
Qed.

(** One turn of the metric loop: nothing happens to the backend unless
    the metric triggers, and then [save_model] is the one call made. *)
Lemma step_metric_spec mgr phase m e m' e' r :
  step_metric mgr phase m e = ((m', e'), r) ->
  (triggers phase m = false -> calls e' = calls e /\ r = ok tt) /\
  (triggers phase m = true ->
     (is_Some (cfg mgr !! "model_path") -> calls e' = calls e ++ [CSave]) /\
     (calls e' = calls e \/ calls e' = calls e ++ [CSave])).
Proof.
  unfold update_metric_by_epoch, triggers.
  destruct (update_best (average_meter m phase)) as [flag am]. simpl.
  destruct (save_model m && flag && phase_eqb phase val).
  - unfold getitem. destruct (cfg mgr !! "model_path") as [path|] eqn:Hp; simpl.
    + pose proof (call_save_calls
        (print ("Found better validated model, saving to " ++ py_str path) e)) as Hc.
      destruct (call_save _ _) as [e1 r1]. simpl in Hc.
      intros H. split; [discriminate|]. intros _.
      destruct r1; injection H as <- <- <-; auto.
    + intros H. injection H as <- <- <-. split; [discriminate|]. intros _.
      split; [intros [? ?]; discriminate | now left].
  - intros H. injection H as <- <- <-. split; [auto | discriminate].
Qed.

(** The whole metric loop of [_update_by_epoch]. *)
Lemma for_metrics_spec mgr phase ms : forall e ms' e' r,
  for_metrics (step_metric mgr phase) ms e = ((ms', e'), r) ->
  exists new,
    calls e' = calls e ++ new /\
    Forall (fun c => c = CSave) new /\
    (In CSave new -> exists m, In m ms /\ triggers phase m = true) /\
    (is_Some (cfg mgr !! "model_path") ->
     (exists m, In m ms /\ triggers phase m = true) -> In CSave new) /\
    ((forall m, In m ms -> triggers phase m = false) -> new = [] /\ r = ok tt).
Proof.
  induction ms as [|m ms IH]; intros e ms' e' r; simpl.
  - intros H. injection H as <- <- <-.
    refine (ex_intro _ [] (conj _ (conj _ (conj _ (conj _ _))))).
    + now rewrite app_nil_r.
    + constructor.
    + intros [].
    + intros _ (m & [] & _).
    + auto.
  - destruct (step_metric mgr phase m e) as [[m1 e1] r1] eqn:Hs.
    apply step_metric_spec in Hs as [Hf Ht].
    destruct (triggers phase m) eqn:Htr.
    + destruct (Ht eq_refl) as [Hp Hor]. clear Hf Ht.
      assert (Hhead : exists m0, In m0 (m :: ms) /\ triggers phase m0 = true)
        by (exists m; simpl; auto).
      assert (Hno : (forall m0, In m0 (m :: ms) -> triggers phase m0 = false) -> False)
        by (intros Hall; specialize (Hall m (or_introl eq_refl)); congruence).
      assert (Hsame : is_Some (cfg mgr !! "model_path") -> calls e1 = calls e -> False).
      { intros Hs Hc. specialize (Hp Hs). rewrite Hc in Hp.
        apply (f_equal (@length _)) in Hp. rewrite length_app in Hp. simpl in Hp. lia. }
      destruct r1 as [x|[]].
      * intros H. injection H as <- <- <-.
        destruct Hor as [Hc|Hc].
        -- refine (ex_intro _ [] (conj _ (conj _ (conj _ (conj _ _))))).
           ++ now rewrite app_nil_r.
           ++ constructor.
           ++ intros [].
           ++ intros Hs _. destruct (Hsame Hs Hc).
           ++ intros Hall. destruct (Hno Hall).
        -- refine (ex_intro _ [CSave] (conj _ (conj _ (conj _ (conj _ _))))).
           ++ exact Hc.
           ++ repeat constructor.
           ++ intros _. exact Hhead.
           ++ intros _ _. simpl; auto.
           ++ intros Hall. destruct (Hno Hall).
      * destruct (for_metrics _ ms e1) as [[rest' e2] r2] eqn:Hrec.
        apply IH in Hrec as (new & Hc2 & Hall2 & _ & _ & _).
        intros H. injection H as <- <- <-.
        destruct Hor as [Hc|Hc].
        -- refine (ex_intro _ new (conj _ (conj _ (conj _ (conj _ _))))).
           ++ now rewrite Hc2, Hc.
           ++ exact Hall2.
           ++ intros _. exact Hhead.
           ++ intros Hs _. destruct (Hsame Hs Hc).
           ++ intros Hall. destruct (Hno Hall).
        -- refine (ex_intro _ (CSave :: new) (conj _ (conj _ (conj _ (conj _ _))))).
           ++ now rewrite Hc2, Hc, <- app_assoc.
           ++ constructor; auto.
           ++ intros _. exact Hhead.
           ++ intros _ _. simpl; auto.
           ++ intros Hall. destruct (Hno Hall).
    + destruct (Hf eq_refl) as [Hc ->]. clear Hf Ht.
      destruct (for_metrics _ ms e1) as [[rest' e2] r2] eqn:Hrec.
      apply IH in Hrec as (new & Hc2 & Hall2 & Hin & Hex & Hnone).
      intros H. injection H as <- <- <-.
      refine (ex_intro _ new (conj _ (conj _ (conj _ (conj _ _))))).
      * now rewrite Hc2, Hc.
      * exact Hall2.
      * intros Hi. destruct (Hin Hi) as (m0 & ? & ?). exists m0. simpl; auto.
      * intros Hs (m0 & [<-|Hm0] & Ht0); [congruence|]. apply Hex; eauto.
      * intros Hall. apply Hnone. intros; apply Hall; simpl; auto.
Qed.

Lemma triggers_val phase m :
  triggers phase m = true <->
  phase = val /\ save_model m = true /\ fst (update_best (average_meter m phase)) = true.
Proof.
  unfold triggers. rewrite !andb_true_iff, phase_eqb_eq.
  split; [intros [[? ?] ?] | intros (? & ? & ?)]; auto.
Qed.

(** [_update_by_epoch] as a whole: the calls of the metric loop, then
    [anneal_lr] when the phase is the train phase. *)
Lemma end_of_phase_spec mgr phase epoch la ms e ms' e' r :
  end_of_phase mgr phase epoch la ms e = ((ms', e'), r) ->
  exists new tail,
    calls e' = calls e ++ new ++ tail /\
    Forall (fun c => c = CSave) new /\
    (In CSave new -> exists m, In m ms /\ triggers phase m = true) /\
    (is_Some (cfg mgr !! "model_path") ->
     (exists m, In m ms /\ triggers phase m = true) -> In CSave new) /\
    (phase = train -> new = [] /\ tail = [CAnneal la]) /\
    (phase <> train -> tail = []).
Proof.
  unfold _update_by_epoch.
  destruct (for_metrics _ ms e) as [[ms1 e1] r1] eqn:Hfm.
  apply for_metrics_spec in Hfm as (new & Hc & Hall & Hin & Hex & Hnone).
  assert (Htrain : phase = train -> new = [] /\ r1 = ok tt).
  { intros ->. apply Hnone. intros m _. unfold triggers. simpl. apply andb_false_r. }
  destruct r1 as [x|[]].
  - intros H. injection H as <- <- <-.
    refine (ex_intro _ new (ex_intro _ []
              (conj _ (conj Hall (conj Hin (conj Hex (conj _ _))))))).
    + now rewrite app_nil_r.
    + intros Hp. destruct (Htrain Hp) as [_ ?]. discriminate.
    + reflexivity.
  - destruct (phase_eqb phase train) eqn:Hph.
    + apply phase_eqb_eq in Hph. subst phase.
      pose proof (call_anneal_calls la e1) as Ha.
      destruct (call_anneal_lr model_anneal_lr la e1) as [e2 r2]. simpl in Ha.
      intros H.
      assert (calls e' = calls e2) as Hce
        by (destruct r2 as [x|[]]; injection H as <- <- <-; reflexivity).
      refine (ex_intro _ new (ex_intro _ [CAnneal la]
                (conj _ (conj Hall (conj Hin (conj Hex (conj _ _))))))).
      * now rewrite Hce, Ha, Hc, <- app_assoc.
      * intros _. split; [now apply Htrain | reflexivity].
      * congruence.
    + intros H. injection H as <- <- <-.
      refine (ex_intro _ new (ex_intro _ []
                (conj _ (conj Hall (conj Hin (conj Hex (conj _ _))))))).
      * rewrite app_nil_r. now destruct (phase_eqb phase val).
      * intros ->. discriminate.
      * reflexivity.
Qed.

Lemma fold_print_calls {A} (f : A -> string) (l : list A) : forall e,
  calls (fold_left (fun acc x => print (f x) acc) l e) = calls e.
Proof. induction l as [|x l IH]; intros e; simpl; [reflexivity|]. now rewrite IH. Qed.

Lemma verbose_calls mgr epoch phase i ms e :
  calls (fst (_verbose meter_value fmt4 str_nat str_Z mgr epoch phase i ms e)) = calls e.
Proof.
  unfold _verbose. destruct (dataloaders mgr phase); [|reflexivity]. simpl.
  now rewrite (fold_print_calls
    (fun metric => name metric ++ " " ++ fmt4 (meter_value (average_meter metric phase)))%string).
Qed.

(** The batch loop of a phase only ever calls [fit]. *)
Lemma train_batches_calls mgr epoch phase batches : forall i ms e ms' e' r,
  train_batches model_fit metric_update meter_value fmt4 str_nat str_Z
    mgr epoch phase i batches ms e = ((ms', e'), r) ->
  exists new, calls e' = calls e ++ new /\ Forall (fun c => c = CFit phase) new.
Proof.
  induction batches as [|[inputs labels] rest IH]; intros i ms e ms' e' r; simpl.
  - intros H. injection H as <- <- <-. exists []. now rewrite app_nil_r.
  - unfold call_fit. simpl.
    destruct (model_fit _ _ _ _ _) as [w [x|[m' [loss predicts]]]].
    + intros H. injection H as <- <- <-. exists [CFit phase]. split; auto.
    + destruct (getitem (cfg mgr) "silent") as [x|silent].
      * intros H. injection H as <- <- <-. exists [CFit phase]. split; auto.
      * match goal with |- context [set_model m' ?e0] => set (e1 := set_model m' e0) end.
        set (ms1 := map _ ms).
        assert (Hv : forall e2 r2,
                  (if negb (truthy silent)
                   then _verbose meter_value fmt4 str_nat str_Z mgr epoch phase i ms1 e1
                   else (e1, ok tt)) = (e2, r2) -> calls e2 = calls e ++ [CFit phase]).
        { intros e2 r2. destruct (negb (truthy silent)).
          - intros H. pose proof (verbose_calls mgr epoch phase i ms1 e1) as Hvc.
            rewrite H in Hvc. exact Hvc.
          - intros H. injection H as <- <-. reflexivity. }
        destruct (if negb (truthy silent) then _ else _) as [e2 r2].
        pose proof (Hv e2 r2 eq_refl) as Hver. destruct r2 as [x|[]].
        -- intros H. injection H as <- <- <-. exists [CFit phase]. split; auto.
        -- intros H. apply IH in H as (new & Hc & Hall).
           exists (CFit phase :: new). rewrite Hc, Hver, <- app_assoc. split; auto.
Qed.

(** C1, for the epoch-loop manager. With a configured [model_path], the
    end-of-phase routine invokes the backend's [save_model] if and only
    if the phase is [val] and some save-triggering metric's
    [update_best()] returned true; at the end of any other phase it is
    not invoked, whatever improved. *)
Theorem save_model_iff_val_improvement mgr phase epoch la ms e ms' e' r :
  is_Some (cfg mgr !! "model_path") ->
  end_of_phase mgr phase epoch la ms e = ((ms', e'), r) ->
  exists new,
    calls e' = calls e ++ new /\
    (In CSave new <->
     phase = val /\
     exists m, In m ms /\ save_model m = true /\
               fst (update_best (average_meter m phase)) = true).
Proof.
  intros Hpath H.
  apply end_of_phase_spec in H as (new & tail & Hc & Hall & Hin & Hex & Htr & Hntr).
  exists (new ++ tail). split; [exact Hc|]. split.
  - intros Hi. apply in_app_or in Hi as [Hi|Hi].
    + destruct (Hin Hi) as (m & Hm & Ht). apply triggers_val in Ht as (? & ? & ?). eauto.
    + destruct phase; try (rewrite Hntr in Hi by discriminate; destruct Hi).
      destruct (Htr eq_refl) as [_ ->]. destruct Hi as [Hi|[]]. discriminate.
  - intros (Hv & m & Hm & Hs & Hb). apply in_or_app. left. apply Hex; [exact Hpath|].
    exists m. split; [exact Hm|]. apply triggers_val. auto.
Qed.

(** C7, as the code has it. At the end of a train phase the routine makes
    exactly one backend call, [anneal_lr(learning_anneal)]; at the end of a
    val phase it makes no [anneal_lr] call; and in neither case does it
    call the backend's [update_by_epoch] hook. *)
Theorem end_of_phase_anneals_on_train_only mgr phase epoch la ms e ms' e' r :
  end_of_phase mgr phase epoch la ms e = ((ms', e'), r) ->
  exists new,
    calls e' = calls e ++ new /\
    (phase = train -> new = [CAnneal la]) /\
    (phase = val -> Forall (fun c => is_anneal c = false) new) /\
    Forall (fun c => is_update_by_epoch c = false) new.
Proof.
  intros H.
  apply end_of_phase_spec in H as (new & tail & Hc & Hall & _ & _ & Htr & Hntr).
  exists (new ++ tail). split; [exact Hc|].
  assert (Hsaves : forall P : Call -> Prop, P CSave -> Forall P new).
  { intros P HP. eapply Forall_impl; [exact Hall|]. intros c ->. exact HP. }
  split; [|split].
  - intros Hp. destruct (Htr Hp) as [-> ->]. reflexivity.
  - intros Hp. rewrite Hntr by (rewrite Hp; discriminate). rewrite app_nil_r.
    now apply Hsaves.
  - apply Forall_app. split; [now apply Hsaves|].
    destruct phase; try (rewrite Hntr by discriminate; constructor).
    destruct (Htr eq_refl) as [_ ->]. repeat constructor.
Qed.

(** A whole phase of [train]: the [fit] calls of the batch loop, then the
    calls of the end-of-phase routine. *)
Lemma train_phase_calls mgr epoch phase ms e ms' e' r :
  train_phase model_fit model_save model_anneal_lr metric_update update_best reset
    meter_value meter_average fmt4 str_score py_str str_nat str_Z
    mgr epoch phase ms e = ((ms', e'), r) ->
  exists fits rest,
    calls e' = calls e ++ fits ++ rest /\
    Forall (fun c => c = CFit phase) fits /\
    Forall (fun c => c = CSave \/ exists la, c = CAnneal la) rest /\
    (phase <> val -> ~ In CSave rest).
Proof.
  unfold train_phase. destruct (dataloaders mgr phase) as [batches|].
  2:{ intros H. injection H as <- <- <-. exists [], []. now rewrite !app_nil_r. }
  destruct (train_batches _ _ _ _ _ _ _ _ _ _ _ _ _) as [[ms1 e1] r1] eqn:Hb.
  apply train_batches_calls in Hb as (fits & Hc & Hfits).
  destruct r1 as [x|[]].
  { intros H. injection H as <- <- <-. exists fits, []. now rewrite app_nil_r. }
  set (e2 := if logger mgr then _ else e1).
  assert (He2 : calls e2 = calls e1).
  { subst e2. destruct (logger mgr); [|reflexivity]. unfold _record_log. simpl.
    now rewrite (fold_print_calls (fun kv : string * Score => fst kv ++ " " ++ str_score (snd kv))%string). }
  destruct (getitem (cfg mgr) "learning_anneal") as [x|la].
  { intros H. injection H as <- <- <-. exists fits, [].
    rewrite app_nil_r, He2. auto. }
  intros H.
  apply end_of_phase_spec in H as (new & tail & Hc2 & Hall & Hin & _ & Htr & Hntr).
  exists fits, (new ++ tail). rewrite Hc2, He2, Hc, <- app_assoc.
  split; [reflexivity|]. split; [exact Hfits|]. split.
  - apply Forall_app. split.
    + eapply Forall_impl; [exact Hall|]. intros c ->. now left.
    + destruct phase; try (rewrite Hntr by discriminate; constructor).
      destruct (Htr eq_refl) as [_ ->]. constructor; [right; eauto | constructor].
  - intros Hnv Hi. apply in_app_or in Hi as [Hi|Hi].
    + destruct (Hin Hi) as (m & _ & Ht). apply triggers_val in Ht as [? _]. contradiction.
    + destruct phase; try (rewrite Hntr in Hi by discriminate; destruct Hi).
      destruct (Htr eq_refl) as [_ ->]. destruct Hi as [Hi|[]]. discriminate.
Qed.

(** *** The whole of [train] *)

Local Abbreviation run_phase :=
  (train_phase model_fit model_save model_anneal_lr metric_update update_best reset
     meter_value meter_average fmt4 str_score py_str str_nat str_Z).
Local Abbreviation run_epochs :=
  (train_epochs model_fit model_save model_anneal_lr metric_update update_best reset
     meter_value meter_average fmt4 str_score py_str str_nat str_Z).

(** A completed train phase is its [fit] calls followed by one
    [anneal_lr]; a completed val phase is its [fit] calls followed by
    the [save_model] calls of the metrics that triggered. *)
Lemma completed_phase_calls mgr epoch phase ms e ms' e' :
  run_phase mgr epoch phase ms e = ((ms', e'), ok tt) ->
  phase = train \/ phase = val ->
  exists fits rest,
    calls e' = calls e ++ fits ++ rest /\
    Forall (fun c => c = CFit phase) fits /\
    (phase = train -> exists la, cfg mgr !! "learning_anneal" = Some la /\ rest = [CAnneal la]) /\
    (phase = val -> Forall (fun c => c = CSave) rest).
Proof.
  unfold train_phase. destruct (dataloaders mgr phase) as [batches|]; [|discriminate].
  destruct (train_batches _ _ _ _ _ _ _ _ _ _ _ _ _) as [[ms1 e1] r1] eqn:Hb.
  apply train_batches_calls in Hb as (fits & Hc & Hfits).
  destruct r1 as [x|[]]; [discriminate|].
  set (e2 := if logger mgr then _ else e1).
  assert (He2 : calls e2 = calls e1).
  { subst e2. destruct (logger mgr); [|reflexivity]. unfold _record_log. simpl.
    now rewrite (fold_print_calls (fun kv : string * Score => fst kv ++ " " ++ str_score (snd kv))%string). }
  unfold getitem. destruct (cfg mgr !! "learning_anneal") as [la|] eqn:Hla; [|discriminate].
  simpl. intros H Hph.
  apply end_of_phase_spec in H as (new & tail & Hc2 & Hall & _ & _ & Htr & Hntr).
  exists fits, (new ++ tail). rewrite Hc2, He2, Hc, <- app_assoc.
  split; [reflexivity|]. split; [exact Hfits|]. split.
  - intros Ht. destruct (Htr Ht) as [-> ->]. eauto.
  - intros Hv. rewrite Hntr by (rewrite Hv; discriminate). now rewrite app_nil_r.
Qed.

(** The number of [anneal_lr] calls in a call record. *)
Local Abbreviation anneals l := (length (List.filter is_anneal l)).

Lemma anneals_none l c :
  is_anneal c = false -> Forall (fun c' => c' = c) l -> anneals l = 0%nat.
Proof.
  intros Hc. induction 1 as [|c' l -> _ IH]; simpl; [reflexivity|]. now rewrite Hc.
Qed.

Lemma no_hook_in l c :
  is_update_by_epoch c = false -> Forall (fun c' => c' = c) l ->
  Forall (fun c' => is_update_by_epoch c' = false) l.
Proof. intros Hc H. eapply Forall_impl; [exact H|]. now intros c' ->. Qed.

(** Training for [n] epochs that runs to its end anneals the learning
    rate exactly [n] times, once per train phase, and never calls the
    [update_by_epoch] hook. *)
Lemma completed_epochs_calls mgr n : forall epoch ms e ms' e',
  run_epochs mgr n epoch ms e = ((ms', e'), ok tt) ->
  exists new,
    calls e' = calls e ++ new /\
    anneals new = n /\
    Forall (fun c => is_update_by_epoch c = false) new.
Proof.
  induction n as [|n IH]; intros epoch ms e ms' e'; simpl.
  - intros H. injection H as <- <-. exists []. now rewrite app_nil_r.
  - unfold train_epoch.
    destruct (run_phase mgr epoch train ms e) as [[ms1 e1] [x|[]]] eqn:Ht; [discriminate|].
    destruct (run_phase mgr epoch val ms1 e1) as [[ms2 e2] [x|[]]] eqn:Hv; [discriminate|].
    apply completed_phase_calls in Ht as (f1 & r1 & Hc1 & Hf1 & Hr1 & _); [|now left].
    apply completed_phase_calls in Hv as (f2 & r2 & Hc2 & Hf2 & _ & Hr2); [|now right].
    destruct (Hr1 eq_refl) as (la & _ & ->). specialize (Hr2 eq_refl).
    intros H. apply IH in H as (new & Hc & Hn & Hh).
    exists ((f1 ++ [CAnneal la]) ++ (f2 ++ r2) ++ new).
    rewrite Hc, Hc2, Hc1, <- !app_assoc. split; [reflexivity|]. split.
    + rewrite !List.filter_app, !length_app.
      rewrite (anneals_none f1 (CFit train)), (anneals_none f2 (CFit val)),
        (anneals_none r2 CSave) by (reflexivity || assumption).
      simpl. lia.
    + repeat (apply Forall_app; split); try exact Hh.
      * now apply (no_hook_in f1 (CFit train)).
      * repeat constructor.
      * now apply (no_hook_in f2 (CFit val)).
      * now apply (no_hook_in r2 CSave).
Qed.

(** *** Prediction aggregation *)

Lemma slice_assign_fill (filled v : list V) (n b start : nat) :
  start = length filled ->
  (length v <= b)%nat ->
  slice_assign (filled ++ replicate (S n * b) sentinel) start v =
    ok ((filled ++ pad_batch sentinel b v) ++ replicate (n * b) sentinel).
Proof.
  intros -> Hv. unfold slice_assign, pad_batch.
  rewrite length_app, length_replicate.
  replace (Nat.min (length filled) (length filled + S n * b)) with (length filled) by lia.
  replace (Nat.min (length filled + length v) (length filled + S n * b))
    with (length filled + length v)%nat by (simpl; lia).
  replace (length filled + length v - length filled)%nat with (length v) by lia.
  rewrite Nat.eqb_refl, take_app_length, drop_app_add, drop_replicate.
  replace (S n * b - length v)%nat with ((b - length v) + n * b)%nat by (simpl; lia).
  rewrite replicate_add. simpl. now rewrite <- !app_assoc.
Qed.

Lemma length_pad_batch (b : nat) (v : list V) :
  (length v <= b)%nat -> length (pad_batch sentinel b v) = b.
Proof. intros Hv. unfold pad_batch. rewrite length_app, length_replicate. lia. Qed.

(** The buffer loop writes batch [i], cast to the buffer's element type,
    into its own stretch and leaves the rest of the buffer as it was. *)
Lemma predict_batches_fill (d : Dtype) (b : nat) (batches : list (Inputs * list V)) :
  forall ps i filled_p filled_l e e',
    predict_all model_predict batches e = (e', ok ps) ->
    length filled_p = (i * b)%nat -> length filled_l = (i * b)%nat ->
    Forall (fun p => (length p <= b)%nat) ps ->
    Forall (fun batch => (length (snd batch) <= b)%nat) batches ->
    predict_batches model_predict astype d b i batches
      (filled_p ++ replicate (length batches * b) sentinel)
      (filled_l ++ replicate (length batches * b) sentinel) e =
    (e', ok (filled_p ++ concat (map (pad_batch sentinel b) (map (map (astype d)) ps)),
             filled_l ++ concat (map (pad_batch sentinel b)
                                   (map (map (astype d)) (map snd batches))))).
Proof.
  induction batches as [|[inputs labels] rest IH];
    intros ps i filled_p filled_l e e' Hall Hp Hl Hps Hls; simpl in *.
  - injection Hall as <- <-. simpl. now rewrite !app_nil_r.
  - destruct (call_predict model_predict inputs e) as [e1 [x|preds]]; [discriminate|].
    destruct (predict_all model_predict rest e1) as [e2 [x|ps']] eqn:Hrest; [discriminate|].
    injection Hall as <- <-.
    apply Forall_cons in Hps as [Hpreds Hps]. apply Forall_cons in Hls as [Hlabels Hls].
    simpl in Hlabels.
    change (b + length rest * b)%nat with (S (length rest) * b)%nat.
    rewrite (slice_assign_fill filled_p)
      by (rewrite ?length_map; assumption || now symmetry).
    unfold ok at 1. cbv beta iota.
    rewrite (slice_assign_fill filled_l)
      by (rewrite ?length_map; assumption || now symmetry).
    unfold ok at 1. cbv beta iota.
    rewrite (IH ps' (S i) _ _ e1 e2 Hrest); try assumption.
    + simpl. now rewrite <- !app_assoc.
    + rewrite length_app, length_pad_batch by (now rewrite length_map). simpl. lia.
    + rewrite length_app, length_pad_batch by (now rewrite length_map). simpl. lia.
Qed.

(** Stripping the fill value from padded stretches gives the batches
    back, provided no written value is taken for the fill value. *)
Lemma strip_padded (b : nat) (vs : list (list V)) :
  is_sentinel sentinel = true ->
  Forall (Forall (fun v => is_sentinel v = false)) vs ->
  strip_sentinel is_sentinel (concat (map (pad_batch sentinel b) vs)) = concat vs.
Proof.
  intros Hs. unfold strip_sentinel.
  assert (Hrep : forall n, filter (fun x => is_sentinel x = false) (replicate n sentinel) = []).
  { induction n as [|n IHn]; simpl; [reflexivity|].
    rewrite filter_cons_False by (rewrite Hs; discriminate). exact IHn. }
  assert (Hkeep : forall v, Forall (fun x => is_sentinel x = false) v ->
                            filter (fun x => is_sentinel x = false) v = v).
  { induction 1 as [|x v Hx _ IHv]; [reflexivity|].
    rewrite filter_cons_True by exact Hx. now rewrite IHv. }
  induction 1 as [|v vs Hv _ IHvs]; simpl; [reflexivity|].
  unfold pad_batch at 1. rewrite !filter_app, Hrep, app_nil_r, Hkeep by exact Hv.
  now rewrite IHvs.
Qed.

(** C2, as the code has it. The two buffers have an integer element type
    on a classify task and a float one otherwise, and everything written
    into them is cast to it. When every batch holds at most [batch_size]
    samples (a short final batch included) and no prediction or label
    equals the fill value once it is cast, [_predict] returns the cast of
    every prediction and of every label exactly once, in delivery order:
    no fill value is left, nothing is dropped or repeated, and the lengths
    are the true sample counts. *)
Theorem predict_returns_all_samples mgr phase e e' (b : Z) task_type
    (batches : list (Inputs * list V)) (ps : list (list V)) :
  let dtype_ := if eq_str task_type "classify" then NpInt else NpFloat in
  cfg mgr !! "batch_size" = Some (PAtom (AInt b)) ->
  cfg mgr !! "task_type" = Some task_type ->
  dataloaders mgr phase = Some batches ->
  predict_all model_predict batches e = (e', ok ps) ->
  0 <= b ->
  is_sentinel sentinel = true ->
  Forall (fun p => Z.of_nat (length p) <= b) ps ->
  Forall (fun batch => Z.of_nat (length (snd batch)) <= b) batches ->
  Forall (Forall (fun v => is_sentinel (astype dtype_ v) = false)) ps ->
  Forall (fun batch => Forall (fun v => is_sentinel (astype dtype_ v) = false) (snd batch))
         batches ->
  _predict model_predict sentinel is_sentinel astype str_dataloaders mgr phase e =
    (e', ok (map (astype dtype_) (concat ps),
             map (astype dtype_) (concat (map snd batches)))) /\
  Forall (fun v => is_sentinel v = false) (map (astype dtype_) (concat ps)) /\
  Forall (fun v => is_sentinel v = false)
         (map (astype dtype_) (concat (map snd batches))) /\
  length (map (astype dtype_) (concat ps)) = sum_list (map (@length V) ps) /\
  length (map (astype dtype_) (concat (map snd batches)))
  = sum_list (map (fun batch => length (snd batch)) batches).
Proof.
  intros dtype_ Hb Ht Hd Hall Hb0 Hs Hlp Hll Hnp Hnl.
  assert (Hcast : forall vs : list (list V),
            Forall (Forall (fun v => is_sentinel (astype dtype_ v) = false)) vs ->
            Forall (Forall (fun v => is_sentinel v = false)) (map (map (astype dtype_)) vs)).
  { intros vs Hvs. apply Forall_map. eapply Forall_impl; [exact Hvs|].
    intros v Hv. now apply Forall_map. }
  assert (Hnl' : Forall (Forall (fun v => is_sentinel (astype dtype_ v) = false))
                        (map snd batches)).
  { clear -Hnl. induction Hnl; constructor; auto. }
  assert (Hkept : forall vs : list (list V),
            Forall (Forall (fun v => is_sentinel (astype dtype_ v) = false)) vs ->
            Forall (fun v => is_sentinel v = false) (map (astype dtype_) (concat vs))).
  { intros vs Hvs. apply Forall_map. apply Forall_concat. exact Hvs. }
  assert (Hlen : forall vs : list (list V),
            length (concat vs) = sum_list (map (@length V) vs)).
  { induction vs as [|v vs IH]; simpl; [reflexivity|]. now rewrite length_app, IH. }
  split; [|split; [|split; [|split]]].
  - unfold _predict, getitem. rewrite Hb. simpl. rewrite Hd, Ht. simpl.
    fold dtype_.
    destruct (Z.ltb_spec (Z.of_nat (length batches) * b) 0) as [Hneg|_]; [lia|].
    replace (Z.to_nat (Z.of_nat (length batches) * b))
      with (length batches * Z.to_nat b)%nat by lia.
    pose proof (predict_batches_fill dtype_ (Z.to_nat b) batches ps 0 [] [] e e' Hall
                  eq_refl eq_refl) as Hfill.
    simpl in Hfill. rewrite Hfill.
    + rewrite !strip_padded by auto. now rewrite !concat_map.
    + eapply Forall_impl; [exact Hlp|]. simpl. intros; lia.
    + eapply Forall_impl; [exact Hll|]. simpl. intros; lia.
  - now apply Hkept.
  - now apply Hkept.
  - rewrite length_map. apply Hlen.
  - rewrite length_map, Hlen, map_map. reflexivity.
Qed.

(** *** The test pass *)

Local Abbreviation test_loop :=
  (test_metrics (Inputs := Inputs) (Score := Score) (FS := FS)
     model_criterion metric_update meter_value fmt4).
Local Abbreviation run_test :=
  (test_ model_predict model_load model_criterion sentinel is_sentinel astype
     metric_update meter_value fmt4 str_dataloaders str_confusion_matrix).

(** What the metric loop of [test] does to one metric: any metric not
    named [loss] is updated with the literal 10000000 as its loss; the
    metric named [loss] is left alone when the task is classify. *)
Local Abbreviation test_update_rel mgr pred_list label_list :=
  (fun m m' : Metric Meter =>
     (name m <> "loss" ->
      m' = metric_update test (Literal 10000000) (inr pred_list) label_list m) /\
     (name m = "loss" -> cfg mgr !! "task_type" = Some (PStr "classify") -> m' = m)).

Lemma test_loop_spec mgr pred_list label_list ms : forall lv e ms' e',
  test_loop mgr pred_list label_list ms lv e = ((ms', e'), ok tt) ->
  Forall2 (test_update_rel mgr pred_list label_list) ms ms'.
Proof.
  induction ms as [|m ms IH]; intros lv e ms' e'; simpl.
  - intros H. injection H as <- <-. constructor.
  - assert (Hupd : forall lv0,
      (name m = "loss" -> cfg mgr !! "task_type" <> Some (PStr "classify")) ->
      (name m <> "loss" -> lv0 = Some (Literal 10000000)) ->
      match lv0 with
      | Some v =>
          let metric' := metric_update test v (inr pred_list) label_list m in
          let '(rest', e2, r) :=
            test_loop mgr pred_list label_list ms lv0
              (print (name metric' ++ ": " ++ fmt4 (meter_value (average_meter metric' test))) e) in
          (metric' :: rest', e2, r)
      | None => (m :: ms, e, raise (UnboundLocalError "loss_value"))
      end = (ms', e', ok tt) ->
      Forall2 (test_update_rel mgr pred_list label_list) (m :: ms) ms').
    { intros [v|] Hl Hn; [|discriminate]. cbv zeta.
      destruct (test_loop _ _ _ _ _ _) as [[rest' e2] r2] eqn:Hrec.
      intros H. injection H as <- <- ->. apply IH in Hrec.
      constructor; [|exact Hrec]. split.
      - intros Hne. specialize (Hn Hne). congruence.
      - intros He Hc. destruct (Hl He Hc). }
    destruct (String.eqb_spec (name m) "loss") as [Hname|Hname].
    + unfold getitem. destruct (cfg mgr !! "task_type") as [task_type|] eqn:Ht; simpl;
        [|discriminate].
      destruct (eq_str task_type "classify") eqn:Hcl.
      * destruct (test_loop _ _ _ _ _ _) as [[rest' e2] r2] eqn:Hrec.
        intros H. injection H as <- <- ->. apply IH in Hrec.
        constructor; [|exact Hrec]. split; [contradiction|reflexivity].
      * assert (Hnot : name m = "loss" -> Some task_type <> Some (PStr "classify"))
          by (intros _ E; injection E as ->; discriminate).
        destruct (cfg mgr !! "model_type") as [model_type|]; simpl; [|discriminate].
        destruct (eq_str model_type "rnn" || eq_str model_type "cnn").
        -- destruct (model_criterion _ _ _) as [x|l]; [discriminate|].
           apply (Hupd (Some (Computed l))); [exact Hnot | contradiction].
        -- apply (Hupd lv); [exact Hnot | contradiction].
    + apply (Hupd (Some (Literal 10000000))); [contradiction | reflexivity].
Qed.

(** On a classify task the metric loop of [test] always runs to its end. *)
Lemma test_loop_classify_total mgr pred_list label_list ms :
  cfg mgr !! "task_type" = Some (PStr "classify") ->
  forall lv e, exists ms' e',
    test_loop mgr pred_list label_list ms lv e = ((ms', e'), ok tt).
Proof.
  intros Ht. induction ms as [|m ms IH]; intros lv e; simpl; [eauto|].
  destruct (String.eqb (name m) "loss").
  - unfold getitem. rewrite Ht. simpl.
    destruct (IH lv e) as (ms' & e' & ->). eauto.
  - match goal with |- context [test_loop _ _ _ _ ?l ?e0] =>
      destruct (IH l e0) as (ms' & e' & ->) end.
    eauto.
Qed.

(** C9. In a completed [test()], every metric whose name is not [loss]
    has been updated with the placeholder loss 10000000, and on a
    classify task the metric named [loss] has not been updated at all. *)
Theorem test_uses_placeholder_loss mgr load_best ms e ms' e' pred_list label_list :
  run_test mgr load_best ms e = ((ms', e'), ok (pred_list, label_list)) ->
  Forall2 (fun m m' =>
             (name m <> "loss" ->
              m' = metric_update test (Literal 10000000) (inr pred_list) label_list m) /\
             (name m = "loss" ->
              cfg mgr !! "task_type" = Some (PStr "classify") -> m' = m)) ms ms'.
Proof.
  unfold test_.
  destruct (if load_best then _ else _) as [e1 [x|[]]]; [discriminate|].
  destruct (_predict _ _ _ _ _ _ _) as [e2 [x|[pl ll]]]; [discriminate|].
  destruct (test_metrics _ _ _ _ _ _ _ _ _ _) as [[ms1 e3] [x|[]]] eqn:Hloop; [discriminate|].
  destruct (getitem (cfg mgr) "task_type") as [x|task_type]; [discriminate|].
  intros H. injection H as <- <- <- <-.
  exact (test_loop_spec _ _ _ _ _ _ _ _ Hloop).
Qed.

(** [test(load_best=True)] when loading fails: the failure is the result,
    the only backend call made is [load_model], and no metric changes. *)
Lemma test_load_failure mgr ms e w x :
  model_load (model e) (world e) = (w, inl x) ->
  run_test mgr true ms e = ((ms, set_world w (log_call CLoad e)), inl x).
Proof.
  intros Hl. unfold test_, call_load. simpl. now rewrite Hl.
Qed.

End ManagerProps.

(** ** What the tree wrappers' [fit] returns (decision_trees.py) *)

Section DecisionTreesProps.

Import DecisionTrees.

Variables Array Estimator : Type.
Variable best_score_ : Estimator -> ScoreDict.
Variable lib_fit :
  Estimator -> Array -> Array -> list (Array * option Array) -> Res Estimator.

(** C8. Whatever the library does and whether or not held-out arrays are
    supplied, a [LightGBM.fit] that returns hands back the name of the
    last evaluation set in [best_score_], a string, and never a number. *)
Theorem LightGBM_fit_returns_eval_set_name
    (self : LightGBM Estimator) (x y : Array) (eval_x eval_y : option Array) :
  match LightGBM_fit best_score_ lib_fit self x y eval_x eval_y with
  | inr (self', v) =>
      is_scalar_score v = false /\
      exists k, v = PStr k /\ last (map fst (best_score_ (model self'))) = Some k
  | inl _ => True
  end.
Proof.
  unfold LightGBM_fit.
  destruct (lib_fit _ _ _ _) as [x0|m]; simpl; [exact I|].
  unfold last_key. destruct (last (map fst (best_score_ m))) as [k|] eqn:Hk; simpl;
    [|exact I].
  split; [reflexivity|]. exists k. auto.
Qed.

(** The sibling wrapper does return a number. *)
Lemma CatBoost_fit_returns_score (self : CatBoost Estimator) (x y : Array) self' v :
  CatBoost_fit best_score_ lib_fit self x y = ok (self', v) ->
  is_scalar_score v = true.
Proof.
  unfold CatBoost_fit.
  destruct (lib_fit _ _ _ _) as [x0|m]; simpl; [discriminate|].
  destruct (score_getitem (best_score_ m) "learn") as [x0|learn]; simpl; [discriminate|].
  destruct (score_getitem learn _) as [x0|sc]; simpl; [discriminate|].
  intros H. injection H as <- <-. reflexivity.
Qed.

End DecisionTreesProps.

(** ** The one-shot manager (ml_train_manager.py) *)

Section MLTrainProps.

Import ModelManager MLTrain.

Variables MM W Array LossT Score : Type.
Variable mm_fit : Array -> Array -> option (Array * Array) -> MM -> Res (MM * LossT).
Variable mm_predict : Array -> MM -> Res Array.
Variable mm_save_model : MM -> W -> W * Res unit.
Variable vstack : list Array -> Res Array.
Variable hstack : list Array -> Res Array.
Variable metric_update : LossT -> Array -> Array -> Metric Score -> Metric Score.
Variable fmt4 : Score -> string.
Variable str_dataloaders : string.

Implicit Types (mgr : Manager Array) (e : Env MM W Score).

(** The metric object behind a reference, if any, has its best score
    equal to its current average. *)
Local Abbreviation settled e ref :=
  (forall m, store e !! ref = Some m ->
             best_score (average_meter m) = average (average_meter m)).

Lemma update_metric_settles loss preds labels ref e ref' :
  ref' = ref \/ settled e ref' ->
  settled (update_metric metric_update loss preds labels ref e) ref'.
Proof.
  intros Hor m. unfold update_metric. simpl.
  destruct (decide (ref' = ref)) as [->|Hne].
  - rewrite lookup_alter_eq. destruct (store e !! ref) as [m0|]; simpl; [|discriminate].
    intros H. injection H as <-. reflexivity.
  - rewrite lookup_alter_ne by congruence. destruct Hor as [?|Hs]; [contradiction|]. apply Hs.
Qed.

Lemma fold_update_settles loss preds labels refs : forall e ref',
  In ref' refs \/ settled e ref' ->
  settled (fold_left (fun acc ref => update_metric metric_update loss preds labels ref acc)
             refs e) ref'.
Proof.
  induction refs as [|ref refs IH]; intros e ref' Hor; simpl.
  - destruct Hor as [[]|Hs]. exact Hs.
  - apply IH. destruct Hor as [[<-|Hin]|Hs].
    + right. apply update_metric_settles. now left.
    + now left.
    + right. apply update_metric_settles. now right.
Qed.

Lemma fold_update_calls loss preds labels refs : forall e,
  calls (fold_left (fun acc ref => update_metric metric_update loss preds labels ref acc)
           refs e) = calls e /\
  model_manager (fold_left (fun acc ref => update_metric metric_update loss preds labels ref acc)
           refs e) = model_manager e.
Proof.
  induction refs as [|ref refs IH]; intros e; simpl; [auto|].
  destruct (IH (update_metric metric_update loss preds labels ref e)) as [-> ->]. auto.
Qed.

Lemma update_phase_spec mgr loss predicts labels phase e e' :
  update_phase metric_update mgr loss predicts labels phase e = (e', ok tt) ->
  calls e' = calls e /\
  forall ref,
    (exists refs, metrics mgr phase = Some refs /\ In ref refs) \/ settled e ref ->
    settled e' ref.
Proof.
  unfold update_phase.
  destruct (metrics mgr phase) as [[|r0 refs]|]; [| |discriminate].
  - intros H. injection H as <-. split; [reflexivity|].
    intros ref [(refs & E & Hin)|Hs]; [|exact Hs]. injection E as <-. destruct Hin.
  - destruct loss as [l|]; [|discriminate]. destruct predicts as [ps|]; [|discriminate].
    destruct (pdict_get ps phase) as [x|p]; [discriminate|].
    destruct (pdict_get labels phase) as [x|y]; [discriminate|].
    intros H. injection H as <-.
    split; [exact (proj1 (fold_update_calls l p y (r0 :: refs) e))|].
    intros ref Hor. apply (fold_update_settles l p y (r0 :: refs)).
    destruct Hor as [(refs' & E & Hin)|Hs]; [left|now right].
    now injection E as <-.
Qed.

Lemma update_phases_spec mgr loss predicts labels phases : forall e e',
  update_phases metric_update mgr loss predicts labels phases e = (e', ok tt) ->
  calls e' = calls e /\
  forall ref,
    (exists phase refs, In phase phases /\ metrics mgr phase = Some refs /\ In ref refs)
    \/ settled e ref ->
    settled e' ref.
Proof.
  induction phases as [|phase phases IH]; intros e e'; simpl.
  - intros H. injection H as <-. split; [reflexivity|].
    intros ref [(? & ? & [] & _)|Hs]. exact Hs.
  - destruct (update_phase _ _ _ _ _ _ e) as [e1 [x|[]]] eqn:H1; [discriminate|].
    apply update_phase_spec in H1 as [Hc1 Hs1].
    intros H. apply IH in H as [Hc Hs]. split; [congruence|].
    intros ref Hor. apply Hs.
    destruct Hor as [(ph & refs & [<-|Hin] & Hm & Hr)|Hset].
    + right. apply Hs1. left. eauto.
    + left. eauto.
    + right. apply Hs1. now right.
Qed.

Lemma predict_phases_calls phases inputs : forall predicts e e' r,
  predict_phases mm_predict phases inputs predicts e = (e', r) ->
  store e' = store e /\
  exists new, calls e' = calls e ++ new /\ Forall (fun c => is_save c = false) new.
Proof.
  induction phases as [|phase phases IH]; intros predicts e e' r; simpl.
  - intros H. injection H as <- <-. split; [reflexivity|]. exists []. now rewrite app_nil_r.
  - destruct (pdict_get inputs phase) as [x|xs].
    { intros H. injection H as <- <-. split; [reflexivity|]. exists []. now rewrite app_nil_r. }
    destruct (mm_predict xs _) as [x|p].
    { intros H. injection H as <- <-. split; [reflexivity|]. exists [CPredict]. auto. }
    intros H. apply IH in H as (Hs & new & Hc & Hall). split; [exact Hs|].
    exists (CPredict :: new). rewrite Hc. simpl. rewrite <- app_assoc. auto.
Qed.

Lemma fit_and_predict_calls mgr phases inputs labels e e' r :
  fit_and_predict mm_fit mm_predict mgr phases inputs labels e = (e', r) ->
  store e' = store e /\
  exists new, calls e' = calls e ++ new /\ Forall (fun c => is_save c = false) new.
Proof.
  unfold fit_and_predict.
  assert (Hnil : store e = store e /\
            exists new, calls e = calls e ++ new /\ Forall (fun c => is_save c = false) new)
    by (split; [reflexivity|]; exists []; now rewrite app_nil_r).
  destruct (mem_phase train phases); [|intros H; injection H as <- <-; exact Hnil].
  destruct (getitem (cfg mgr) "early_stopping") as [x|es];
    [intros H; injection H as <- <-; exact Hnil|].
  match goal with |- context [match ?a with inl _ => _ | inr _ => _ end] =>
    destruct a as [x|[[x y] held_out]] end;
    [intros H; injection H as <- <-; exact Hnil|].
  destruct (mm_fit _ _ _ _) as [x0|[m loss]].
  { intros H. injection H as <- <-. split; [reflexivity|]. exists [CFit train]. auto. }
  destruct (predict_phases _ _ _ _ _) as [e1 rp] eqn:Hp.
  apply predict_phases_calls in Hp as (Hs & new & Hc & Hall).
  intros H.
  assert (e' = e1) as -> by (destruct rp; injection H as <- <-; reflexivity).
  split; [exact Hs|]. exists (CFit train :: new). rewrite Hc. simpl.
  rewrite <- app_assoc. auto.
Qed.

(** After a [train] call that returns, every metric listed for a phase
    the call ran has its [best_score] equal to its average, and
    [save_model] was called exactly once, as the last backend call. *)
Lemma train_settles_best_and_saves mgr model_manager_arg
    (with_validate only_validate : bool) e e' result :
  train_ mm_fit mm_predict mm_save_model vstack hstack metric_update fmt4 str_dataloaders
    mgr model_manager_arg with_validate only_validate e = (e', ok result) ->
  (forall phase refs ref m,
     In phase (phases_of with_validate only_validate) ->
     metrics mgr phase = Some refs -> In ref refs ->
     store e' !! ref = Some m ->
     best_score (average_meter m) = average (average_meter m)) /\
  (exists before,
     calls e' = calls e ++ before ++ [CSave] /\
     Forall (fun c => is_save c = false) before).
Proof.
  unfold train_.
  set (e0 := match model_manager_arg with Some m => _ | None => e end).
  assert (He0 : calls e0 = calls e) by (subst e0; now destruct model_manager_arg).
  destruct (rbind _ _) as [x|[inputs labels]]; [discriminate|].
  destruct (fit_and_predict _ _ _ _ _ _ e0) as [e1 [x|[loss predicts]]] eqn:Hfit;
    [discriminate|].
  apply fit_and_predict_calls in Hfit as (_ & before & Hc1 & Hbefore).
  destruct (update_phases _ _ _ _ _ _ e1) as [e2 [x|[]]] eqn:Hupd; [discriminate|].
  apply update_phases_spec in Hupd as [Hc2 Hset].
  destruct (message _ _ _ e2) as [x|msg]; [discriminate|].
  destruct (mm_save_model _ _) as [w [x|[]]]; [discriminate|].
  destruct predicts as [ps|]; [|discriminate].
  destruct (last (map snd ps)); [|discriminate].
  intros H. injection H as <- <-. simpl. split.
  - intros phase refs ref m Hph Hm Hin. apply Hset. left. eauto.
  - exists before. rewrite Hc2, Hc1, He0, <- app_assoc. auto.
Qed.

Lemma is_ok_inv {A} (r : Res A) : is_ok r = true -> exists a, r = inr a.
Proof. destruct r; [discriminate|eauto]. Qed.

(** C10. On a call with [only_validate=True] the code does not do what
    C10 states: the block that calls [fit] is skipped, so the local
    variable [loss] is never bound, and when the val phase lists a
    metric the metric loop raises [UnboundLocalError] at its first turn.
    No [best_score] has been overwritten, nothing has been saved and no
    backend call was made. *)
Theorem only_validate_raises_before_overwrite_and_save mgr model_manager_arg
    (with_validate : bool) e batches xs ys ref refs :
  dataloaders mgr val = Some batches ->
  vstack (map fst batches) = ok xs ->
  hstack (map snd batches) = ok ys ->
  metrics mgr val = Some (ref :: refs) ->
  snd (train_ mm_fit mm_predict mm_save_model vstack hstack metric_update fmt4
         str_dataloaders mgr model_manager_arg with_validate true e)
  = raise (UnboundLocalError "loss") /\
  store (fst (train_ mm_fit mm_predict mm_save_model vstack hstack metric_update fmt4
                str_dataloaders mgr model_manager_arg with_validate true e)) = store e /\
  world (fst (train_ mm_fit mm_predict mm_save_model vstack hstack metric_update fmt4
                str_dataloaders mgr model_manager_arg with_validate true e)) = world e /\
  calls (fst (train_ mm_fit mm_predict mm_save_model vstack hstack metric_update fmt4
                str_dataloaders mgr model_manager_arg with_validate true e)) = calls e.
Proof.
  intros Hb Hx Hy Hm. unfold train_, phases_of.
  set (e0 := match model_manager_arg with Some m => _ | None => e end).
  assert (He0 : store e0 = store e /\ world e0 = world e /\ calls e0 = calls e)
    by (subst e0; now destruct model_manager_arg).
  clearbody e0.
  cbn [check_keys_from_dict stack_phases rbind ok]. rewrite Hb. cbn [rbind ok].
  rewrite Hx. cbn [rbind ok]. rewrite Hy. cbn [rbind ok stack_phases].
  unfold fit_and_predict. cbn [mem_phase existsb phase_eqb orb update_phases].
  unfold update_phase. rewrite Hm. cbn [ok fst snd].
  destruct He0 as (Hs0 & Hw0 & Hc0). auto.
Qed.

(** A call that includes the train phase does complete when its
    collaborators do. *)
Lemma train_completes mgr model_manager_arg (with_validate : bool) e :
  (forall phase, In phase (phases_of with_validate false) ->
     is_Some (dataloaders mgr phase) /\ is_Some (metrics mgr phase)) ->
  is_Some (cfg mgr !! "early_stopping") ->
  (forall l, is_ok (vstack l) = true) ->
  (forall l, is_ok (hstack l) = true) ->
  (forall x y h m, is_ok (mm_fit x y h m) = true) ->
  (forall x m, is_ok (mm_predict x m) = true) ->
  (forall m w, is_ok (snd (mm_save_model m w)) = true) ->
  exists e' result,
    train_ mm_fit mm_predict mm_save_model vstack hstack metric_update fmt4 str_dataloaders
      mgr model_manager_arg with_validate false e = (e', ok result).
Proof.
  intros Hph [es Hes] Hv Hh Hfit Hpred Hsave.
  unfold train_.
  set (e0 := match model_manager_arg with Some m => _ | None => e end). clearbody e0.
  assert (Htrain : In train (phases_of with_validate false))
    by (destruct with_validate; simpl; auto).
  destruct (Hph train Htrain) as [[bt Hbt] [rt Hrt]].
  assert (Hupd : forall l ps labels ph refs e1,
            metrics mgr ph = Some refs ->
            is_ok (pdict_get ps ph) = true -> is_ok (pdict_get labels ph) = true ->
            exists e2, update_phase metric_update mgr (Some l) (Some ps) labels ph e1
                       = (e2, ok tt)).
  { intros l ps labels ph refs e1 Hm Hp Hl. unfold update_phase. rewrite Hm.
    destruct refs as [|r0 refs]; [eauto|].
    destruct (is_ok_inv _ Hp) as [p ->]. destruct (is_ok_inv _ Hl) as [y ->]. eauto. }
  assert (Hval : with_validate = true ->
            exists bv rv, dataloaders mgr val = Some bv /\ metrics mgr val = Some rv).
  { intros ->. destruct (Hph val ltac:(simpl; auto)) as [[bv Hbv] [rv Hrv]]. eauto. }
  clear Hph Htrain.
  destruct with_validate; unfold phases_of;
    [destruct (Hval eq_refl) as (bv & rv & Hbv & Hrv)|]; clear Hval;
    unfold fit_and_predict, getitem; rewrite ?Hes;
    repeat (cbn [rbind ok check_keys_from_dict stack_phases pdict_set pdict_get find
                 phase_eqb fst snd predict_phases mem_phase existsb orb andb
                 update_phases message map last];
            rewrite ?Hbt, ?Hbv, ?Hrt, ?Hrv, ?andb_false_r;
            try match goal with
                | |- context [vstack ?l] => destruct (is_ok_inv _ (Hv l)) as [? ->]
                | |- context [hstack ?l] => destruct (is_ok_inv _ (Hh l)) as [? ->]
                | |- context [truthy es] => destruct (truthy es)
                | |- context [mm_fit ?a ?b ?c ?d] =>
                    destruct (is_ok_inv _ (Hfit a b c d)) as [[? ?] ->]
                | |- context [mm_predict ?a ?b] =>
                    destruct (is_ok_inv _ (Hpred a b)) as [? ->]
                | |- context [update_phase _ _ (Some ?l) (Some ?ps) ?lb train ?e1] =>
                    destruct (Hupd l ps lb train rt e1 Hrt eq_refl eq_refl) as [? ->]
                | |- context [update_phase _ _ (Some ?l) (Some ?ps) ?lb val ?e1] =>
                    destruct (Hupd l ps lb val _ e1 ltac:(eassumption) eq_refl eq_refl)
                      as [? ->]
                | |- context [mm_save_model ?a ?b] =>
                    let Hs := fresh "Hs" in
                    pose proof (Hsave a b) as Hs;
                    destruct (mm_save_model a b) as [? [?|[]]]; [discriminate Hs|]
                end);
    eauto.
Qed.

End MLTrainProps.

(** ** Loading a missing checkpoint *)

Section CheckpointProps.

Import ModelManager.

Variables Inner FS Inputs V Loss Fitted Meter Score : Type.
Variable inner_load : Inner -> pyval -> FS -> FS * Res Inner.
Variable inner_fitted : Inner -> bool.
Variable py_str : pyval -> string.
Variable model_predict :
  Inputs -> BaseModel.t Inner -> BaseModel.World FS -> BaseModel.World FS * Res (list V).
Variable model_criterion : BaseModel.t Inner -> list V -> list V -> Res Loss.
Variable sentinel : V.
Variable is_sentinel : V -> bool.
Variable astype : Dtype -> V -> V.
Variable metric_update :
  Phase -> LossValue Loss -> Fitted + list V -> list V -> Metric Meter -> Metric Meter.
Variable meter_value : Meter -> Score.
Variable fmt4 : Score -> string.
Variable str_dataloaders : string.
Variable str_confusion_matrix : list V -> list V -> nat -> string.

(** C4. When the wrapped predictor finds no file at the configured
    [model_path], [load_model] prints the exception and the path and ends
    in [exit(1)]; it never returns a backend. [test(load_best=True)] ends
    the same way: the only backend call is [load_model], no prediction is
    made or returned, and the metrics are untouched. *)
Theorem missing_checkpoint_is_fatal
    (mgr : Manager Inputs V) (ms : list (Metric Meter))
    (e : Env (BaseModel.t Inner) FS Score) (path : pyval) (fs' : FS) (msg : string) :
  BaseModel.cfg (model e) !! "model_path" = Some path ->
  inner_load (BaseModel.model (model e)) path (BaseModel.fs (world e))
    = (fs', raise (FileNotFoundError msg)) ->
  let w' := BaseModel.mkWorld fs'
              (BaseModel.stdout (world e) ++ [msg]
                 ++ [("trained model file doesn't exist at " ++ py_str path)%string]) in
  BaseModel.load_model inner_load inner_fitted py_str (model e) (world e)
    = (w', raise (SystemExit 1)) /\
  test_ model_predict (BaseModel.load_model inner_load inner_fitted py_str)
      model_criterion sentinel is_sentinel astype metric_update meter_value fmt4
      str_dataloaders str_confusion_matrix mgr true ms e
    = ((ms, mkEnv (model e) w' (calls e ++ [CLoad]) (tb_log e)), raise (SystemExit 1)).
Proof.
  intros Hp Hl w'.
  pose proof (load_model_missing_file _ _ inner_load inner_fitted py_str
                (model e) (world e) path fs' msg Hp Hl) as Hload.
  split; [exact Hload|].
  now rewrite (test_load_failure _ _ _ _ _ _ _ _ model_predict _ model_criterion
                 sentinel is_sentinel astype metric_update meter_value fmt4 str_dataloaders
                 str_confusion_matrix mgr ms e w' (SystemExit 1) Hload).
Qed.

End CheckpointProps.

(** ** The statements above on concrete runs *)

Section Instances.

Import ModelManager.

(** C5 on a configuration with three class labels and two loss weights. *)
Lemma init_rejects_mismatched_loss_weight_witness :
  length Demo.labels3 <> 2%nat /\
  BaseModel.__init__ Demo.labels3 Demo.cfg0 ["task_type"; "model_path"] Demo.blank
  = raise (AssertionError "loss weight needs to be matched with the number of classes").
Proof.
  split; [discriminate|].
  refine (proj2 (init_rejects_mismatched_loss_weight _ Demo.labels3 Demo.cfg0
                   ["task_type"; "model_path"] Demo.blank
                   (PList [AFloat 1%Q; AFloat 1%Q]) 2%nat _ _ _ _) _).
  - vm_compute; reflexivity.
  - vm_compute; reflexivity.
  - reflexivity.
  - discriminate.
  - repeat constructor; vm_compute; eauto.
Defined.

(** C6 on the two-class configuration. *)
Lemma init_selects_criterion_witness :
  BaseModel.__init__ Demo.labels2 Demo.cfg0 ["task_type"] Demo.blank = ok Demo.backend0 /\
  exists ws, mapM atom_number [AFloat 1%Q; AFloat 1%Q] = Some ws /\
             BaseModel.criterion Demo.backend0 = BaseModel.BCELoss ws.
Proof.
  assert (H : BaseModel.__init__ Demo.labels2 Demo.cfg0 ["task_type"] Demo.blank
              = ok Demo.backend0) by (vm_compute; reflexivity).
  split; [exact H|].
  refine (proj2 (init_selects_criterion _ _ _ _ _ _ H) _ _ _); vm_compute; reflexivity.
Defined.

(** C6 on a regress configuration. *)
Example init_selects_mse_for_regress :
  rmap BaseModel.criterion
    (BaseModel.__init__ Demo.labels2 Demo.cfg_regress ["task_type"] Demo.blank)
  = ok BaseModel.MSELoss.
Proof. vm_compute. reflexivity. Qed.

(** C3 as stated fails: an unfitted backend saves without any error. *)
Lemma save_model_unfitted_counterexample :
  BaseModel.fitted Demo.backend0 = false /\
  snd (BaseModel.save_model Demo.inner_save Demo.backend0 Demo.world0) = ok tt.
Proof. split; vm_compute; reflexivity. Defined.

(** C3 as amended, on the same unfitted backend. *)
Lemma save_model_ignores_fitted_witness :
  BaseModel.cfg Demo.backend0 !! "model_path" = Some (PStr "model.pkl") /\
  snd (BaseModel.save_model Demo.inner_save Demo.backend0 Demo.world0)
  = snd (Demo.inner_save Demo.blank (PStr "model.pkl") ∅).
Proof.
  assert (H : BaseModel.cfg Demo.backend0 !! "model_path" = Some (PStr "model.pkl"))
    by (vm_compute; reflexivity).
  split; [exact H|].
  exact (f_equal snd
           (proj2 (save_model_ignores_fitted _ _ Demo.inner_save Demo.backend0 Demo.world0
                     (PStr "model.pkl") true H))).
Defined.

(** C4 with no checkpoint on disk. *)
Lemma missing_checkpoint_is_fatal_witness :
  Demo.world0.(BaseModel.fs) !! "model.pkl" = None /\
  fst (fst (Demo.run_test Demo.manager0 true [Demo.loss_metric] Demo.env0)) = [Demo.loss_metric] /\
  snd (Demo.run_test Demo.manager0 true [Demo.loss_metric] Demo.env0) = raise (SystemExit 1).
Proof.
  split; [reflexivity|].
  pose proof (missing_checkpoint_is_fatal _ _ _ _ _ _ _ _
                Demo.inner_load Demo.inner_fitted Demo.py_str
                Demo.model_predict Demo.model_criterion Demo.sentinel Demo.is_sentinel Demo.astype
                Demo.metric_update Demo.meter_value Demo.no_text ""
                (fun _ _ _ => "") Demo.manager0 [Demo.loss_metric] Demo.env0
                (PStr "model.pkl") ∅ "No such file or directory: model.pkl"
                ltac:(vm_compute; reflexivity) ltac:(vm_compute; reflexivity)) as [_ H].
  split.
  - exact (f_equal (fun x => fst (fst x)) H).
  - exact (f_equal snd H).
Defined.

(** C1 at the end of a validation phase in which the loss improved. *)
Lemma save_model_iff_val_improvement_witness :
  exists new,
    calls (snd (fst Demo.end_of_val)) = calls Demo.env0 ++ new /\
    (In CSave new <->
     val = val /\
     exists m, In m [Demo.val_loss_metric; Demo.accuracy_metric] /\
               save_model m = true /\
               fst (Demo.update_best (average_meter m val)) = true).
Proof.
  refine (save_model_iff_val_improvement _ _ _ _ _ _ Demo.model_save Demo.model_anneal_lr
            Demo.update_best Demo.reset Demo.py_str pretty Demo.manager0 val 0
            Demo.learning_anneal [Demo.val_loss_metric; Demo.accuracy_metric] Demo.env0
            (fst (fst Demo.end_of_val)) (snd (fst Demo.end_of_val)) (snd Demo.end_of_val)
            _ _).
  - vm_compute; eauto.
  - change (Demo.end_of_val
            = (fst (fst Demo.end_of_val), snd (fst Demo.end_of_val), snd Demo.end_of_val)).
    now destruct Demo.end_of_val as [[? ?] ?].
Defined.

(** C1 and C7 over two epochs with the same validation loss in both: the
    checkpoint is written after the first validation phase and not after
    the second (a tie is no improvement), and each train phase ends with
    one [anneal_lr]. *)
Example two_epochs_call_record :
  calls (snd (fst Demo.train_run))
  = [CFit train; CFit train; CAnneal Demo.learning_anneal; CFit val; CSave;
     CFit train; CFit train; CAnneal Demo.learning_anneal; CFit val] /\
  snd Demo.train_run = ok tt.
Proof. split; vm_compute; reflexivity. Qed.

(** C1 as stated fails on the one-shot manager: a call that runs the
    train phase only still saves the model. *)
Lemma save_without_val_phase_counterexample :
  MLTrain.phases_of false false = [train] /\
  MLTrain.calls (fst Demo.ml_run_train_only) = [CFit train; CPredict; CSave] /\
  is_ok (snd Demo.ml_run_train_only) = true.
Proof. repeat split; vm_compute; reflexivity. Defined.

(** C7 as stated fails: the end of a train phase calls [anneal_lr] and
    nothing else; the [update_by_epoch] hook is not called. *)
Lemma update_by_epoch_not_called_counterexample :
  calls (snd (fst Demo.end_of_train)) = [CAnneal Demo.learning_anneal] /\
  ~ In (CUpdateByEpoch train) (calls (snd (fst Demo.end_of_train))).
Proof.
  assert (H : calls (snd (fst Demo.end_of_train)) = [CAnneal Demo.learning_anneal])
    by (vm_compute; reflexivity).
  split; [exact H|]. rewrite H. intros [E|[]]. discriminate.
Defined.

(** C7 as amended, at the end of that train phase. *)
Lemma end_of_phase_anneals_on_train_only_witness :
  exists new,
    calls (snd (fst Demo.end_of_train)) = calls Demo.env0 ++ new /\
    (train = train -> new = [CAnneal Demo.learning_anneal]) /\
    (train = val -> Forall (fun c => is_anneal c = false) new) /\
    Forall (fun c => is_update_by_epoch c = false) new.
Proof.
  refine (end_of_phase_anneals_on_train_only _ _ _ _ _ _ Demo.model_save Demo.model_anneal_lr
            Demo.update_best Demo.reset Demo.py_str pretty Demo.manager0 train 0
            Demo.learning_anneal [Demo.val_loss_metric; Demo.accuracy_metric] Demo.env0
            (fst (fst Demo.end_of_train)) (snd (fst Demo.end_of_train))
            (snd Demo.end_of_train) _).
  change (Demo.end_of_train
          = (fst (fst Demo.end_of_train), snd (fst Demo.end_of_train), snd Demo.end_of_train)).
  now destruct Demo.end_of_train as [[? ?] ?].
Defined.

(** C2 as stated fails: a prediction equal to the fill value is taken
    for an unfilled slot and dropped, so three samples give two
    predictions. *)
Lemma predict_drops_fill_valued_prediction_counterexample :
  Demo.loaders_collision test = Some [([1; 2], [0; 1]); ([-1000000], [1])] /\
  snd (Demo.predict_ Demo.manager_collision test Demo.env0) = ok ([1; 2], [0; 1; 1]).
Proof. split; vm_compute; reflexivity. Defined.

(** C2 as amended, on three samples in batches of two of a classify
    task: the buffers hold integers, and the small values delivered are
    stored as they are. *)
Lemma predict_returns_all_samples_witness :
  snd (Demo.predict_ Demo.manager0 test Demo.env0) = ok ([0; 1; 1], [0; 1; 1]) /\
  length (map (Demo.astype NpInt) (concat [[0; 1]; [1]]))
  = sum_list (map (@length Z) [[0; 1]; [1]]).
Proof.
  pose proof (predict_returns_all_samples _ _ _ _ _ Demo.model_predict Demo.sentinel
                Demo.is_sentinel Demo.astype "" Demo.manager0 test Demo.env0
                (fst Demo.test_predictions)
                2 (PStr "classify") Demo.test_batches [[0; 1]; [1]]
                ltac:(vm_compute; reflexivity) ltac:(vm_compute; reflexivity)
                ltac:(reflexivity) ltac:(vm_compute; reflexivity) ltac:(lia)
                ltac:(reflexivity)
                ltac:(repeat constructor; simpl; lia)
                ltac:(repeat constructor; simpl; lia)
                ltac:(repeat constructor)
                ltac:(repeat constructor)) as (H & _ & _ & Hlen & _).
  split; [|exact Hlen].
  unfold Demo.predict_. rewrite H. reflexivity.
Defined.

(** C8 at the failing input: held-out arrays supplied. *)
Example LightGBM_fit_held_out_returns_set_name :
  rmap snd (Demo.fit Demo.blank [1; 2] [0; 1] (Some [1]) (Some [1])) = ok (PStr "valid_1").
Proof. vm_compute. reflexivity. Qed.

(** C9 on a classify test pass with a loss and an accuracy metric. *)
Lemma test_uses_placeholder_loss_witness :
  snd Demo.test_run = ok ([0; 1; 1], [0; 1; 1]) /\
  Forall2 (fun m m' =>
             (name m <> "loss" ->
              m' = Demo.metric_update test (Literal 10000000) (inr [0; 1; 1]) [0; 1; 1] m) /\
             (name m = "loss" ->
              cfg Demo.manager0 !! "task_type" = Some (PStr "classify") -> m' = m))
          [Demo.loss_metric; Demo.accuracy_metric] (fst (fst Demo.test_run)).
Proof.
  assert (H : Demo.test_run
              = (fst (fst Demo.test_run), snd (fst Demo.test_run), ok ([0; 1; 1], [0; 1; 1]))).
  { assert (Hr : snd Demo.test_run = ok ([0; 1; 1], [0; 1; 1])) by (vm_compute; reflexivity).
    rewrite <- Hr. now destruct Demo.test_run as [[? ?] ?]. }
  split; [rewrite H; reflexivity|].
  exact (test_uses_placeholder_loss _ _ _ _ _ _ _ _ Demo.model_predict Demo.model_load
           Demo.model_criterion Demo.sentinel Demo.is_sentinel Demo.astype Demo.metric_update
           Demo.meter_value Demo.no_text "" (fun _ _ _ => "") Demo.manager0 false
           [Demo.loss_metric; Demo.accuracy_metric] Demo.env0 _ _ _ _ H).
Defined.

(** C10 on the manager of [Demo.ml_run], called with
    [only_validate=True]: the call raises, the accuracy metric still
    holds its old best 1 beside the average 0, the recall metric its old
    best 9/10, and no model file was written. *)
Lemma only_validate_raises_before_overwrite_and_save_witness :
  snd Demo.ml_run_only_validate = raise (UnboundLocalError "loss") /\
  MLTrain.store (fst Demo.ml_run_only_validate) !! 0%nat
  = Some (MLTrain.mkMetric "accuracy" false false (MLTrain.mkMeter 0 0 0 0 1)%Q) /\
  MLTrain.store (fst Demo.ml_run_only_validate) !! 1%nat
  = Some (MLTrain.mkMetric "recall" false false (MLTrain.mkMeter 0 0 0 0 (9 # 10))%Q) /\
  MLTrain.world (fst Demo.ml_run_only_validate) = ∅ /\
  MLTrain.calls (fst Demo.ml_run_only_validate) = [].
Proof.
  destruct (only_validate_raises_before_overwrite_and_save _ _ _ _ _ Demo.mm_fit
              Demo.mm_predict Demo.mm_save_model Demo.stack Demo.stack
              Demo.ml_metric_update Demo.no_text "" Demo.ml_manager None true Demo.ml_env0
              [([1; 0], [1; 0])] [1; 0] [1; 0] 1%nat [0%nat]
              eq_refl eq_refl eq_refl eq_refl) as (Hr & Hs & Hw & Hc).
  unfold Demo.ml_run_only_validate, Demo.ml_train.
  rewrite Hr, Hs, Hw, Hc. repeat split.
Defined.

End Instances.

(** * Further properties of the code *)

(** ** base_model.py: construction and loading *)

Section BaseModelMore.

Variables Inner FS : Type.
Variable inner_load : Inner -> pyval -> FS -> FS * Res Inner.
Variable inner_fitted : Inner -> bool.
Variable py_str : pyval -> string.

Lemma check_cfg_ok_inv cfg keys c :
  BaseModel._check_cfg cfg keys = ok c ->
  c = cfg /\ Forall (fun k => is_Some (cfg !! k)) keys.
Proof.
  induction keys as [|k keys IH]; simpl.
  - intros H. injection H as <-. auto.
  - destruct (cfg !! k) as [v|] eqn:Hk; [|discriminate].
    intros H. destruct (IH H) as [-> Hall]. split; [reflexivity|].
    constructor; [rewrite Hk; eauto | exact Hall].
Qed.

(** X1. [_check_cfg] returns the configuration unchanged when no key is
    missing, and otherwise raises the assertion error that names the first
    missing key in the order of [must_contain_keys]. *)
Theorem check_cfg_names_first_missing_key (cfg : gmap string pyval) (keys : list string) :
  match List.find (fun k => match cfg !! k with None => true | Some _ => false end) keys with
  | None => BaseModel._check_cfg cfg keys = ok cfg
  | Some k =>
      BaseModel._check_cfg cfg keys
      = raise (AssertionError (k ++ " must be contained in the model conf"))
  end.
Proof.
  induction keys as [|k keys IH]; simpl; [reflexivity|].
  destruct (cfg !! k); [exact IH | reflexivity].
Qed.

(** X2. Every backend that [__init__] returns is unfitted, holds the given
    labels and configuration unchanged, has every required key and a
    task type, and, unless the task is regress, has as many loss weights
    as class labels. *)
Theorem init_postcondition
    (class_labels : list atom) (cfg : gmap string pyval)
    (must_contain_keys : list string) (inner : Inner) (b : BaseModel.t Inner) :
  BaseModel.__init__ class_labels cfg must_contain_keys inner = ok b ->
  BaseModel.fitted b = false /\
  BaseModel.cfg b = cfg /\
  BaseModel.class_labels b = class_labels /\
  BaseModel.model b = inner /\
  Forall (fun k => is_Some (cfg !! k)) must_contain_keys /\
  exists task_type,
    cfg !! "task_type" = Some task_type /\
    (eq_str task_type "regress" = false ->
     exists loss_weight,
       cfg !! "loss_weight" = Some loss_weight /\
       len loss_weight = ok (length class_labels)).
Proof.
  unfold BaseModel.__init__. intros H.
  destruct (BaseModel._check_cfg cfg must_contain_keys) as [x|c] eqn:Hc; [discriminate|].
  apply check_cfg_ok_inv in Hc as [-> Hkeys]. simpl in H.
  destruct (BaseModel._set_criterion class_labels cfg) as [x|crit] eqn:Hcrit;
    [discriminate|].
  injection H as <-. simpl. repeat split; try exact Hkeys.
  unfold BaseModel._set_criterion, getitem in Hcrit.
  destruct (cfg !! "task_type") as [t|]; [|discriminate]. exists t. split; [reflexivity|].
  intros Hr. simpl in Hcrit. rewrite Hr in Hcrit.
  destruct (cfg !! "loss_weight") as [lw|]; [|discriminate]. exists lw. split; [reflexivity|].
  simpl in Hcrit. destruct (len lw) as [x|n]; [discriminate|]. simpl in Hcrit.
  destruct (Nat.eqb_spec (length class_labels) n) as [->|]; [reflexivity|discriminate].
Qed.

(** X3. [load_model] never lets a [FileNotFoundError] out (it turns it
    into [exit(1)]), and a backend it returns carries the wrapped
    predictor's own fitted flag with labels, configuration and criterion
    unchanged. *)
Theorem load_model_outcomes (b : BaseModel.t Inner) (w : BaseModel.World FS) :
  match snd (BaseModel.load_model inner_load inner_fitted py_str b w) with
  | inl (FileNotFoundError _) => False
  | inl _ => True
  | inr b' =>
      BaseModel.fitted b' = inner_fitted (BaseModel.model b') /\
      BaseModel.cfg b' = BaseModel.cfg b /\
      BaseModel.class_labels b' = BaseModel.class_labels b /\
      BaseModel.criterion b' = BaseModel.criterion b
  end.
Proof.
  unfold BaseModel.load_model, getitem.
  destruct (BaseModel.cfg b !! "model_path") as [path|]; simpl; [|exact I].
  destruct (inner_load _ _ _) as [fs' [e|inner']]; simpl; [|auto].
  destruct e; simpl; exact I.
Qed.

End BaseModelMore.

(** ** model_manager.py: the end-of-phase routine and the call record *)

Section ManagerMore.

Import ModelManager ManagerInit.

Variables Model FS Inputs V Loss Fitted Meter Score : Type.
Variable model_fit :
  Inputs -> list V -> Phase -> Model -> BaseModel.World FS ->
  BaseModel.World FS * Res (Model * (Loss * Fitted)).
Variable model_predict : Inputs -> Model -> BaseModel.World FS -> BaseModel.World FS * Res (list V).
Variable model_save : Model -> BaseModel.World FS -> BaseModel.World FS * Res unit.
Variable model_load : Model -> BaseModel.World FS -> BaseModel.World FS * Res Model.
Variable model_anneal_lr : pyval -> Model -> BaseModel.World FS -> BaseModel.World FS * Res Model.
Variable model_criterion : Model -> list V -> list V -> Res Loss.
Variable sentinel : V.
Variable is_sentinel : V -> bool.
Variable astype : Dtype -> V -> V.
Variable metric_update :
  Phase -> LossValue Loss -> Fitted + list V -> list V -> Metric Meter -> Metric Meter.
Variable update_best : Meter -> bool * Meter.
Variable reset : Meter -> Meter.
Variable meter_value : Meter -> Score.
Variable meter_average : Meter -> Score.
Variable fmt4 : Score -> string.
Variable str_score : Score -> string.
Variable py_str : pyval -> string.
Variable str_nat : nat -> string.
Variable str_Z : Z -> string.
Variable str_dataloaders : string.
Variable str_confusion_matrix : list V -> list V -> nat -> string.

Implicit Types (mgr : Manager Inputs V) (e : Env Model FS Score).
Implicit Types (m : Metric Meter) (ms : list (Metric Meter)).

Local Abbreviation step_metric :=
  (update_metric_by_epoch model_save update_best reset py_str).
Local Abbreviation end_of_phase :=
  (_update_by_epoch model_save model_anneal_lr update_best reset py_str str_Z).
Local Abbreviation run_batches :=
  (train_batches model_fit metric_update meter_value fmt4 str_nat str_Z).
Local Abbreviation run_phase :=
  (train_phase model_fit model_save model_anneal_lr metric_update update_best reset
     meter_value meter_average fmt4 str_score py_str str_nat str_Z).
Local Abbreviation run_epochs :=
  (train_epochs model_fit model_save model_anneal_lr metric_update update_best reset
     meter_value meter_average fmt4 str_score py_str str_nat str_Z).
Local Abbreviation run_train :=
  (train_ model_fit model_save model_anneal_lr metric_update update_best reset
     meter_value meter_average fmt4 str_score py_str str_nat str_Z str_dataloaders).

(** What a completed end-of-phase routine leaves of a metric. *)
Local Abbreviation closed_out phase :=
  (fun m m' : Metric Meter =>
     name m' = name m /\
     save_model m' = save_model m /\
     average_meter m' phase = reset (snd (update_best (average_meter m phase))) /\
     forall q, q <> phase -> average_meter m' q = average_meter m q).

Lemma phase_eqb_refl p : phase_eqb p p = true.
Proof. now destruct p. Qed.

Lemma phase_eqb_neq p q : p <> q -> phase_eqb p q = false.
Proof. destruct p, q; simpl; congruence. Qed.

Lemma step_metric_closes_out mgr phase m e m' e' :
  step_metric mgr phase m e = ((m', e'), ok tt) -> closed_out phase m m'.
Proof.
  unfold update_metric_by_epoch.
  destruct (update_best (average_meter m phase)) as [flag am]. simpl.
  destruct (if save_model m && flag && phase_eqb phase val then _ else _) as [e1 [x|[]]];
    [discriminate|].
  intros H. injection H as <- <-. simpl. rewrite phase_eqb_refl.
  repeat split. intros q Hq. now rewrite (phase_eqb_neq q phase Hq).
Qed.

Lemma for_metrics_closes_out mgr phase ms : forall e ms' e',
  for_metrics (step_metric mgr phase) ms e = ((ms', e'), ok tt) ->
  Forall2 (closed_out phase) ms ms'.
Proof.
  induction ms as [|m ms IH]; intros e ms' e'; simpl.
  - intros H. injection H as <- <-. constructor.
  - destruct (step_metric mgr phase m e) as [[m1 e1] [x|[]]] eqn:Hs; [discriminate|].
    destruct (for_metrics _ ms e1) as [[rest' e2] r2] eqn:Hrec.
    intros H. injection H as <- <- ->.
    constructor; [exact (step_metric_closes_out _ _ _ _ _ _ Hs) | exact (IH _ _ _ Hrec)].
Qed.

(** X4. A completed [_update_by_epoch] keeps every metric's name and
    save flag, leaves each metric's meter for the phase reset after its
    [update_best()], improved or not, and does not touch the meters of
    the other phases. *)
Theorem end_of_phase_resets_phase_meters mgr phase epoch la ms e ms' e' :
  end_of_phase mgr phase epoch la ms e = ((ms', e'), ok tt) ->
  Forall2 (fun m m' =>
             name m' = name m /\
             save_model m' = save_model m /\
             average_meter m' phase = reset (snd (update_best (average_meter m phase))) /\
             forall q, q <> phase -> average_meter m' q = average_meter m q) ms ms'.
Proof.
  unfold _update_by_epoch.
  destruct (for_metrics _ ms e) as [[ms1 e1] [x|[]]] eqn:Hfm.
  { intros H. discriminate. }
  apply for_metrics_closes_out in Hfm.
  destruct (if phase_eqb phase train then _ else _) as [e2 [x|[]]]; [discriminate|].
  intros H. injection H as <- <-. exact Hfm.
Qed.

(** *** Counting the backend calls of [train] *)

Lemma count_calls_app f (l1 l2 : list Call) :
  count_calls f (l1 ++ l2) = (count_calls f l1 + count_calls f l2)%nat.
Proof. unfold count_calls. now rewrite List.filter_app, length_app. Qed.

Lemma count_calls_same f c (l : list Call) :
  Forall (fun c' => c' = c) l ->
  count_calls f l = if f c then length l else 0%nat.
Proof.
  unfold count_calls. induction 1 as [|c' l -> _ IH]; simpl.
  - now destruct (f c).
  - destruct (f c); simpl; now rewrite IH.
Qed.

Lemma run_batches_completed mgr epoch phase batches : forall i ms e ms' e',
  run_batches mgr epoch phase i batches ms e = ((ms', e'), ok tt) ->
  calls e' = calls e ++ replicate (length batches) (CFit phase) /\
  length ms' = length ms.
Proof.
  induction batches as [|[inputs labels] rest IH]; intros i ms e ms' e'; simpl.
  - intros H. injection H as <- <-. now rewrite app_nil_r.
  - unfold call_fit. simpl.
    destruct (model_fit _ _ _ _ _) as [w [x|[m' [loss predicts]]]]; [discriminate|].
    destruct (getitem (cfg mgr) "silent") as [x|silent]; [discriminate|].
    match goal with |- context [set_model m' ?e0] => set (e1 := set_model m' e0) end.
    set (ms1 := map _ ms).
    assert (Hv : forall e2 r2,
              (if negb (truthy silent)
               then _verbose meter_value fmt4 str_nat str_Z mgr epoch phase i ms1 e1
               else (e1, ok tt)) = (e2, r2) -> calls e2 = calls e ++ [CFit phase]).
    { intros e2 r2. destruct (negb (truthy silent)).
      - intros H. pose proof (verbose_calls _ _ _ _ _ _ meter_value fmt4 str_nat str_Z
                                mgr epoch phase i ms1 e1) as Hvc.
        rewrite H in Hvc. exact Hvc.
      - intros H. injection H as <- <-. reflexivity. }
    destruct (if negb (truthy silent) then _ else _) as [e2 r2].
    pose proof (Hv e2 r2 eq_refl) as Hver. destruct r2 as [x|[]]; [discriminate|].
    intros H. apply IH in H as [Hc Hl]. split.
    + rewrite Hc, Hver, <- app_assoc. reflexivity.
    + rewrite Hl. subst ms1. apply length_map.
Qed.

Lemma for_metrics_saves_bound mgr phase ms : forall e ms' e' r,
  for_metrics (step_metric mgr phase) ms e = ((ms', e'), r) ->
  length ms' = length ms /\
  exists saves,
    calls e' = calls e ++ saves /\
    Forall (fun c => c = CSave) saves /\
    (length saves <= length ms)%nat /\
    (phase <> val -> saves = []).
Proof.
  induction ms as [|m ms IH]; intros e ms' e' r; simpl.
  - intros H. injection H as <- <- <-. split; [reflexivity|].
    exists []. rewrite app_nil_r. auto.
  - destruct (step_metric mgr phase m e) as [[m1 e1] r1] eqn:Hs.
    apply step_metric_spec in Hs as [Hf Ht].
    assert (Hone : exists one, calls e1 = calls e ++ one /\
                     Forall (fun c => c = CSave) one /\ (length one <= 1)%nat /\
                     (phase <> val -> one = [])).
    { destruct (triggers update_best phase m) eqn:Htr.
      - destruct (Ht eq_refl) as [_ [Hc|Hc]].
        + exists []. rewrite app_nil_r. auto.
        + exists [CSave]. repeat split; auto.
          intros Hp. apply triggers_val in Htr as [? _]. contradiction.
      - destruct (Hf eq_refl) as [Hc _]. exists []. rewrite app_nil_r. auto. }
    destruct Hone as (one & Hc1 & Hall1 & Hlen1 & Hnv1).
    destruct r1 as [x|[]].
    + intros H. injection H as <- <- <-. split; [reflexivity|].
      exists one. repeat split; auto. simpl. lia.
    + destruct (for_metrics _ ms e1) as [[rest' e2] r2] eqn:Hrec.
      apply IH in Hrec as (Hl & saves & Hc2 & Hall2 & Hlen2 & Hnv2).
      intros H. injection H as <- <- <-. split; [simpl; now rewrite Hl|].
      exists (one ++ saves). rewrite Hc2, Hc1, <- app_assoc.
      split; [reflexivity|]. split; [now apply Forall_app|].
      split; [rewrite length_app; simpl; lia|].
      intros Hp. now rewrite (Hnv1 Hp), (Hnv2 Hp).
Qed.

Lemma end_of_phase_completed mgr phase epoch la ms e ms' e' :
  end_of_phase mgr phase epoch la ms e = ((ms', e'), ok tt) ->
  length ms' = length ms /\
  exists saves,
    Forall (fun c => c = CSave) saves /\
    (length saves <= length ms)%nat /\
    calls e' = calls e ++ saves ++ (if phase_eqb phase train then [CAnneal la] else []) /\
    (phase <> val -> saves = []).
Proof.
  unfold _update_by_epoch.
  destruct (for_metrics _ ms e) as [[ms1 e1] r1] eqn:Hfm.
  apply for_metrics_saves_bound in Hfm as (Hl & saves & Hc & Hall & Hlen & Hnv).
  destruct r1 as [x|[]]; [discriminate|].
  destruct (phase_eqb phase train) eqn:Hph.
  - pose proof (call_anneal_calls _ _ _ model_anneal_lr la e1) as Ha.
    destruct (call_anneal_lr model_anneal_lr la e1) as [e2 [x|[]]]; [discriminate|].
    simpl in Ha. intros H. injection H as <- <-. split; [exact Hl|].
    exists saves. repeat split; auto.
    destruct (phase_eqb phase val); simpl; now rewrite Ha, Hc, <- app_assoc.
  - intros H. injection H as <- <-. split; [exact Hl|].
    exists saves. repeat split; auto.
    rewrite app_nil_r. now destruct (phase_eqb phase val).
Qed.

(** The backend calls of one completed phase, counted. *)
Lemma completed_phase_counts mgr epoch phase ms e ms' e' batches :
  run_phase mgr epoch phase ms e = ((ms', e'), ok tt) ->
  dataloaders mgr phase = Some batches ->
  length ms' = length ms /\
  exists new,
    calls e' = calls e ++ new /\
    count_calls is_fit new = length batches /\
    count_calls is_anneal new = (if phase_eqb phase train then 1 else 0)%nat /\
    (count_calls is_save new <= length ms)%nat /\
    (phase <> val -> count_calls is_save new = 0%nat) /\
    length new = (count_calls is_fit new + count_calls is_anneal new
                  + count_calls is_save new)%nat.
Proof.
  unfold train_phase. intros H Hd. rewrite Hd in H.
  destruct (run_batches mgr epoch phase 0 batches ms e) as [[ms1 e1] [x|[]]] eqn:Hb;
    [discriminate|].
  apply run_batches_completed in Hb as [Hc1 Hl1].
  set (e2 := if logger mgr then _ else e1) in H.
  assert (He2 : calls e2 = calls e1).
  { subst e2. destruct (logger mgr); [|reflexivity]. unfold _record_log. simpl.
    now rewrite (fold_print_calls _ _ _
             (fun kv : string * Score => fst kv ++ " " ++ str_score (snd kv))%string). }
  destruct (getitem (cfg mgr) "learning_anneal") as [x|la]; [discriminate|].
  apply end_of_phase_completed in H as (Hl2 & saves & Hall & Hlen & Hc2 & Hnv).
  split; [congruence|].
  exists (replicate (length batches) (CFit phase) ++ saves
          ++ (if phase_eqb phase train then [CAnneal la] else [])).
  rewrite Hc2, He2, Hc1, <- !app_assoc. split; [reflexivity|].
  assert (Hfits : Forall (fun c => c = CFit phase) (replicate (length batches) (CFit phase)))
    by (apply Forall_replicate; reflexivity).
  rewrite !count_calls_app, !length_app.
  rewrite !(count_calls_same _ (CFit phase) _ Hfits), !(count_calls_same _ CSave _ Hall).
  simpl. rewrite length_replicate.
  destruct (phase_eqb phase train); simpl; unfold count_calls; simpl;
    repeat split; try lia; intros Hp; rewrite (Hnv Hp); reflexivity.
Qed.

Lemma completed_epochs_counts mgr bt bv n : forall epoch ms e ms' e',
  dataloaders mgr train = Some bt ->
  dataloaders mgr val = Some bv ->
  run_epochs mgr n epoch ms e = ((ms', e'), ok tt) ->
  length ms' = length ms /\
  exists new,
    calls e' = calls e ++ new /\
    count_calls is_fit new = (n * (length bt + length bv))%nat /\
    count_calls is_anneal new = n /\
    (count_calls is_save new <= n * length ms)%nat /\
    length new = (count_calls is_fit new + count_calls is_anneal new
                  + count_calls is_save new)%nat.
Proof.
  induction n as [|n IH]; intros epoch ms e ms' e' Ht Hv; simpl.
  - intros H. injection H as <- <-. split; [reflexivity|].
    exists []. rewrite app_nil_r. unfold count_calls. simpl. auto.
  - unfold train_epoch.
    destruct (run_phase mgr epoch train ms e) as [[ms1 e1] [x|[]]] eqn:H1; [discriminate|].
    destruct (run_phase mgr epoch val ms1 e1) as [[ms2 e2] [x|[]]] eqn:H2; [discriminate|].
    apply (completed_phase_counts _ _ _ _ _ _ _ bt) in H1
      as (Hl1 & n1 & Hc1 & Hf1 & Ha1 & Hs1 & Hz1 & Ht1); [|exact Ht].
    apply (completed_phase_counts _ _ _ _ _ _ _ bv) in H2
      as (Hl2 & n2 & Hc2 & Hf2 & Ha2 & Hs2 & _ & Ht2); [|exact Hv].
    specialize (Hz1 ltac:(discriminate)). simpl in Ha1, Ha2.
    intros H. apply IH in H as (Hl3 & n3 & Hc3 & Hf3 & Ha3 & Hs3 & Ht3); try assumption.
    split; [congruence|].
    exists (n1 ++ n2 ++ n3). rewrite Hc3, Hc2, Hc1, <- !app_assoc.
    split; [reflexivity|]. rewrite !count_calls_app, !length_app.
    rewrite Hl2, Hl1 in Hs3. rewrite Hl1 in Hs2. repeat split; nia.
Qed.

(** X5. A [train()] that runs to its end makes, for [epochs] epochs over a
    train loader of [|bt|] and a val loader of [|bv|] batches, exactly
    [epochs * (|bt| + |bv|)] calls of [fit], exactly [epochs] calls of
    [anneal_lr], at most one [save_model] per metric and epoch, and no
    other backend call; a non-positive [epochs] makes none at all. *)
Theorem completed_train_call_counts mgr ms e ms' e' bt bv (epochs : Z) :
  run_train mgr ms e = ((ms', e'), ok tt) ->
  dataloaders mgr train = Some bt ->
  dataloaders mgr val = Some bv ->
  get_int (cfg mgr) "epochs" = ok epochs ->
  exists new,
    calls e' = calls e ++ new /\
    count_calls is_fit new = (Z.to_nat epochs * (length bt + length bv))%nat /\
    count_calls is_anneal new = Z.to_nat epochs /\
    (count_calls is_save new <= Z.to_nat epochs * length ms)%nat /\
    length new = (count_calls is_fit new + count_calls is_anneal new
                  + count_calls is_save new)%nat.
Proof.
  unfold train_. intros H Ht Hv He. simpl in H. rewrite Ht, Hv, He in H.
  apply (completed_epochs_counts mgr bt bv) in H as (_ & new & Hnew); try assumption.
  exists new. exact Hnew.
Qed.

(** Any phase of [train], completed or not. *)
Local Abbreviation train_call c := (is_fit c || is_save c || is_anneal c = true).

Lemma epochs_only_train_calls mgr n : forall epoch ms e ms' e' r,
  run_epochs mgr n epoch ms e = ((ms', e'), r) ->
  exists new, calls e' = calls e ++ new /\ Forall (fun c => train_call c) new.
Proof.
  assert (Hphase : forall epoch phase ms e ms' e' r,
            run_phase mgr epoch phase ms e = ((ms', e'), r) ->
            exists new, calls e' = calls e ++ new /\ Forall (fun c => train_call c) new).
  { intros epoch phase ms e ms' e' r H.
    apply train_phase_calls in H as (fits & rest & Hc & Hf & Hr & _).
    exists (fits ++ rest). split; [exact Hc|]. apply Forall_app. split.
    - eapply Forall_impl; [exact Hf|]. now intros c ->.
    - eapply Forall_impl; [exact Hr|]. intros c [->|[la ->]]; reflexivity. }
  induction n as [|n IH]; intros epoch ms e ms' e' r; simpl.
  - intros H. injection H as <- <- <-. exists []. now rewrite app_nil_r.
  - unfold train_epoch.
    destruct (run_phase mgr epoch train ms e) as [[ms1 e1] r1] eqn:H1.
    apply Hphase in H1 as (n1 & Hc1 & Ha1).
    destruct r1 as [x|[]].
    { intros H. injection H as <- <- <-. eauto. }
    destruct (run_phase mgr epoch val ms1 e1) as [[ms2 e2] r2] eqn:H2.
    apply Hphase in H2 as (n2 & Hc2 & Ha2).
    destruct r2 as [x|[]].
    { intros H. injection H as <- <- <-. exists (n1 ++ n2).
      rewrite Hc2, Hc1, <- app_assoc. split; [reflexivity|]. now apply Forall_app. }
    intros H. apply IH in H as (n3 & Hc3 & Ha3).
    exists (n1 ++ n2 ++ n3). rewrite Hc3, Hc2, Hc1, <- !app_assoc.
    split; [reflexivity|]. repeat (apply Forall_app; split); assumption.
Qed.

(** X6. Whether it completes or is cut short by an error, [train()] only
    ever calls [fit], [save_model] and [anneal_lr] on the backend: never
    [predict], [load_model] or [update_by_epoch]; and when a loader or the
    [epochs] entry is missing it fails before any call, with the metrics
    as they were. *)
Theorem train_only_fits_saves_anneals mgr ms e ms' e' r :
  run_train mgr ms e = ((ms', e'), r) ->
  (exists new,
     calls e' = calls e ++ new /\
     Forall (fun c => is_fit c || is_save c || is_anneal c = true) new) /\
  ((dataloaders mgr train = None \/ dataloaders mgr val = None \/
    cfg mgr !! "epochs" = None) ->
   calls e' = calls e /\ ms' = ms /\ is_ok r = false).
Proof.
  unfold train_. intros H. split.
  - destruct (check_keys_from_dict _ _ _) as [x|[]].
    { injection H as <- <- <-. exists []. now rewrite app_nil_r. }
    destruct (get_int (cfg mgr) "epochs") as [x|epochs].
    { injection H as <- <- <-. exists []. now rewrite app_nil_r. }
    exact (epochs_only_train_calls _ _ _ _ _ _ _ _ H).
  - simpl in H. unfold get_int, getitem in H.
    intros [Hn|[Hn|Hn]].
    + rewrite Hn in H. injection H as <- <- <-. auto.
    + rewrite Hn in H. destruct (dataloaders mgr train); injection H as <- <- <-; auto.
    + rewrite Hn in H. simpl in H.
      destruct (dataloaders mgr train); [destruct (dataloaders mgr val)|];
        injection H as <- <- <-; auto.
Qed.

(** *** The prediction pass *)

Local Abbreviation run_predict :=
  (_predict (Score := Score) model_predict sentinel is_sentinel astype str_dataloaders).
Local Abbreviation test_loop :=
  (test_metrics (Inputs := Inputs) (Score := Score) (FS := FS)
     model_criterion metric_update meter_value fmt4).
Local Abbreviation run_test :=
  (test_ model_predict model_load model_criterion sentinel is_sentinel astype
     metric_update meter_value fmt4 str_dataloaders str_confusion_matrix).
Local Abbreviation run_infer :=
  (infer_ (Score := Score) model_predict model_load sentinel is_sentinel astype
     str_dataloaders).

Lemma slice_assign_length (buf v buf' : list V) (start : nat) :
  slice_assign buf start v = ok buf' -> length buf' = length buf.
Proof.
  unfold slice_assign.
  set (n := length buf). set (s0 := Nat.min start n).
  set (stop := Nat.min (start + length v) n).
  assert (Hs : (s0 <= stop <= n)%nat) by (subst s0 stop; lia).
  assert (Hlen : forall mid : list V, length mid = (stop - s0)%nat ->
                   length (take s0 buf ++ mid ++ drop stop buf) = n).
  { intros mid Hm. rewrite !length_app, length_take, length_drop, Hm. fold n. lia. }
  destruct (Nat.eqb_spec (length v) (stop - s0)) as [Hk|Hk].
  - intros H. injection H as <-. now apply Hlen.
  - destruct v as [|x [|y v]]; try discriminate.
    intros H. injection H as <-. apply Hlen. apply length_replicate.
Qed.

Lemma predict_batches_bound (d : Dtype) (b : nat) (batches : list (Inputs * list V)) :
  forall i pl ll e e' r,
    predict_batches model_predict astype d b i batches pl ll e = (e', r) ->
    exists k,
      (k <= length batches)%nat /\
      calls e' = calls e ++ replicate k CPredict /\
      forall pl' ll', r = ok (pl', ll') ->
        k = length batches /\ length pl' = length pl /\ length ll' = length ll.
Proof.
  induction batches as [|[inputs labels] rest IH]; intros i pl ll e e' r; simpl.
  - intros H. injection H as <- <-. exists 0%nat. rewrite app_nil_r.
    split; [lia|]. split; [reflexivity|].
    intros pl' ll' E. injection E as <- <-. auto.
  - unfold call_predict. simpl.
    destruct (model_predict _ _ _) as [w [x|preds]].
    { intros H. injection H as <- <-. exists 1%nat. simpl.
      split; [lia|]. split; [reflexivity|]. discriminate. }
    destruct (slice_assign pl (i * b) _) as [x|pl1] eqn:Hp.
    { intros H. injection H as <- <-. exists 1%nat. simpl.
      split; [lia|]. split; [reflexivity|]. discriminate. }
    destruct (slice_assign ll (i * b) _) as [x|ll1] eqn:Hl.
    { intros H. injection H as <- <-. exists 1%nat. simpl.
      split; [lia|]. split; [reflexivity|]. discriminate. }
    apply slice_assign_length in Hp. apply slice_assign_length in Hl.
    intros H. apply IH in H as (k & Hk & Hc & Hok).
    exists (S k). split; [lia|]. split.
    + rewrite Hc. simpl. now rewrite <- app_assoc.
    + intros pl' ll' E. destruct (Hok pl' ll' E) as (-> & ? & ?).
      repeat split; congruence.
Qed.

(** X7. Whatever happens, [_predict] makes nothing but [predict] calls,
    at most one per batch of the phase's loader; when it returns, it has
    made exactly one per batch and each returned array holds at most
    [len(loader) * batch_size] entries. *)
Theorem predict_call_and_size_bounds mgr phase e e' r :
  run_predict mgr phase e = (e', r) ->
  exists k,
    calls e' = calls e ++ replicate k CPredict /\
    (forall batches, dataloaders mgr phase = Some batches -> (k <= length batches)%nat) /\
    (forall preds labels, r = ok (preds, labels) ->
       exists batches b,
         dataloaders mgr phase = Some batches /\
         cfg mgr !! "batch_size" = Some b /\
         k = length batches /\
         match as_int b with
         | Some z =>
             (length preds <= length batches * Z.to_nat z)%nat /\
             (length labels <= length batches * Z.to_nat z)%nat
         | None => False
         end).
Proof.
  unfold _predict, getitem.
  assert (Hnone : forall x : exn,
            exists k, calls e = calls e ++ replicate k CPredict /\
              (forall batches, dataloaders mgr phase = Some batches ->
                 (k <= length batches)%nat) /\
              (forall preds labels, @inl exn (list V * list V) x = ok (preds, labels) ->
                 exists batches b,
                   dataloaders mgr phase = Some batches /\
                   cfg mgr !! "batch_size" = Some b /\ k = length batches /\
                   match as_int b with
                   | Some z =>
                       (length preds <= length batches * Z.to_nat z)%nat /\
                       (length labels <= length batches * Z.to_nat z)%nat
                   | None => False
                   end)).
  { intros x. exists 0%nat. rewrite app_nil_r. repeat split; try lia; discriminate. }
  destruct (cfg mgr !! "batch_size") as [bs|]; simpl;
    [|intros H; injection H as <- <-; apply Hnone].
  destruct (dataloaders mgr phase) as [batches|] eqn:Hd; simpl;
    [|intros H; injection H as <- <-; apply Hnone].
  destruct (cfg mgr !! "task_type") as [tt|]; simpl;
    [|intros H; injection H as <- <-; apply Hnone].
  destruct (as_int bs) as [z|] eqn:Hz;
    [|intros H; injection H as <- <-; apply Hnone].
  destruct (Z.ltb_spec (Z.of_nat (length batches) * z) 0) as [Hneg|Hpos];
    [intros H; injection H as <- <-; apply Hnone|].
  set (buf := replicate _ sentinel).
  destruct (predict_batches _ _ _ _ _ _ _ _ _) as [e1 r1] eqn:Hb.
  apply predict_batches_bound in Hb as (k & Hk & Hc & Hok).
  intros H. exists k.
  assert (e' = e1) as -> by (destruct r1 as [x|[? ?]]; now injection H as <- <-).
  split; [exact Hc|]. split.
  - intros batches' E. now injection E as <-.
  - intros preds labels ->. destruct r1 as [x|[pl ll]]; [discriminate|].
    injection H as <- <-. destruct (Hok pl ll eq_refl) as (-> & Hpl & Hll).
    exists batches, bs. rewrite Hz. repeat split; auto.
    + etransitivity; [apply length_filter|]. rewrite Hpl. subst buf.
      rewrite length_replicate. lia.
    + etransitivity; [apply length_filter|]. rewrite Hll. subst buf.
      rewrite length_replicate. lia.
Qed.

Lemma predict_same_loader mgr p q e :
  dataloaders mgr p = dataloaders mgr q ->
  is_Some (dataloaders mgr p) ->
  run_predict mgr p e = run_predict mgr q e.
Proof.
  intros Heq [batches Hp]. unfold _predict. simpl.
  rewrite <- Heq, Hp. reflexivity.
Qed.

(** X8. [infer] and [test] share one prediction path: when the infer
    loader delivers what the test loader delivers, [infer] returns
    exactly the prediction array that a completed [test] returns. *)
Theorem infer_returns_test_predictions mgr load_best ms e ms' e' preds labels :
  run_test mgr load_best ms e = ((ms', e'), ok (preds, labels)) ->
  dataloaders mgr infer = dataloaders mgr test ->
  exists e'', run_infer mgr load_best e = (e'', ok preds).
Proof.
  unfold test_, infer_. intros H Heq.
  destruct (if load_best then _ else _) as [e1 [x|[]]]; [discriminate|].
  destruct (run_predict mgr test e1) as [e2 [x|[pl ll]]] eqn:Hp; [discriminate|].
  assert (Hs : is_Some (dataloaders mgr test)).
  { unfold _predict in Hp. simpl in Hp.
    destruct (getitem (cfg mgr) "batch_size"); [discriminate|].
    destruct (dataloaders mgr test); [eauto|discriminate]. }
  rewrite (predict_same_loader mgr infer test e1 Heq) by (now rewrite Heq).
  rewrite Hp.
  destruct (test_metrics _ _ _ _ _ _ _ _ _ _) as [[ms1 e3] [x|[]]]; [discriminate|].
  destruct (getitem (cfg mgr) "task_type"); [discriminate|].
  injection H as <- <- <- <-. eauto.
Qed.

(** X9. On a task other than classify with a model type other than [rnn]
    and [cnn], the metric loop of [test] never computes a loss for the
    metric named [loss]: placed first it stops the loop with an unbound
    [loss_value] and no metric updated; placed after another metric it is
    updated with the placeholder 10000000 left over from that metric. *)
Theorem test_loss_metric_without_criterion mgr pred_list label_list m rest e
    task_type model_type :
  name m = "loss" ->
  cfg mgr !! "task_type" = Some task_type ->
  eq_str task_type "classify" = false ->
  cfg mgr !! "model_type" = Some model_type ->
  eq_str model_type "rnn" || eq_str model_type "cnn" = false ->
  test_loop mgr pred_list label_list (m :: rest) None e
    = ((m :: rest, e), raise (UnboundLocalError "loss_value")) /\
  forall m0 lv, name m0 <> "loss" ->
    exists rest' e' r,
      test_loop mgr pred_list label_list (m0 :: m :: rest) lv e
      = ((metric_update test (Literal 10000000) (inr pred_list) label_list m0
          :: metric_update test (Literal 10000000) (inr pred_list) label_list m
          :: rest', e'), r).
Proof.
  intros Hn Ht Hc Hm Hnn.
  assert (Hloss : String.eqb (name m) "loss" = true) by (now rewrite Hn).
  split.
  - simpl. unfold getitem. rewrite Hloss, Ht. simpl. rewrite Hc, Hm. simpl.
    now rewrite Hnn.
  - intros m0 lv Hn0. apply String.eqb_neq in Hn0.
    simpl. unfold getitem. rewrite Hn0, Hloss, Ht. simpl. rewrite Hc, Hm. simpl.
    rewrite Hnn.
    destruct (test_metrics _ _ _ _ _ _ _ rest _ _) as [[rest' e2] r2].
    eauto.
Qed.

End ManagerMore.

(** ** model_manager.py: construction of the manager *)

Section ManagerInitProps.

Import ModelManager ManagerInit.

Variable Model : Type.
Variable nn_model : list atom -> gmap string pyval -> Res Model.
Variable ml_model : list atom -> gmap string pyval -> Res Model.
Variable supported_nn_models : list string.
Variable seed_generator : Generator -> pyval -> Res unit.

Lemma insert_sizing_frame (c : gmap string pyval) k k' v :
  In k' sizing_keys -> ~ In k sizing_keys -> <[k' := v]> c !! k = c !! k.
Proof. intros Hin Hk. apply lookup_insert_ne. intros <-. exact (Hk Hin). Qed.

Lemma init_model_frame class_labels train_sizes cfg k :
  ~ In k sizing_keys ->
  fst (_init_model nn_model ml_model class_labels train_sizes cfg) !! k = cfg !! k.
Proof.
  intros Hk. unfold _init_model. destruct train_sizes as [sz|]; [|reflexivity].
  destruct (getitem _ "model_type") as [x|mt]; cbn [fst].
  { apply insert_sizing_frame; simpl; auto. }
  destruct (in_names mt ["rnn"; "cnn"; "cnn_rnn"]);
    [destruct (in_names mt ["rnn"; "cnn_rnn"])
    |destruct (in_names mt ["xgboost"; "catboost"; "sgdc"; "knn"])];
    cbn [fst]; rewrite !insert_sizing_frame; simpl; auto 10.
Qed.

(** X10. A manager that [__init__] returns has a configuration that
    differs from the given one only in the sizing entries copied from the
    train loader (with [input_size] always among them), has a string
    [model_path], has all four random generators seeded with the [seed]
    entry of the given configuration, runs on the GPU exactly when [cuda] is set and the model type
    is a supported network, and has no backend at all ([None]) exactly
    when the model type is none of the seven known names. *)
Theorem manager_init_postcondition class_labels cfg train_sizes
    (b : Built Model) :
  __init__ nn_model ml_model supported_nn_models seed_generator
    class_labels cfg train_sizes = ok b ->
  (forall k, ~ In k sizing_keys -> built_cfg b !! k = cfg !! k) /\
  (exists sz, train_sizes = Some sz /\
              built_cfg b !! "input_size" = Some (get_input_size sz)) /\
  cfg !! "model_path" = Some (PStr (built_model_dir_of b)) /\
  (cfg !! "seed" = Some (torch_seed (built_seeds b)) /\
   cuda_seed (built_seeds b) = torch_seed (built_seeds b) /\
   numpy_seed (built_seeds b) = torch_seed (built_seeds b) /\
   random_seed (built_seeds b) = torch_seed (built_seeds b)) /\
  (exists cuda model_type,
     cfg !! "cuda" = Some cuda /\ cfg !! "model_type" = Some model_type /\
     (built_device b = Cuda <->
      truthy cuda = true /\ in_names model_type supported_nn_models = true) /\
     (built_model b = None <->
      in_names model_type ["rnn"; "cnn"; "cnn_rnn"] = false /\
      in_names model_type ["xgboost"; "catboost"; "sgdc"; "knn"] = false)).
Proof.
  unfold __init__. intros H.
  destruct (_init_device supported_nn_models cfg) as [x|dev] eqn:Hdev; [discriminate|].
  simpl in H.
  pose proof (init_model_frame class_labels train_sizes cfg) as Hframe.
  destruct (_init_model nn_model ml_model class_labels train_sizes cfg)
    as [cfg' r] eqn:Hm. simpl in Hframe.
  destruct r as [x|model]; [discriminate|]. simpl in H.
  destruct (_init_seed seed_generator cfg') as [x|seeds] eqn:Hs; [discriminate|]. simpl in H.
  destruct (_init_logger_args cfg') as [x|logger]; [discriminate|]. simpl in H.
  unfold getitem in H.
  destruct (cfg' !! "model_path") as [[[| | | |path]|]|] eqn:Hp; try discriminate.
  simpl in H. injection H as <-.
  cbn [built_cfg built_device built_gpu built_model built_seeds built_model_dir_of fst snd].
  split; [exact Hframe|].
  split.
  { unfold _init_model in Hm. destruct train_sizes as [sz|]; [|discriminate].
    exists sz. split; [reflexivity|].
    assert (H1 : (<["input_size" := get_input_size sz]> cfg : gmap string pyval)
                   !! "input_size" = Some (get_input_size sz))
      by apply lookup_insert_eq.
    destruct (getitem _ "model_type") as [x|mt]; [discriminate|].
    destruct (in_names mt ["rnn"; "cnn"; "cnn_rnn"]).
    - destruct (in_names mt ["rnn"; "cnn_rnn"]); injection Hm as <- _;
        rewrite !lookup_insert_ne by discriminate; exact H1.
    - destruct (in_names mt _); injection Hm as <- _; exact H1. }
  split.
  { rewrite <- Hframe; [exact Hp|]. simpl. intros [E|[E|[E|[E|[E|[]]]]]]; discriminate. }
  split.
  { unfold _init_seed, getitem in Hs.
    destruct (cfg' !! "seed") as [sd|] eqn:Hsd; [|discriminate]. cbn [rbind ok] in Hs.
    do 4 (match type of Hs with
          | context [seed_generator ?g sd] => destruct (seed_generator g sd) as [x|[]]
          end; [discriminate|]; cbn [rbind ok] in Hs).
    injection Hs as <-. cbn [torch_seed cuda_seed numpy_seed random_seed].
    rewrite <- Hframe; [auto|]. simpl. intros [E|[E|[E|[E|[E|[]]]]]]; discriminate. }
  unfold _init_device, getitem in Hdev.
  destruct (cfg !! "cuda") as [cuda|] eqn:Hc; [|discriminate]. simpl in Hdev.
  unfold _init_model in Hm. destruct train_sizes as [sz|]; [|discriminate].
  unfold getitem in Hm. rewrite lookup_insert_ne in Hm by discriminate.
  destruct (cfg !! "model_type") as [mt|] eqn:Hmt; [|discriminate].
  exists cuda, mt. split; [reflexivity|]. split; [reflexivity|]. split.
  - destruct (truthy cuda); simpl in Hdev.
    + destruct (in_names mt supported_nn_models).
      * destruct (cfg !! "gpu_id"); [|discriminate]. injection Hdev as <-. simpl. tauto.
      * injection Hdev as <-. simpl. split; [discriminate|intros [_ ?]; discriminate].
    + injection Hdev as <-. simpl. split; [discriminate|intros [? _]; discriminate].
  - unfold ok in Hm. cbv beta iota zeta in Hm.
    destruct (in_names mt ["rnn"; "cnn"; "cnn_rnn"]).
    + injection Hm as _ Hr.
      revert Hr. match goal with |- rmap Some ?t = _ -> _ => destruct t end;
        simpl; intros Hr; [discriminate|].
      injection Hr as <-. split; [discriminate|intros [? _]; discriminate].
    + destruct (in_names mt ["xgboost"; "catboost"; "sgdc"; "knn"]).
      * injection Hm as _ Hr.
        revert Hr. match goal with |- rmap Some ?t = _ -> _ => destruct t end;
          simpl; intros Hr; [discriminate|].
        injection Hr as <-. split; [discriminate|intros [_ ?]; discriminate].
      * injection Hm as _ Hr. assert (model = None) as -> by congruence.
        split; auto.
Qed.

End ManagerInitProps.

(** ** ml_train_manager.py: what a call does and does not touch *)

Section MLTrainMore.

Import ModelManager ManagerInit MLTrain MLTrainSpec.

Variables MM W Array LossT Score : Type.
Variable mm_fit : Array -> Array -> option (Array * Array) -> MM -> Res (MM * LossT).
Variable mm_predict : Array -> MM -> Res Array.
Variable mm_save_model : MM -> W -> W * Res unit.
Variable vstack : list Array -> Res Array.
Variable hstack : list Array -> Res Array.
Variable metric_update : LossT -> Array -> Array -> Metric Score -> Metric Score.
Variable fmt4 : Score -> string.
Variable str_dataloaders : string.

Implicit Types (mgr : Manager Array) (e : Env MM W Score).

Local Abbreviation run_train :=
  (train_ mm_fit mm_predict mm_save_model vstack hstack metric_update fmt4 str_dataloaders).

(** With [only_validate] the call ends in an error. *)
Lemma only_validate_fails mgr model_manager_arg (with_validate : bool) e :
  is_ok (snd (run_train mgr model_manager_arg with_validate true e)) = false.
Proof.
  unfold train_, phases_of.
  destruct (rbind _ _) as [x|[inputs labels]]; [reflexivity|].
  unfold fit_and_predict. cbn [mem_phase existsb phase_eqb orb update_phases].
  unfold update_phase.
  destruct (metrics mgr val) as [[|r0 refs]|] eqn:Hm;
    cbn [message]; rewrite ?Hm; simpl; auto.
  now destruct (mm_save_model _ _) as [w [x|[]]].
Qed.

(** X11. A call with [only_validate=True] never returns: [loss] and
    [predicts] are never bound, so it ends in an error whatever the
    collaborators do. It makes no [fit] or [predict] call and changes no
    metric; the only backend call it can make is one [save_model]. *)
Theorem only_validate_never_returns mgr model_manager_arg (with_validate : bool) e :
  let out := run_train mgr model_manager_arg with_validate true e in
  is_ok (snd out) = false /\
  store (fst out) = store e /\
  (calls (fst out) = calls e \/ calls (fst out) = calls e ++ [CSave]).
Proof.
  unfold train_, phases_of. cbv zeta.
  set (e0 := match model_manager_arg with Some m => _ | None => e end).
  assert (He0 : store e0 = store e /\ calls e0 = calls e)
    by (subst e0; now destruct model_manager_arg).
  destruct He0 as [Hs0 Hc0]. clearbody e0.
  destruct (rbind _ _) as [x|[inputs labels]]; [simpl; auto|].
  unfold fit_and_predict. cbn [mem_phase existsb phase_eqb orb update_phases].
  unfold update_phase.
  destruct (metrics mgr val) as [[|r0 refs]|] eqn:Hm;
    cbn [message]; rewrite ?Hm; simpl; auto.
  destruct (mm_save_model _ _) as [w [x|[]]]; simpl; rewrite Hc0; auto.
Qed.

(** References a call leaves alone: those listed for none of its phases. *)
Local Abbreviation unlisted mgr phases ref :=
  (forall phase refs, In phase phases -> metrics mgr phase = Some refs -> ~ In ref refs).

Lemma fold_update_frame loss preds labels refs : forall e ref,
  ~ In ref refs ->
  store (fold_left (fun acc r => update_metric metric_update loss preds labels r acc) refs e)
    !! ref = store e !! ref.
Proof.
  induction refs as [|r refs IH]; intros e ref Hn; simpl; [reflexivity|].
  rewrite IH by (intros Hin; apply Hn; simpl; auto).
  unfold update_metric. simpl. apply lookup_alter_ne. intros ->. apply Hn. simpl. auto.
Qed.

Lemma fold_update_dom loss preds labels refs : forall e,
  dom (store (fold_left (fun acc r => update_metric metric_update loss preds labels r acc)
                refs e)) = dom (store e).
Proof.
  induction refs as [|r refs IH]; intros e; simpl; [reflexivity|].
  rewrite IH. unfold update_metric. simpl. apply dom_alter_L.
Qed.

Lemma update_phase_frame mgr loss predicts labels phase e e' r :
  update_phase metric_update mgr loss predicts labels phase e = (e', r) ->
  dom (store e') = dom (store e) /\
  forall ref, (forall refs, metrics mgr phase = Some refs -> ~ In ref refs) ->
              store e' !! ref = store e !! ref.
Proof.
  unfold update_phase.
  destruct (metrics mgr phase) as [[|r0 refs]|];
    try (intros H; injection H as <- <-; auto).
  destruct loss as [l|]; [|intros H; injection H as <- <-; auto].
  destruct predicts as [ps|]; [|intros H; injection H as <- <-; auto].
  destruct (pdict_get ps phase) as [x|p]; [intros H; injection H as <- <-; auto|].
  destruct (pdict_get labels phase) as [x|y]; [intros H; injection H as <- <-; auto|].
  intros H. injection H as <- <-. split.
  - exact (fold_update_dom l p y (r0 :: refs) e).
  - intros ref Hn. apply (fold_update_frame l p y (r0 :: refs)). now apply Hn.
Qed.

Lemma update_phases_frame mgr loss predicts labels phases : forall e e' r,
  update_phases metric_update mgr loss predicts labels phases e = (e', r) ->
  dom (store e') = dom (store e) /\
  forall ref, unlisted mgr phases ref -> store e' !! ref = store e !! ref.
Proof.
  induction phases as [|phase phases IH]; intros e e' r; simpl.
  - intros H. injection H as <- <-. auto.
  - destruct (update_phase _ _ _ _ _ _ e) as [e1 r1] eqn:H1.
    apply update_phase_frame in H1 as [Hd1 Hf1].
    assert (Hhead : forall ref, unlisted mgr (phase :: phases) ref ->
                                store e1 !! ref = store e !! ref).
    { intros ref Hu. apply Hf1. intros refs Hm. apply (Hu phase); simpl; auto. }
    destruct r1 as [x|[]].
    + intros H. injection H as <- <-. auto.
    + intros H. apply IH in H as [Hd Hf]. split; [congruence|].
      intros ref Hu. rewrite Hf, Hhead; auto.
      intros ph refs Hin. apply Hu. simpl. auto.
Qed.

(** X12. Whether it completes or fails, [train] neither adds nor removes
    a metric object, and it leaves every metric that is listed for none
    of the phases it runs exactly as it was. *)
Theorem train_leaves_unlisted_metrics mgr model_manager_arg
    (with_validate only_validate : bool) e :
  let out := run_train mgr model_manager_arg with_validate only_validate e in
  dom (store (fst out)) = dom (store e) /\
  forall ref,
    (forall phase refs, In phase (phases_of with_validate only_validate) ->
       metrics mgr phase = Some refs -> ~ In ref refs) ->
    store (fst out) !! ref = store e !! ref.
Proof.
  unfold train_. cbv zeta.
  set (e0 := match model_manager_arg with Some m => _ | None => e end).
  assert (Hs0 : store e0 = store e) by (subst e0; now destruct model_manager_arg).
  clearbody e0. rewrite <- Hs0.
  destruct (rbind _ _) as [x|[inputs labels]]; [simpl; auto|].
  destruct (fit_and_predict _ _ _ _ _ _ e0) as [e1 r1] eqn:Hfit.
  apply fit_and_predict_calls in Hfit as [Hs1 _]. rewrite <- Hs1.
  destruct r1 as [x|[loss predicts]]; [simpl; auto|].
  destruct (update_phases _ _ _ _ _ _ e1) as [e2 r2] eqn:Hupd.
  apply update_phases_frame in Hupd as [Hd Hf].
  destruct r2 as [x|[]]; [simpl; auto|].
  destruct (message _ _ _ e2) as [x|msg]; [simpl; auto|].
  destruct (mm_save_model _ _) as [w [x|[]]]; [simpl; auto|].
  destruct predicts as [ps|]; [|simpl; auto].
  destruct (last (map snd ps)); simpl; auto.
Qed.

Lemma update_phase_env mgr loss predicts labels phase e e' r :
  update_phase metric_update mgr loss predicts labels phase e = (e', r) ->
  calls e' = calls e /\ model_manager e' = model_manager e.
Proof.
  unfold update_phase.
  destruct (metrics mgr phase) as [[|r0 refs]|];
    try (intros H; injection H as <- <-; auto).
  destruct loss as [l|]; [|intros H; injection H as <- <-; auto].
  destruct predicts as [ps|]; [|intros H; injection H as <- <-; auto].
  destruct (pdict_get ps phase) as [x|p]; [intros H; injection H as <- <-; auto|].
  destruct (pdict_get labels phase) as [x|y]; [intros H; injection H as <- <-; auto|].
  intros H. injection H as <- <-.
  exact (fold_update_calls _ _ _ _ _ metric_update l p y (r0 :: refs) e).
Qed.

(** Take apart, one scrutinee at a time, the matches that a hypothesis
    about a run is made of. *)
Local Ltac break_run :=
  repeat (unfold rbind in *;
          match goal with
          | Hx : context [match ?x with _ => _ end] |- _ =>
              lazymatch x with
              | context [match _ with _ => _ end] => fail
              | _ => destruct x eqn:?
              end
          end;
          try match goal with Hd : _ |- _ => discriminate Hd end;
          repeat match goal with
                 | Hi : inr _ = inr _ |- _ => injection Hi as ?; subst
                 | Hi : (_, _) = (_, _) |- _ => injection Hi as ? ?; subst
                 end;
          cbn [rbind ok stack_phases pdict_set pdict_get find phase_eqb fst snd
               predict_phases map last] in * ).

(** X13. A call that returns was made without [only_validate], and its
    backend calls were exactly: one [fit], then one [predict] per phase,
    then one [save_model]. What it returns is the backend's prediction
    for the stacked inputs of the last phase: the val split when
    validating, the train split otherwise. *)
Theorem completed_train_call_record mgr model_manager_arg
    (with_validate only_validate : bool) e e' result :
  run_train mgr model_manager_arg with_validate only_validate e = (e', ok result) ->
  only_validate = false /\
  calls e' = calls e ++ [CFit train]
               ++ replicate (length (phases_of with_validate false)) CPredict ++ [CSave] /\
  exists batches xs,
    dataloaders mgr (if with_validate then val else train) = Some batches /\
    vstack (map fst batches) = ok xs /\
    mm_predict xs (model_manager e') = ok result.
Proof.
  intros H. destruct only_validate.
  { pose proof (only_validate_fails mgr model_manager_arg with_validate e) as Hn.
    rewrite H in Hn. discriminate. }
  split; [reflexivity|]. revert H. unfold train_.
  set (e0 := match model_manager_arg with Some m => _ | None => e end).
  assert (Hc0 : calls e0 = calls e) by (subst e0; now destruct model_manager_arg).
  clearbody e0. rewrite <- Hc0. clear Hc0.
  unfold phases_of, fit_and_predict, getitem, update_phases, rbind.
  destruct with_validate; intros H;
    cbn [check_keys_from_dict stack_phases mem_phase existsb phase_eqb orb andb] in H;
    break_run;
    repeat match goal with
           | Hu : update_phase _ _ _ _ _ _ _ = _ |- _ =>
               apply update_phase_env in Hu as [? ?]
           end;
    simpl in *;
    (split; [repeat match goal with Hc : calls _ = _ |- _ => rewrite Hc; clear Hc end;
             now rewrite <- ?app_assoc|]);
    do 2 eexists; (split; [reflexivity|]); (split; [eassumption|]); congruence.
Qed.

(** What one turn of the metric loop does to a metric object. *)
Local Abbreviation turn loss preds labels :=
  (fun m : Metric Score => best_to_average (metric_update loss preds labels m)).

Lemma fold_update_store loss preds labels refs : forall e ref,
  store (fold_left (fun acc r => update_metric metric_update loss preds labels r acc) refs e)
    !! ref
  = Nat.iter (count_occ Nat.eq_dec refs ref) (turn loss preds labels) <$> store e !! ref.
Proof.
  induction refs as [|r refs IH]; intros e ref; simpl.
  - now destruct (store e !! ref).
  - rewrite IH. unfold update_metric. simpl.
    destruct (Nat.eq_dec r ref) as [->|Hne].
    + rewrite lookup_alter_eq. destruct (store e !! ref) as [m|]; [|reflexivity].
      cbn [fmap option_fmap option_map]. f_equal.
      rewrite Nat.iter_succ_r. reflexivity.
    + now rewrite lookup_alter_ne by congruence.
Qed.

Lemma update_phase_store mgr l ps labels phase e e' p y :
  update_phase metric_update mgr (Some l) (Some ps) labels phase e = (e', ok tt) ->
  pdict_get ps phase = ok p ->
  pdict_get labels phase = ok y ->
  forall ref,
    store e' !! ref
    = Nat.iter (listed_times mgr phase ref) (turn l p y) <$> store e !! ref.
Proof.
  unfold update_phase, listed_times. intros H Hp Hy ref. rewrite Hp, Hy in H.
  destruct (metrics mgr phase) as [[|r0 refs]|]; [| |discriminate].
  - injection H as <-. simpl. now destruct (store e !! ref).
  - injection H as <-. exact (fold_update_store l p y (r0 :: refs) e ref).
Qed.

Lemma fold_update_world loss preds labels refs : forall e,
  world (fold_left (fun acc r => update_metric metric_update loss preds labels r acc) refs e)
  = world e.
Proof.
  induction refs as [|r refs IH]; intros e; simpl; [reflexivity|]. now rewrite IH.
Qed.

Lemma update_phase_world mgr loss predicts labels phase e e' r :
  update_phase metric_update mgr loss predicts labels phase e = (e', r) ->
  world e' = world e.
Proof.
  unfold update_phase.
  destruct (metrics mgr phase) as [[|r0 refs]|];
    try (intros H; injection H as <- <-; auto).
  destruct loss as [l|]; [|intros H; injection H as <- <-; auto].
  destruct predicts as [ps|]; [|intros H; injection H as <- <-; auto].
  destruct (pdict_get ps phase) as [x|p]; [intros H; injection H as <- <-; auto|].
  destruct (pdict_get labels phase) as [x|y]; [intros H; injection H as <- <-; auto|].
  intros H. injection H as <- <-.
  exact (fold_update_world l p y (r0 :: refs) e).
Qed.

(** X22. What a [train] call that returns has done. The model was
    fitted once on the stacked train split, each phase's predictions come
    from the fitted model and its labels from the phase's loader, and
    every metric object has gone, phase by phase and once per listing,
    through [update] followed by the overwrite of its [best_score] with
    its average, whatever it held and whatever its direction; so each
    listed metric ends with [best_score] equal to its average. The one
    [save_model] call wrote the fitted model into the files as they were
    before the call. *)
Theorem completed_train_sets_best_to_average mgr model_manager_arg
    (with_validate only_validate : bool) e e' result :
  run_train mgr model_manager_arg with_validate only_validate e = (e', ok result) ->
  exists (loss : LossT) (preds labels : Phase -> Array),
    (exists batches x y held,
       dataloaders mgr train = Some batches /\
       vstack (map fst batches) = ok x /\ hstack (map snd batches) = ok y /\
       mm_fit x y held
         (match model_manager_arg with Some m => m | None => model_manager e end)
       = ok (model_manager e', loss)) /\
    (forall phase, In phase (phases_of with_validate only_validate) ->
       exists batches xs,
         dataloaders mgr phase = Some batches /\
         vstack (map fst batches) = ok xs /\
         mm_predict xs (model_manager e') = ok (preds phase) /\
         hstack (map snd batches) = ok (labels phase)) /\
    (forall ref,
       store e' !! ref
       = fold_left
           (fun m phase =>
              Nat.iter (listed_times mgr phase ref)
                (fun m => best_to_average
                            (metric_update loss (preds phase) (labels phase) m)) m)
           (phases_of with_validate only_validate)
         <$> store e !! ref) /\
    (forall phase refs ref m,
       In phase (phases_of with_validate only_validate) ->
       metrics mgr phase = Some refs -> In ref refs ->
       store e' !! ref = Some m ->
       best_score (average_meter m) = average (average_meter m)) /\
    mm_save_model (model_manager e') (world e) = (world e', ok tt).
Proof.
  intros H.
  destruct (train_settles_best_and_saves _ _ _ _ _ mm_fit mm_predict mm_save_model
              vstack hstack metric_update fmt4 str_dataloaders
              mgr model_manager_arg with_validate only_validate e e' result H)
    as [Hsettled _].
  destruct only_validate.
  { pose proof (only_validate_fails mgr model_manager_arg with_validate e) as Hn.
    rewrite H in Hn. discriminate. }
  revert H Hsettled. unfold train_.
  set (mm0 := match model_manager_arg with Some m => m | None => model_manager e end).
  set (e0 := match model_manager_arg with Some m => _ | None => e end).
  assert (He0 : store e0 = store e /\ world e0 = world e /\ model_manager e0 = mm0)
    by (subst e0 mm0; now destruct model_manager_arg).
  destruct He0 as (Hs0 & Hw0 & Hm0). clearbody e0 mm0.
  unfold phases_of, fit_and_predict, getitem, update_phases, rbind.
  destruct with_validate; intros H Hsettled;
    cbn [check_keys_from_dict stack_phases mem_phase existsb phase_eqb orb andb] in H;
    break_run;
    repeat match goal with u : unit |- _ => destruct u end;
    repeat match goal with
           | Hu : update_phase _ _ (Some ?l) (Some ?ps) ?lb ?ph ?e1 = (?e2, inr tt) |- _ =>
               destruct (update_phase_env mgr (Some l) (Some ps) lb ph e1 e2 _ Hu) as [_ ?];
               pose proof (update_phase_world mgr (Some l) (Some ps) lb ph e1 e2 _ Hu);
               pose proof (fun p y => update_phase_store mgr l ps lb ph e1 e2 p y Hu);
               clear Hu
           end;
    cbn [model_manager store world log_call set_model_manager set_world logger_info pdict_get
         find phase_eqb fst snd] in *.
  1, 2:
    match goal with
    | Hfit : mm_fit _ _ _ _ = inr (?m, ?loss),
      Hv : (forall p y, ok ?pv = ok p -> ok ?yv = ok y ->
            forall ref, store ?e2 !! ref = _ <$> store ?e1 !! ref),
      Ht : (forall p y, ok ?pt = ok p -> ok ?yt = ok y ->
            forall ref, store ?e1 !! ref = _ <$> store ?e0 !! ref),
      Hm2 : model_manager ?e2 = model_manager ?e1,
      Hm1 : model_manager ?e1 = ?m,
      Hw2 : world ?e2 = world ?e1,
      Hw1 : world ?e1 = world ?e0,
      Hsave : mm_save_model _ _ = _ |- _ =>
        exists loss, (fun ph => match ph with train => pt | _ => pv end),
               (fun ph => match ph with train => yt | _ => yv end);
        rewrite Hw2, Hw1, Hw0 in Hsave;
        rewrite Hm2, Hm1 in *;
        split; [do 4 eexists; repeat split; first [reflexivity|eassumption]|];
        split; [intros phase [<-|[<-|[]]]; do 2 eexists;
                repeat split; first [reflexivity|eassumption]|];
        split; [|split; [exact Hsettled|exact Hsave]];
        intros ref; rewrite (Hv _ _ eq_refl eq_refl ref), (Ht _ _ eq_refl eq_refl ref), Hs0;
        now destruct (store e !! ref)
    end.
  match goal with
  | Hfit : mm_fit _ _ _ _ = inr (?m, ?loss),
    Ht : (forall p y, ok ?pt = ok p -> ok ?yt = ok y ->
          forall ref, store ?e1 !! ref = _ <$> store ?e0 !! ref),
    Hm1 : model_manager ?e1 = ?m,
    Hw1 : world ?e1 = world ?e0,
    Hsave : mm_save_model _ _ = _ |- _ =>
      exists loss, (fun _ => pt), (fun _ => yt);
      rewrite Hw1, Hw0 in Hsave;
      rewrite Hm1 in *;
      split; [do 4 eexists; repeat split; first [reflexivity|eassumption]|];
      split; [intros phase [<-|[]]; do 2 eexists;
              repeat split; first [reflexivity|eassumption]|];
      split; [|split; [exact Hsettled|exact Hsave]];
      intros ref; rewrite (Ht _ _ eq_refl eq_refl ref), Hs0;
      now destruct (store e !! ref)
  end.
Qed.

End MLTrainMore.

(** ** decision_trees.py: the parameters a LightGBM wrapper is built with *)

Section DecisionTreesInitProps.

Import DecisionTrees DecisionTreesInit.

Variable Estimator : Type.
Variable LGBMClassifier : gmap string pyval -> Res Estimator.
Variable LGBMRegressor : gmap string pyval -> Res Estimator.
Variable base_init : list atom -> gmap string pyval -> Res unit.

Lemma copy_entries_spec cfg sources : forall acc m,
  copy_entries cfg sources acc = ok m ->
  List.NoDup (map fst sources) ->
  (forall p k, In (p, k) sources -> exists v, cfg !! k = Some v /\ m !! p = Some v) /\
  (forall p, ~ In p (map fst sources) -> m !! p = acc !! p).
Proof.
  induction sources as [|[p0 k0] rest IH]; intros acc m; simpl.
  - intros H _. injection H as <-. split; [intros ? ? []|auto].
  - unfold getitem. destruct (cfg !! k0) as [v0|] eqn:Hk; [|discriminate]. simpl.
    intros H Hnd. inversion Hnd as [|? ? Hnotin Hnd']; subst.
    destruct (IH _ _ H Hnd') as [Hin Hout]. split.
    + intros p k [E|Hi].
      * injection E as <- <-. exists v0. split; [exact Hk|].
        rewrite (Hout p0 Hnotin). apply lookup_insert_eq.
      * now apply Hin.
    + intros p Hp. rewrite Hout by tauto.
      apply lookup_insert_ne. intros <-. apply Hp. now left.
Qed.

Lemma copy_entries_missing cfg sources : forall acc,
  match List.find (fun pk => match cfg !! snd pk with None => true | Some _ => false end)
          sources with
  | Some pk => copy_entries cfg sources acc = raise (KeyError (snd pk))
  | None => exists m, copy_entries cfg sources acc = ok m
  end.
Proof.
  induction sources as [|[p0 k0] rest IH]; intros acc; simpl; [eauto|].
  unfold getitem. destruct (cfg !! k0); simpl; [apply IH|reflexivity].
Qed.

Lemma lgbm_param_names_distinct : List.NoDup (map fst lgbm_param_sources).
Proof.
  unfold lgbm_param_sources. simpl.
  repeat (constructor; [simpl; intuition discriminate|]). constructor.
Qed.

(** X14. A LightGBM wrapper that [__init__] returns carries, under each
    library parameter name, the value of the configuration key it is
    read from, with [class_weight] fixed to balanced. For a classify
    task with exactly two class names the objective is binary with
    binary log-loss; with any other number of class names the metric is
    multi-class log-loss with [num_class] set and no objective entry;
    otherwise the objective is regression with RMSE. *)
Theorem LightGBM_init_params (class_labels : list atom) (cfg : gmap string pyval)
    (self : LightGBM Estimator) :
  LightGBM_init LGBMClassifier LGBMRegressor base_init class_labels cfg = ok self ->
  (exists task_type,
     cfg !! "task_type" = Some task_type /\
     classify self = eq_str task_type "classify") /\
  Forall (fun pk => exists v, cfg !! snd pk = Some v /\ params self !! fst pk = Some v)
         lgbm_param_sources /\
  params self !! "class_weight" = Some (PStr "balanced") /\
  (if classify self then
     exists class_names n,
       cfg !! "class_names" = Some class_names /\ len class_names = ok n /\
       if Nat.eqb n 2 then
         params self !! "objective" = Some (PStr "binary") /\
         params self !! "metric" = Some (PStr "binary_logloss") /\
         params self !! "num_class" = None
       else
         params self !! "objective" = None /\
         params self !! "metric" = Some (PStr "multi_logloss") /\
         params self !! "num_class" = Some (PAtom (AInt (Z.of_nat n)))
   else
     params self !! "objective" = Some (PStr "regression") /\
     params self !! "metric" = Some (PStr "rmse") /\
     params self !! "num_class" = None).
Proof.
  unfold LightGBM_init, getitem. intros H.
  destruct (cfg !! "task_type") as [task_type|]; [|discriminate].
  cbn [rbind ok] in H.
  destruct (copy_entries cfg lgbm_param_sources _) as [x|params0] eqn:Hcopy;
    [discriminate|].
  cbn [rbind ok] in H.
  destruct (copy_entries_spec _ _ _ _ Hcopy lgbm_param_names_distinct) as [Hin Hout].
  assert (Hfresh : forall p, ~ In p (map fst lgbm_param_sources) ->
                     p <> "class_weight" -> p <> "missing" -> params0 !! p = None).
  { intros p Hp H1 H2. rewrite (Hout p Hp).
    rewrite !lookup_insert_ne by congruence. apply lookup_empty. }
  assert (Hcw : params0 !! "class_weight" = Some (PStr "balanced")).
  { rewrite Hout by (simpl; intuition discriminate).
    rewrite lookup_insert_ne by discriminate. apply lookup_insert_eq. }
  assert (Hsrc : forall extra : gmap string pyval,
            (forall p, In p (map fst lgbm_param_sources) -> extra !! p = params0 !! p) ->
            Forall (fun pk => exists v, cfg !! snd pk = Some v /\ extra !! fst pk = Some v)
                   lgbm_param_sources).
  { intros extra Hex. apply Forall_forall. intros [p k] Hpk.
    apply list_elem_of_In in Hpk.
    destruct (Hin p k Hpk) as (v & Hk & Hp). exists v. split; [exact Hk|].
    simpl. rewrite Hex; [exact Hp|]. apply (in_map fst _ _ Hpk). }
  destruct (eq_str task_type "classify") eqn:Hcl.
  - destruct (cfg !! "class_names") as [cn|] eqn:Hcn; [|discriminate]. simpl in H.
    destruct (len cn) as [x|n] eqn:Hn; [discriminate|]. simpl in H.
    destruct (Nat.eqb n 2) eqn:H2; simpl in H.
    + destruct (LGBMClassifier _) as [x|model]; [discriminate|]. simpl in H.
      destruct (base_init _ _) as [x|[]]; [discriminate|]. simpl in H.
      injection H as <-. simpl. split; [eauto|]. split.
      { apply Hsrc. intros p Hp. rewrite !lookup_insert_ne; [reflexivity| |];
          intros <-; revert Hp; simpl; intuition discriminate. }
      split; [now rewrite !lookup_insert_ne by discriminate|].
      exists cn, n. rewrite H2. repeat split; auto.
      * apply lookup_insert_eq.
      * rewrite lookup_insert_ne by discriminate. apply lookup_insert_eq.
      * rewrite !lookup_insert_ne by discriminate.
        apply Hfresh; try discriminate. simpl; intuition discriminate.
    + rewrite ?Hcn, ?Hn in H. simpl in H.
      destruct (LGBMClassifier _) as [x|model]; [discriminate|]. simpl in H.
      destruct (base_init _ _) as [x|[]]; [discriminate|]. simpl in H.
      injection H as <-. simpl. split; [eauto|]. split.
      { apply Hsrc. intros p Hp. rewrite !lookup_insert_ne; [reflexivity| |];
          intros <-; revert Hp; simpl; intuition discriminate. }
      split; [now rewrite !lookup_insert_ne by discriminate|].
      exists cn, n. rewrite H2. repeat split; auto.
      * rewrite !lookup_insert_ne by discriminate.
        apply Hfresh; try discriminate. simpl; intuition discriminate.
      * apply lookup_insert_eq.
      * rewrite lookup_insert_ne by discriminate. apply lookup_insert_eq.
  - destruct (cfg !! "n_estimators") as [ne|]; [|discriminate]. simpl in H.
    destruct (LGBMRegressor _) as [x|model]; [discriminate|]. simpl in H.
    destruct (base_init _ _) as [x|[]]; [discriminate|]. simpl in H.
    injection H as <-. simpl. split; [eauto|]. split.
    { apply Hsrc. intros p Hp. rewrite !lookup_insert_ne; [reflexivity| |];
        intros <-; revert Hp; simpl; intuition discriminate. }
    split; [now rewrite !lookup_insert_ne by discriminate|].
    repeat split.
    * rewrite lookup_insert_ne by discriminate. apply lookup_insert_eq.
    * apply lookup_insert_eq.
    * rewrite !lookup_insert_ne by discriminate.
      apply Hfresh; try discriminate. simpl; intuition discriminate.
Qed.

(** X15. When the configuration has a task type but lacks one of the keys
    the parameter dict is read from, [LightGBM.__init__] raises the
    [KeyError] of the first such key in the order the dict is written,
    before any estimator is built. *)
Theorem LightGBM_init_missing_key (class_labels : list atom) (cfg : gmap string pyval)
    (task_type : pyval) (pk : string * string) :
  cfg !! "task_type" = Some task_type ->
  List.find (fun pk => match cfg !! snd pk with None => true | Some _ => false end)
    lgbm_param_sources = Some pk ->
  LightGBM_init LGBMClassifier LGBMRegressor base_init class_labels cfg
  = raise (KeyError (snd pk)).
Proof.
  intros Ht Hf. unfold LightGBM_init, getitem. rewrite Ht. cbn [rbind ok].
  pose proof (copy_entries_missing cfg lgbm_param_sources
                (<["missing" := PAtom ANone]> (<["class_weight" := PStr "balanced"]> ∅)))
    as Hm.
  rewrite Hf in Hm. now rewrite Hm.
Qed.

End DecisionTreesInitProps.

(** ** rnn.py: what is built and what is stored *)

Section RnnProps.

Import Rnn ModelManager.

Variables Cell BatchNorm Linear Conv Opaque : Type.
Variable new_cell : RnnClass -> pyval -> pyval -> pyval -> Out Cell.
Variable BatchNorm1d : pyval -> Out BatchNorm.
Variable new_linear : pyval -> pyval -> Out Linear.
Variable py_mul : pyval -> pyval -> Out pyval.
Variable py_repr : atom -> string.
Variable empty_dict : Opaque.
Variable object_truthy : Opaque -> bool.
Variable object_key_error : Opaque -> err.
Variable load_state_dict :
  value Opaque -> DeepSpeech Cell BatchNorm Linear Conv Opaque ->
  Out (DeepSpeech Cell BatchNorm Linear Conv Opaque).
Variable torch_load : string -> Out (gmap string (value Opaque)).
Variable flatten_parameters :
  DeepSpeech Cell BatchNorm Linear Conv Opaque ->
  Out (DeepSpeech Cell BatchNorm Linear Conv Opaque).
Variable model_state_dict :
  DeepSpeech Cell BatchNorm Linear Conv Opaque -> Out (value Opaque).
Variable optimizer_state_dict : value Opaque -> Out (value Opaque).
Variable object_add_one : Opaque -> Out (value Opaque).
Variable str_lower : string -> string.

Local Abbreviation new_layer := (BatchRNN_init Cell BatchNorm new_cell BatchNorm1d).
Local Abbreviation add_layers := (more_layers Cell BatchNorm new_cell BatchNorm1d).
Local Abbreviation new_classifier :=
  (RNNClassifier_new Cell BatchNorm Linear new_cell BatchNorm1d new_linear py_mul).
Local Abbreviation build_rnn :=
  (construct_rnn Cell BatchNorm Linear new_cell BatchNorm1d new_linear py_mul py_repr).
Local Abbreviation new_deepspeech :=
  (DeepSpeech_new Cell BatchNorm Linear Conv Opaque new_cell BatchNorm1d new_linear py_mul
     empty_dict object_truthy).

(** What [BatchRNN.__init__] makes of its arguments. *)
Local Abbreviation layer_of in_size hidden batch cls bidir :=
  (fun layer : BatchRNN Cell BatchNorm =>
     input_size layer = in_size /\ hidden_size layer = hidden /\
     batch_size layer = batch /\ bidirectional layer = bidir /\
     new_cell cls in_size hidden bidir = inr (rnn layer)).

Lemma obind_inr {A B} (m : Out A) (k : A -> Out B) b :
  obind m k = inr b -> exists a, m = inr a /\ k a = inr b.
Proof. destruct m as [e|a]; simpl; [discriminate|eauto]. Qed.

Lemma lift_getitem_inr (cfg : gmap string pyval) key v :
  lift (getitem cfg key) = inr v -> cfg !! key = Some v.
Proof. unfold getitem. destruct (cfg !! key); simpl; congruence. Qed.

Lemma lookup_name_In key (d : list (string * RnnClass)) c :
  lookup_name key d = Some c -> In (key, c) d.
Proof.
  unfold lookup_name. induction d as [|[k v] d IH]; simpl; [discriminate|].
  destruct (String.eqb_spec k key) as [->|_]; simpl.
  - intros H. injection H as <-. now left.
  - intros H. right. now apply IH.
Qed.

Lemma BatchRNN_init_inv in_size seq_len hidden batch cls bidir bn layer :
  new_layer in_size seq_len hidden batch cls bidir bn = inr layer ->
  layer_of in_size hidden batch cls bidir layer.
Proof.
  unfold BatchRNN_init. intros H.
  apply obind_inr in H as (b & _ & H). apply obind_inr in H as (cell & Hc & H).
  injection H as <-. simpl. auto.
Qed.

Lemma more_layers_spec seq_len hidden batch cls bidir bn k : forall x acc out,
  add_layers seq_len hidden batch cls bidir bn k x acc = inr out ->
  exists new,
    out = acc ++ new /\
    map fst new = map (fun i => pretty (i + 1)%nat) (seq x k) /\
    Forall (layer_of hidden hidden batch cls bidir) (map snd new).
Proof.
  induction k as [|k IH]; intros x acc out; simpl.
  - intros H. injection H as <-. exists []. rewrite app_nil_r. repeat split. constructor.
  - intros H. apply obind_inr in H as (layer & Hl & H).
    apply BatchRNN_init_inv in Hl. apply IH in H as (new & -> & Hn & Hall).
    exists ((pretty (x + 1)%nat, layer) :: new). rewrite <- app_assoc. simpl.
    split; [reflexivity|]. split; [now rewrite Hn|]. now constructor.
Qed.

(** X19. A classifier that [construct_rnn] returns was configured with
    one of the type names lstm, rnn and gru (never deepspeech), and its
    recurrent stack has [max(1, rnn_n_layers)] layers named 0, 1, 2, ...
    in order: the first reads [input_size] features, every later one
    reads the hidden size, and all of them are cells of the named class
    with the configured hidden size, batch size and direction flag. *)
Theorem construct_rnn_builds_layer_stack (cfg : gmap string pyval) (output_size : pyval)
    (m : RNNClassifier Cell BatchNorm Linear) :
  build_rnn cfg output_size = inr m ->
  exists name cls in_size hidden batch bidir n_layers z first rest,
    cfg !! "rnn_type" = Some (PStr name) /\
    In (name, cls) supported_rnns /\
    cfg !! "input_size" = Some in_size /\
    cfg !! "rnn_hidden_size" = Some hidden /\
    cfg !! "batch_size" = Some batch /\
    cfg !! "bidirectional" = Some bidir /\
    cfg !! "rnn_n_layers" = Some n_layers /\
    as_int n_layers = Some z /\
    map snd (rnns m) = first :: rest /\
    length (rnns m) = Z.to_nat (Z.max 1 z) /\
    map fst (rnns m) = map pretty (seq 0 (Z.to_nat (Z.max 1 z))) /\
    (input_size first = in_size /\ hidden_size first = hidden /\
     batch_size first = batch /\ bidirectional first = bidir /\
     new_cell cls in_size hidden bidir = inr (rnn first)) /\
    Forall (fun layer =>
              input_size layer = hidden /\ hidden_size layer = hidden /\
              batch_size layer = batch /\ bidirectional layer = bidir /\
              new_cell cls hidden hidden bidir = inr (rnn layer)) rest.
Proof.
  unfold construct_rnn. intros H.
  apply obind_inr in H as (rt & Hrt%lift_getitem_inr & H).
  destruct (eq_str rt "deepspeech") eqn:Hds; [discriminate|].
  apply obind_inr in H as (batch & Hbatch%lift_getitem_inr & H).
  apply obind_inr in H as (in_size & Hin_size%lift_getitem_inr & H).
  apply obind_inr in H as (seq_len & _ & H).
  apply obind_inr in H as (cls & Hcls & H).
  apply obind_inr in H as (hidden & Hhidden%lift_getitem_inr & H).
  apply obind_inr in H as (n_layers & Hn_layers%lift_getitem_inr & H).
  apply obind_inr in H as (bidir & Hbidir%lift_getitem_inr & H).
  apply obind_inr in H as (bn & _ & H).
  unfold RNNClassifier_new, RNNClassifier_body in H. cbn [from_option id] in H.
  apply obind_inr in H as (first & Hfirst & H). apply BatchRNN_init_inv in Hfirst.
  apply obind_inr in H as (k & Hk & H).
  destruct (as_int n_layers) as [z|] eqn:Hz; [|discriminate]. injection Hk as <-.
  apply obind_inr in H as (layers & Hlayers & H).
  apply more_layers_spec in Hlayers as (new & -> & Hnames & Hall).
  apply obind_inr in H as (b & _ & H). apply obind_inr in H as (f & _ & H).
  apply obind_inr in H as (lin & _ & H). injection H as <-. cbn [rnns].
  assert (Hname : exists name, rt = PStr name /\ In (name, cls) supported_rnns).
  { unfold supported_rnns_getitem in Hcls. destruct rt as [[| | | |s]|]; try discriminate.
    exists s. split; [reflexivity|].
    destruct (lookup_name s supported_rnns) as [c|] eqn:Hl; [|discriminate].
    injection Hcls as <-. now apply lookup_name_In. }
  destruct Hname as (name & -> & Hin).
  assert (Hlen : length new = Z.to_nat (z - 1)).
  { rewrite <- (length_map fst), Hnames, length_map. apply length_seq. }
  exists name, cls, in_size, hidden, batch, bidir, n_layers, z, first, (map snd new).
  repeat (split; [reflexivity || assumption|]).
  split; [simpl; rewrite Hlen; lia|].
  split.
  { simpl. rewrite Hnames.
    replace (Z.to_nat (Z.max 1 z)) with (S (Z.to_nat (z - 1))) by lia.
    simpl. f_equal. rewrite <- seq_shift, map_map.
    apply map_ext. intros i. now rewrite Nat.add_1_r. }
  split; [exact Hfirst|exact Hall].
Qed.


Local Abbreviation load_package :=
  (load_model_package Cell BatchNorm Linear Conv Opaque new_cell BatchNorm1d new_linear
     py_mul py_repr empty_dict object_truthy object_key_error load_state_dict).
Local Abbreviation load_path :=
  (load_model Cell BatchNorm Linear Conv Opaque new_cell BatchNorm1d new_linear
     py_mul py_repr empty_dict object_truthy object_key_error load_state_dict torch_load
     flatten_parameters).
Local Abbreviation run_serialize :=
  (serialize Cell BatchNorm Linear Conv Opaque model_state_dict optimizer_state_dict
     object_add_one str_lower).

Lemma DeepSpeech_new_fails conv conv_out_ftrs batch_size rnn_type labels eeg_conf
    rnn_hidden_size n_layers bidirectional is_inference_softmax :
  exists msg,
    new_deepspeech conv conv_out_ftrs batch_size rnn_type labels eeg_conf rnn_hidden_size
      n_layers bidirectional is_inference_softmax
    = inl (Builtin (TypeError msg)).
Proof.
  unfold DeepSpeech_new, missing_arguments.
  destruct conv, conv_out_ftrs, batch_size; simpl; eauto.
Qed.

(** X20. No call builds a [DeepSpeech]: whatever arguments it is given,
    [DeepSpeech(...)] raises a [TypeError], because its [__init__] calls the
    parent's [__init__] without [seq_len] and [output_size]. So neither
    [load_model_package] nor [load_model] ever returns a model, whatever
    the package holds. *)
Theorem DeepSpeech_is_never_built :
  (forall conv conv_out_ftrs batch_size rnn_type labels eeg_conf rnn_hidden_size n_layers
          bidirectional is_inference_softmax,
     exists msg,
       new_deepspeech conv conv_out_ftrs batch_size rnn_type labels eeg_conf
         rnn_hidden_size n_layers bidirectional is_inference_softmax
       = inl (Builtin (TypeError msg))) /\
  (forall package, exists e, load_package package = inl e) /\
  (forall path, exists e, load_path path = inl e).
Proof.
  split; [exact DeepSpeech_new_fails|].
  assert (Hstep : forall A B (x : Out A) (k : A -> Out B),
            (forall a, exists e, k a = inl e) -> exists e, obind x k = inl e).
  { intros A B [e|a] k Hk; simpl; eauto. }
  assert (Hnew : forall A rt lb ec hs hl bi
                        (k : DeepSpeech Cell BatchNorm Linear Conv Opaque -> Out A),
            exists e,
              obind (new_deepspeech None None None rt lb ec hs hl bi None) k = inl e).
  { intros. simpl. eauto. }
  split.
  - intros package. unfold load_model_package.
    repeat first [apply Hnew | apply Hstep; intros ?].
  - intros path. unfold load_model.
    repeat first [apply Hnew | apply Hstep; intros ?].
Qed.






End RnnProps.

(** ** augment.py: the stripes that are dropped *)

Section AugmentProps.

Import Augment.

Variable A : Type.
Variable zero : A.
Variable Float : Type.
Variable float_is_zero : Float -> bool.
Variable int_of_product : Z -> Float -> Out Z.
Variable Rng : Type.
Variable next : Rng -> Z * Rng.

Implicit Types (self : DropStripes Float) (t input out : Tensor A) (g : Rng).

Local Abbreviation run_stripes := (drop_stripes zero int_of_product next).
Local Abbreviation run_samples := (transform_samples zero int_of_product next).
Local Abbreviation run_forward := (forward zero float_is_zero int_of_product next).
Local Abbreviation run_call := (__call__ zero float_is_zero int_of_product next).

(** A stripe a completed pair of draws can give on an axis of
    [total_width] entries: it starts inside the axis, is narrower than
    [int(total_width * drop_rate)] and ends before the last index. *)
Local Abbreviation stripe_ok total_width rate :=
  (fun s : Z * Z =>
     0 <= fst s /\ 0 <= snd s /\ fst s + snd s < total_width /\
     exists width, int_of_product total_width rate = inr width /\ snd s < width).

Local Abbreviation dropped stripes i :=
  (existsb (fun s : Z * Z => in_stripe (fst s) (snd s) i) stripes).

Lemma randint_range low high g g' v :
  randint next low high g = (g', inr v) -> low <= v < high.
Proof.
  unfold randint. destruct (Z.leb_spec high low) as [Hle|Hlt]; [discriminate|].
  destruct (next g) as [raw g1]. intros H. injection H as _ <-.
  pose proof (Z.mod_pos_bound raw (high - low)). lia.
Qed.

Lemma randint_empty low high g :
  high <= low ->
  randint next low high g
  = (g, inl (RuntimeError "random_ expects 'from' to be less than 'to'")).
Proof. intros H. unfold randint. now destruct (Z.leb_spec high low); [|lia]. Qed.

Lemma dropped_none stripes total_width rate (i : nat) :
  Forall (stripe_ok total_width rate) stripes ->
  total_width <= Z.of_nat i + 1 ->
  dropped stripes i = false.
Proof.
  intros Hall Hi. induction Hall as [|s stripes (H0 & H1 & H2 & _) _ IH]; [reflexivity|].
  simpl. rewrite IH, orb_false_r. unfold in_stripe.
  apply andb_false_intro2. apply Z.ltb_ge. lia.
Qed.

Lemma drop_stripes_spec self n total_width axis :
  (dim self = 2 \/ dim self = 3) -> axis = Z.to_nat (dim self) ->
  forall k t g out g',
    run_stripes self n total_width k t g = ((out, g'), inr tt) ->
    shape out = shape t /\
    exists stripes,
      length stripes = k /\
      Forall (stripe_ok total_width (drop_rate self)) stripes /\
      forall ix,
        data out ix
        = if Nat.eqb (nth 0 ix 0%nat) n && dropped stripes (nth axis ix 0%nat)
          then zero else data t ix.
Proof.
  intros Hdim ->. induction k as [|k IH]; intros t g out g'; simpl.
  - intros H. injection H as <- <-. split; [reflexivity|].
    exists []. repeat split; [constructor|]. intros ix. simpl.
    now rewrite andb_false_r.
  - destruct (int_of_product total_width (drop_rate self)) as [x|width] eqn:Hw;
      [discriminate|].
    destruct (randint next 0 width g) as [g1 [x|distance]] eqn:H1; [discriminate|].
    destruct (randint next 0 (total_width - distance) g1) as [g2 [x|bgn]] eqn:H2;
      [discriminate|].
    apply randint_range in H1. apply randint_range in H2.
    set (t' := if Z.eqb (dim self) 2 then _ else _).
    assert (Ht' : t' = zero_stripe zero (Z.to_nat (dim self)) n bgn distance t).
    { subst t'. destruct Hdim as [-> | ->]; reflexivity. }
    rewrite Ht'. clear t' Ht'.
    intros H. apply IH in H as (Hs & stripes & Hlen & Hall & Hdata).
    split; [exact Hs|].
    exists ((bgn, distance) :: stripes). split; [simpl; now rewrite Hlen|].
    split.
    { constructor; [|exact Hall]. simpl. repeat split; try lia.
      exists width. split; [reflexivity|lia]. }
    intros ix. rewrite Hdata. simpl.
    destruct (Nat.eqb (nth 0 ix 0%nat) n); simpl; [|reflexivity].
    destruct (in_stripe bgn distance _); simpl; [|reflexivity].
    now destruct (dropped stripes _).
Qed.

Lemma transform_samples_spec self total_width axis :
  (dim self = 2 \/ dim self = 3) -> axis = Z.to_nat (dim self) ->
  forall ns t g out g',
    NoDup ns ->
    run_samples self total_width ns t g = ((out, g'), inr tt) ->
    shape out = shape t /\
    forall n, exists stripes,
      (In n ns -> length stripes = Z.to_nat (stripes_num self)) /\
      (~ In n ns -> stripes = []) /\
      Forall (stripe_ok total_width (drop_rate self)) stripes /\
      forall ix, nth 0 ix 0%nat = n ->
        data out ix = if dropped stripes (nth axis ix 0%nat) then zero else data t ix.
Proof.
  intros Hdim Hax. induction ns as [|n0 ns IH]; intros t g out g' Hnd; simpl.
  - intros H. injection H as <- <-. split; [reflexivity|].
    intros n. exists []. repeat split; auto. intros [].
  - unfold transform_slice.
    destruct (run_stripes self n0 total_width _ t g) as [[t1 g1] [x|[]]] eqn:H0;
      [discriminate|].
    apply (drop_stripes_spec self n0 total_width axis Hdim Hax) in H0
      as (Hs0 & st0 & Hlen0 & Hall0 & Hdata0).
    inversion Hnd as [|? ? Hni Hnd']; subst.
    assert (Hnotin : ~ In n0 ns) by (intros Hi; apply Hni; now apply list_elem_of_In).
    intros H. apply IH in H as [Hs Hrest]; [|exact Hnd'].
    split; [congruence|].
    intros n. destruct (Hrest n) as (st & Hin & Hout & Hall & Hdata).
    destruct (Nat.eq_dec n n0) as [->|Hne].
    + exists st0. rewrite (Hout Hnotin) in Hdata. split; [auto|].
      split; [intros Hn; exfalso; apply Hn; now left|].
      split; [exact Hall0|].
      intros ix Hix. rewrite (Hdata ix Hix). simpl. rewrite Hdata0, Hix.
      now rewrite Nat.eqb_refl.
    + exists st. split; [intros [E|Hi]; [congruence|auto]|].
      split; [intros Hn; apply Hout; intros Hi; apply Hn; now right|].
      split; [exact Hall|].
      intros ix Hix. rewrite (Hdata ix Hix), Hdata0, Hix.
      apply Nat.eqb_neq in Hne. now rewrite Hne.
Qed.

Lemma tuple_getitem_nonneg (t : list nat) (i : Z) :
  0 <= i ->
  tuple_getitem t i
  = match nth_error t (Z.to_nat i) with
    | Some v => inr v
    | None => inl (Builtin (IndexError "tuple index out of range"))
    end.
Proof.
  intros Hi. unfold tuple_getitem.
  destruct (Z.ltb_spec i 0) as [|_]; [lia|]. now destruct (Z.ltb_spec i 0); [lia|].
Qed.

Lemma init_inv (d : Z) (rate : Float) (num : Z) self :
  __init__ d rate num = inr self ->
  (d = 2 \/ d = 3) /\
  self = {| dim := d; drop_rate := rate; stripes_num := num; training := true |}.
Proof.
  unfold __init__. destruct (Z.eqb_spec d 2) as [->|]; simpl.
  - intros H. injection H as <-. auto.
  - destruct (Z.eqb_spec d 3) as [->|]; [|discriminate].
    intros H. injection H as <-. auto.
Qed.

(** X16. A training-mode [forward] with a non-zero drop rate that returns
    has kept the shape and, on every sample of the batch, has set to 0
    exactly the entries whose index along the module's axis lies in one of
    [stripes_num] stripes, each narrower than [int(total_width * drop_rate)]
    and ending before the last index of the axis; every other entry is the
    input's. So the last time step (or frequency bin) is never dropped. *)
Theorem forward_drops_stripes (d : Z) (rate : Float) (num : Z) self input g out g' :
  __init__ d rate num = inr self ->
  float_is_zero rate = false ->
  run_forward self input g = ((out, g'), inr tt) ->
  exists batch_size total_width,
    nth_error (shape input) 0 = Some batch_size /\
    nth_error (shape input) (Z.to_nat d) = Some total_width /\
    shape out = shape input /\
    (forall n, (n < batch_size)%nat ->
       exists stripes,
         length stripes = Z.to_nat num /\
         Forall (fun s : Z * Z =>
                   0 <= fst s /\ 0 <= snd s /\ fst s + snd s < Z.of_nat total_width /\
                   exists width,
                     int_of_product (Z.of_nat total_width) rate = inr width /\
                     snd s < width) stripes /\
         forall ix, nth 0 ix 0%nat = n ->
           data out ix
           = if existsb (fun s : Z * Z =>
                           in_stripe (fst s) (snd s) (nth (Z.to_nat d) ix 0%nat)) stripes
             then zero else data input ix) /\
    (forall ix, (batch_size <= nth 0 ix 0%nat)%nat -> data out ix = data input ix) /\
    (forall ix, (total_width <= S (nth (Z.to_nat d) ix 0%nat))%nat ->
       data out ix = data input ix).
Proof.
  intros Hinit Hrate. apply init_inv in Hinit as [Hd ->].
  unfold forward. cbn [dim drop_rate stripes_num training negb orb]. rewrite Hrate.
  destruct (Nat.eqb (length (shape input)) 4) eqn:Hlen; [|discriminate]. cbn [negb].
  rewrite !tuple_getitem_nonneg by lia. change (Z.to_nat 0) with 0%nat.
  destruct (nth_error (shape input) 0) as [batch_size|] eqn:Hb; cbv iota; [|discriminate].
  destruct (nth_error (shape input) (Z.to_nat d)) as [total_width|] eqn:Hw; cbv iota;
    [|discriminate].
  intros H.
  apply (transform_samples_spec _ _ (Z.to_nat d)) in H as [Hs Hn];
    [|exact Hd|reflexivity|apply NoDup_seq].
  cbn [dim drop_rate stripes_num] in Hn.
  exists batch_size, total_width.
  split; [reflexivity|]. split; [reflexivity|]. split; [exact Hs|].
  split; [|split].
  - intros n Hlt. destruct (Hn n) as (st & Hin & _ & Hall & Hdata).
    exists st. split; [apply Hin; apply in_seq; lia|]. split; [exact Hall|exact Hdata].
  - intros ix Hge. destruct (Hn (nth 0 ix 0%nat)) as (st & _ & Hout & _ & Hdata).
    rewrite (Hdata ix eq_refl), Hout; [reflexivity|]. rewrite in_seq. lia.
  - intros ix Hge. destruct (Hn (nth 0 ix 0%nat)) as (st & _ & _ & Hall & Hdata).
    rewrite (Hdata ix eq_refl).
    rewrite (dropped_none st (Z.of_nat total_width) rate); [reflexivity|exact Hall|lia].
Qed.


(** X17. When the window [int(total_width * drop_rate)] is not positive,
    as for a small positive drop rate on a short axis, a training-mode
    [forward] over a non-empty batch with at least one stripe to drop does
    not skip the dropping: the first draw fails with the library's
    [RuntimeError], before anything is changed. *)
Theorem forward_fails_on_narrow_input (d : Z) (rate : Float) (num : Z) self input g
    (batch_size total_width : nat) (width : Z) :
  __init__ d rate num = inr self ->
  float_is_zero rate = false ->
  length (shape input) = 4%nat ->
  nth_error (shape input) 0 = Some batch_size -> (0 < batch_size)%nat ->
  nth_error (shape input) (Z.to_nat d) = Some total_width ->
  0 < num ->
  int_of_product (Z.of_nat total_width) rate = inr width -> width <= 0 ->
  run_forward self input g
  = ((input, g), inl (RuntimeError "random_ expects 'from' to be less than 'to'")).
Proof.
  intros Hinit Hrate Hlen Hb Hpos Hw Hnum Hwidth Hle.
  apply init_inv in Hinit as [Hd ->].
  unfold forward. cbn [dim drop_rate stripes_num training negb orb].
  rewrite Hrate, Hlen. cbn [Nat.eqb negb].
  rewrite !tuple_getitem_nonneg by lia. change (Z.to_nat 0) with 0%nat.
  rewrite Hb, Hw. destruct batch_size as [|b]; [lia|].
  cbn [seq transform_samples]. unfold transform_slice. cbn [stripes_num].
  destruct (Z.to_nat num) as [|k] eqn:Hk; [lia|].
  cbn [drop_stripes drop_rate]. rewrite Hwidth, (randint_empty 0 width g Hle).
  reflexivity.
Qed.

(** The output of a step differs from its input at most by entries that
    were set to 0. *)
Local Abbreviation only_zeroed t out :=
  (shape out = shape t /\ forall ix, data out ix = data t ix \/ data out ix = zero).

Lemma only_zeroed_trans t1 t2 t3 :
  only_zeroed t1 t2 -> only_zeroed t2 t3 -> only_zeroed t1 t3.
Proof.
  intros [Hs1 Hd1] [Hs2 Hd2]. split; [congruence|].
  intros ix. destruct (Hd2 ix) as [E|E]; [rewrite E; apply Hd1 | now right].
Qed.

Lemma zero_stripe_only_zeroes axis n bgn distance t :
  only_zeroed t (zero_stripe zero axis n bgn distance t).
Proof.
  split; [reflexivity|]. intros ix. simpl.
  destruct (_ && _); [now right | now left].
Qed.

Lemma drop_stripes_only_zeroes self n total_width k : forall t g,
  only_zeroed t (fst (fst (run_stripes self n total_width k t g))).
Proof.
  induction k as [|k IH]; intros t g; simpl; [auto|].
  destruct (int_of_product total_width (drop_rate self)) as [x|width]; [simpl; auto|].
  destruct (randint next 0 width g) as [g1 [x|distance]]; [simpl; auto|].
  destruct (randint next 0 (total_width - distance) g1) as [g2 [x|bgn]]; [simpl; auto|].
  eapply only_zeroed_trans; [|apply IH].
  destruct (Z.eqb (dim self) 2); [apply zero_stripe_only_zeroes|].
  destruct (Z.eqb (dim self) 3); [apply zero_stripe_only_zeroes|auto].
Qed.

Lemma transform_samples_only_zeroes self total_width ns : forall t g,
  only_zeroed t (fst (fst (run_samples self total_width ns t g))).
Proof.
  induction ns as [|n ns IH]; intros t g; simpl; [auto|].
  pose proof (drop_stripes_only_zeroes self n total_width
                (Z.to_nat (stripes_num self)) t g) as H0.
  unfold transform_slice.
  destruct (run_stripes self n total_width _ t g) as [[t1 g1] [x|[]]]; [exact H0|].
  eapply only_zeroed_trans; [exact H0|apply IH].
Qed.

Lemma forward_only_zeroes self input g :
  only_zeroed input (fst (fst (run_forward self input g))).
Proof.
  unfold forward.
  destruct (negb (Nat.eqb _ 4)); [simpl; auto|].
  destruct (negb (training self) || _); [simpl; auto|].
  destruct (tuple_getitem (shape input) 0) as [x|batch_size]; [simpl; auto|].
  destruct (tuple_getitem (shape input) (dim self)) as [x|total_width]; [simpl; auto|].
  apply transform_samples_only_zeroes.
Qed.

(** X18. Whatever its outcome, a call of a [SpecAugment] object leaves its
    argument with the shape it had and with every entry either as it was
    or 0: it never writes any other value, also when the frequency
    dropper fails after the time dropper has changed the tensor. *)
Theorem spec_augment_only_zeroes (sa : SpecAugment Float) (spect : Tensor A) g :
  shape (fst (fst (run_call sa spect g))) = shape spect /\
  forall ix,
    data (fst (fst (run_call sa spect g))) ix = data spect ix \/
    data (fst (fst (run_call sa spect g))) ix = zero.
Proof.
  unfold __call__.
  pose proof (forward_only_zeroes (time_dropper sa) spect g) as H1.
  destruct (run_forward (time_dropper sa) spect g) as [[y g1] [x|[]]]; [exact H1|].
  eapply only_zeroed_trans; [exact H1|apply forward_only_zeroes].
Qed.

End AugmentProps.

(** ** Instances of the further properties *)

Section MoreInstances.

Import ModelManager ManagerInit.

(** X2 on the two-class configuration. *)
Lemma init_postcondition_witness :
  BaseModel.__init__ Demo.labels2 Demo.cfg0 ["task_type"; "model_path"] Demo.blank
  = ok Demo.backend0 /\
  BaseModel.fitted Demo.backend0 = false /\
  Forall (fun k => is_Some (Demo.cfg0 !! k)) ["task_type"; "model_path"] /\
  len (PList [AFloat 1%Q; AFloat 1%Q]) = ok (length Demo.labels2).
Proof.
  assert (H : BaseModel.__init__ Demo.labels2 Demo.cfg0 ["task_type"; "model_path"] Demo.blank
              = ok Demo.backend0) by (vm_compute; reflexivity).
  split; [exact H|].
  destruct (init_postcondition _ _ _ _ _ _ H) as (Hf & _ & _ & _ & Hk & t & Ht & Hw).
  split; [exact Hf|]. split; [exact Hk|].
  assert (Et : t = PStr "classify").
  { assert (E : Demo.cfg0 !! "task_type" = Some (PStr "classify")) by (vm_compute; reflexivity).
    congruence. }
  subst t. destruct (Hw eq_refl) as (lw & Hlw & Hlen).
  assert (El : lw = PList [AFloat 1%Q; AFloat 1%Q]).
  { assert (E : Demo.cfg0 !! "loss_weight" = Some (PList [AFloat 1%Q; AFloat 1%Q]))
      by (vm_compute; reflexivity).
    congruence. }
  subst lw. exact Hlen.
Defined.

(** X4 at the end of the validation phase in which the loss improved. *)
Lemma end_of_phase_resets_phase_meters_witness :
  snd Demo.end_of_val = ok tt /\
  Forall2 (fun m m' =>
             name m' = name m /\
             save_model m' = save_model m /\
             average_meter m' val
             = Demo.reset (snd (Demo.update_best (average_meter m val))) /\
             forall q, q <> val -> average_meter m' q = average_meter m q)
          [Demo.val_loss_metric; Demo.accuracy_metric] (fst (fst Demo.end_of_val)).
Proof.
  assert (H : Demo.end_of_val
              = (fst (fst Demo.end_of_val), snd (fst Demo.end_of_val), ok tt)).
  { assert (Hr : snd Demo.end_of_val = ok tt) by (vm_compute; reflexivity).
    rewrite <- Hr. now destruct Demo.end_of_val as [[? ?] ?]. }
  split; [rewrite H; reflexivity|].
  exact (end_of_phase_resets_phase_meters _ _ _ _ _ _ Demo.model_save Demo.model_anneal_lr
           Demo.update_best Demo.reset Demo.py_str pretty Demo.manager0 val 0
           Demo.learning_anneal [Demo.val_loss_metric; Demo.accuracy_metric] Demo.env0
           _ _ H).
Defined.


(** X5 over the two epochs of [Demo.train_run]: six fits, two anneals. *)
Lemma completed_train_call_counts_witness :
  snd Demo.train_run = ok tt /\
  exists new,
    calls (snd (fst Demo.train_run)) = calls Demo.env0 ++ new /\
    count_calls is_fit new = 6%nat /\
    count_calls is_anneal new = 2%nat /\
    (count_calls is_save new <= 4)%nat /\
    length new = (count_calls is_fit new + count_calls is_anneal new
                  + count_calls is_save new)%nat.
Proof.
  assert (H : Demo.train_run
              = (fst (fst Demo.train_run), snd (fst Demo.train_run), ok tt)).
  { assert (Hr : snd Demo.train_run = ok tt) by (vm_compute; reflexivity).
    rewrite <- Hr. now destruct Demo.train_run as [[? ?] ?]. }
  split; [rewrite H; reflexivity|].
  exact (completed_train_call_counts _ _ _ _ _ _ _ _ Demo.model_fit Demo.model_save
           Demo.model_anneal_lr Demo.metric_update Demo.update_best Demo.reset
           Demo.meter_value Demo.meter_average Demo.no_text Demo.no_text Demo.py_str
           pretty pretty "" Demo.manager_two_epochs [Demo.loss_metric; Demo.accuracy_metric]
           Demo.env0 _ _ [([0; 1], [0; 1]); ([1], [0])] [([1; 1], [1; 0])] 2
           H eq_refl eq_refl ltac:(vm_compute; reflexivity)).
Defined.

(** X6 on the same run. *)
Lemma train_only_fits_saves_anneals_witness :
  exists new,
    calls (snd (fst Demo.train_run)) = calls Demo.env0 ++ new /\
    Forall (fun c => is_fit c || is_save c || is_anneal c = true) new.
Proof.
  refine (proj1 (train_only_fits_saves_anneals _ _ _ _ _ _ _ _ Demo.model_fit Demo.model_save
                   Demo.model_anneal_lr Demo.metric_update Demo.update_best Demo.reset
                   Demo.meter_value Demo.meter_average Demo.no_text Demo.no_text Demo.py_str
                   pretty pretty "" Demo.manager_two_epochs
                   [Demo.loss_metric; Demo.accuracy_metric] Demo.env0
                   (fst (fst Demo.train_run)) (snd (fst Demo.train_run)) (snd Demo.train_run)
                   _)).
  change (Demo.train_run
          = (fst (fst Demo.train_run), snd (fst Demo.train_run), snd Demo.train_run)).
  now destruct Demo.train_run as [[? ?] ?].
Defined.

(** X7 on the test pass over two batches of at most two samples. *)
Lemma predict_call_and_size_bounds_witness :
  exists k,
    calls (fst (Demo.predict_ Demo.manager0 test Demo.env0))
    = calls Demo.env0 ++ replicate k CPredict /\
    (forall batches, dataloaders Demo.manager0 test = Some batches ->
                     (k <= length batches)%nat) /\
    (forall preds labels,
       snd (Demo.predict_ Demo.manager0 test Demo.env0) = ok (preds, labels) ->
       exists batches b,
         dataloaders Demo.manager0 test = Some batches /\
         cfg Demo.manager0 !! "batch_size" = Some b /\
         k = length batches /\
         match as_int b with
         | Some z =>
             (length preds <= length batches * Z.to_nat z)%nat /\
             (length labels <= length batches * Z.to_nat z)%nat
         | None => False
         end).
Proof.
  refine (predict_call_and_size_bounds _ _ _ _ _ Demo.model_predict Demo.sentinel
            Demo.is_sentinel Demo.astype "" Demo.manager0 test Demo.env0
            (fst (Demo.predict_ Demo.manager0 test Demo.env0))
            (snd (Demo.predict_ Demo.manager0 test Demo.env0)) _).
  unfold Demo.predict_.
  now destruct (_predict _ _ _ _ _ _ _).
Defined.

(** X8 on a manager whose infer loader delivers the test batches. *)
Lemma infer_returns_test_predictions_witness :
  snd (Demo.run_test DemoInit.manager_infer false [Demo.accuracy_metric] Demo.env0)
  = ok ([0; 1; 1], [0; 1; 1]) /\
  exists e'', DemoInit.run_infer DemoInit.manager_infer false Demo.env0 = (e'', ok [0; 1; 1]).
Proof.
  set (run := Demo.run_test DemoInit.manager_infer false [Demo.accuracy_metric] Demo.env0).
  assert (H : run = (fst (fst run), snd (fst run), ok ([0; 1; 1], [0; 1; 1]))).
  { assert (Hr : snd run = ok ([0; 1; 1], [0; 1; 1])) by (vm_compute; reflexivity).
    rewrite <- Hr. now destruct run as [[? ?] ?]. }
  split; [rewrite H; reflexivity|].
  exact (infer_returns_test_predictions _ _ _ _ _ _ _ _ Demo.model_predict Demo.model_load
           Demo.model_criterion Demo.sentinel Demo.is_sentinel Demo.astype Demo.metric_update
           Demo.meter_value Demo.no_text "" (fun _ _ _ => "") DemoInit.manager_infer false
           [Demo.accuracy_metric] Demo.env0 _ _ _ _ H eq_refl).
Defined.

(** X9 on a regress configuration with a tree model. *)
Lemma test_loss_metric_without_criterion_witness :
  test_metrics Demo.model_criterion Demo.metric_update Demo.meter_value Demo.no_text
    Demo.manager_collision [1; 2] [0; 1] [Demo.loss_metric; Demo.accuracy_metric] None
    Demo.env0
  = (([Demo.loss_metric; Demo.accuracy_metric], Demo.env0),
     raise (UnboundLocalError "loss_value")).
Proof.
  exact (proj1 (test_loss_metric_without_criterion _ _ _ _ _ _ _ _ Demo.model_criterion
                  Demo.metric_update Demo.meter_value Demo.no_text Demo.manager_collision
                  [1; 2] [0; 1] Demo.loss_metric [Demo.accuracy_metric] Demo.env0
                  (PStr "regress") (PStr "xgboost")
                  eq_refl ltac:(vm_compute; reflexivity) eq_refl
                  ltac:(vm_compute; reflexivity) eq_refl)).
Defined.


(** X10 on a tree-model configuration with [cuda] set: the manager is
    built on the CPU, with a backend and with the seed of the
    configuration. *)
Lemma manager_init_postcondition_witness :
  exists b,
    DemoInit.build_manager = ok b /\
    built_cfg b !! "input_size" = Some (PAtom (AInt 8)) /\
    built_model_dir_of b = "model.pkl" /\
    torch_seed (built_seeds b) = PAtom (AInt 7) /\
    random_seed (built_seeds b) = PAtom (AInt 7) /\
    built_device b <> Cuda /\
    built_model b <> None.
Proof.
  destruct DemoInit.build_manager as [x|b] eqn:H; [vm_compute in H; discriminate|].
  exists b. split; [reflexivity|].
  destruct (manager_init_postcondition _ DemoInit.build_backend DemoInit.build_backend
              ["rnn"; "cnn"; "cnn_rnn"] DemoInit.seed_generator Demo.labels2
              DemoInit.cfg_manager (Some DemoInit.sizes) b H)
    as (_ & (sz & Hsz & Hin) & Hp & (Hs1 & _ & _ & Hs4) & (cuda & mt & Hc & Hm & Hdev & Hmod)).
  assert (Emt : mt = PStr "xgboost").
  { assert (E : DemoInit.cfg_manager !! "model_type" = Some (PStr "xgboost"))
      by (vm_compute; reflexivity).
    congruence. }
  subst mt.
  split; [injection Hsz as <-; exact Hin|].
  split.
  { assert (E : DemoInit.cfg_manager !! "model_path" = Some (PStr "model.pkl"))
      by (vm_compute; reflexivity).
    rewrite E in Hp. now injection Hp as <-. }
  assert (Es : DemoInit.cfg_manager !! "seed" = Some (PAtom (AInt 7)))
    by (vm_compute; reflexivity).
  rewrite Es in Hs1. injection Hs1 as Hs1.
  split; [now rewrite <- Hs1|]. split; [now rewrite Hs4, <- Hs1|].
  split.
  - intros Hd. apply Hdev in Hd as [_ Hd]. vm_compute in Hd. discriminate.
  - intros Hn. apply Hmod in Hn as [_ Hn]. vm_compute in Hn. discriminate.
Defined.

(** X13 on the call with validation of [Demo.ml_run]. *)
Lemma completed_train_call_record_witness :
  snd Demo.ml_run = ok [1; 0] /\
  MLTrain.calls (fst Demo.ml_run)
  = MLTrain.calls Demo.ml_env0 ++ [CFit train] ++ replicate 2 CPredict ++ [CSave] /\
  exists batches xs,
    MLTrain.dataloaders Demo.ml_manager val = Some batches /\
    Demo.stack (map fst batches) = ok xs /\
    Demo.mm_predict xs (MLTrain.model_manager (fst Demo.ml_run)) = ok [1; 0].
Proof.
  assert (H : Demo.ml_run = (fst Demo.ml_run, ok [1; 0])).
  { assert (Hr : snd Demo.ml_run = ok [1; 0]) by (vm_compute; reflexivity).
    rewrite <- Hr. now destruct Demo.ml_run. }
  split; [rewrite H; reflexivity|].
  exact (proj2 (completed_train_call_record _ _ _ _ _ Demo.mm_fit Demo.mm_predict
                  Demo.mm_save_model Demo.stack Demo.stack Demo.ml_metric_update
                  Demo.no_text "" Demo.ml_manager None true false Demo.ml_env0 _ _ H)).
Defined.

(** X12 on the call without validation: the recall metric, listed for
    the val phase only, is left as it was. *)
Lemma train_leaves_unlisted_metrics_witness :
  MLTrain.store (fst Demo.ml_run_train_only) !! 1%nat
  = MLTrain.store Demo.ml_env0 !! 1%nat.
Proof.
  refine (proj2 (train_leaves_unlisted_metrics _ _ _ _ _ Demo.mm_fit Demo.mm_predict
                   Demo.mm_save_model Demo.stack Demo.stack Demo.ml_metric_update
                   Demo.no_text "" Demo.ml_manager None false false Demo.ml_env0)
            1%nat _).
  intros phase refs [<-|[]] Hm. injection Hm as <-. intros [E|[]]. discriminate.
Defined.

(** X22 on the call with validation of [Demo.ml_run]: the accuracy
    metric, listed for both phases, held the best 1; it is updated with
    3/4 on the train phase and with 1 on the val phase, and ends with
    best = average = 7/8. The recall metric, listed for val, held 9/10
    and ends with 1. *)
Lemma completed_train_sets_best_to_average_witness :
  snd Demo.ml_run = ok [1; 0] /\
  MLTrain.store (fst Demo.ml_run) !! 0%nat
  = Some (MLTrain.mkMetric "accuracy" false false
            (MLTrain.mkMeter (2 # 2) (7 # 4) 2 (7 # 8) (7 # 8))%Q) /\
  MLTrain.store (fst Demo.ml_run) !! 1%nat
  = Some (MLTrain.mkMetric "recall" false false (MLTrain.mkMeter (2 # 2) 1 1 1 1)%Q).
Proof.
  assert (H : Demo.ml_run = (fst Demo.ml_run, ok [1; 0])).
  { assert (Hr : snd Demo.ml_run = ok [1; 0]) by (vm_compute; reflexivity).
    rewrite <- Hr. now destruct Demo.ml_run. }
  split; [rewrite H; reflexivity|].
  destruct (completed_train_sets_best_to_average _ _ _ _ _ Demo.mm_fit Demo.mm_predict
              Demo.mm_save_model Demo.stack Demo.stack Demo.ml_metric_update Demo.no_text ""
              Demo.ml_manager None true false Demo.ml_env0 _ _ H)
    as (loss & preds & labels & _ & Hph & Hstore & _ & _).
  destruct (Hph train (or_introl eq_refl)) as (bt & xt & Hbt & Hxt & Hpt & Hlt).
  destruct (Hph val (or_intror (or_introl eq_refl))) as (bv & xv & Hbv & Hxv & Hpv & Hlv).
  injection Hbt as <-. injection Hbv as <-.
  injection Hxt as <-. injection Hxv as <-.
  injection Hpt as Hpt. injection Hpv as Hpv. injection Hlt as Hlt. injection Hlv as Hlv.
  rewrite !Hstore. unfold MLTrain.phases_of. cbn [fold_left].
  rewrite <- Hpt, <- Hpv, <- Hlt, <- Hlv.
  split; vm_compute; reflexivity.
Defined.

(** X14 on a two-class configuration: a binary objective. *)
Lemma LightGBM_init_params_witness :
  exists self,
    DemoInit.build_lgbm DemoInit.cfg_lgbm = ok self /\
    DecisionTrees.params self !! "class_weight" = Some (PStr "balanced") /\
    Forall (fun pk => exists v, DemoInit.cfg_lgbm !! snd pk = Some v /\
                                DecisionTrees.params self !! fst pk = Some v)
           DecisionTreesInit.lgbm_param_sources.
Proof.
  destruct (DemoInit.build_lgbm DemoInit.cfg_lgbm) as [x|self] eqn:H;
    [vm_compute in H; discriminate|].
  exists self. split; [reflexivity|].
  destruct (LightGBM_init_params _ DemoInit.new_estimator DemoInit.new_estimator
              DemoInit.base_init Demo.labels2 DemoInit.cfg_lgbm self H)
    as (_ & Hsrc & Hcw & _).
  split; assumption.
Defined.

(** X15 on the configuration without a learning rate. *)
Lemma LightGBM_init_missing_key_witness :
  DemoInit.build_lgbm DemoInit.cfg_lgbm_no_lr = raise (KeyError "lr").
Proof.
  exact (LightGBM_init_missing_key _ DemoInit.new_estimator DemoInit.new_estimator
           DemoInit.base_init Demo.labels2 DemoInit.cfg_lgbm_no_lr (PStr "classify")
           ("learning_rate", "lr")
           ltac:(vm_compute; reflexivity) ltac:(vm_compute; reflexivity)).
Defined.

End MoreInstances.

Section RnnInstances.

Import Rnn ModelManager.

(** X19 on a three-layer GRU configuration. *)
Lemma construct_rnn_builds_layer_stack_witness :
  exists m,
    DemoRnn.construct DemoRnn.cfg_gru (PAtom (AInt 2)) = inr m /\
    map fst (rnns m) = ["0"; "1"; "2"].
Proof.
  destruct (DemoRnn.construct DemoRnn.cfg_gru (PAtom (AInt 2))) as [e|m] eqn:H;
    [vm_compute in H; discriminate|].
  exists m. split; [reflexivity|].
  destruct (construct_rnn_builds_layer_stack DemoRnn.Cell pyval (pyval * pyval)
              DemoRnn.new_cell DemoRnn.BatchNorm1d DemoRnn.new_linear DemoRnn.py_mul
              DemoRnn.py_repr DemoRnn.cfg_gru (PAtom (AInt 2)) m H)
    as (name & cls & in_size & hidden & batch & bidir & n_layers & z & first & rest
        & _ & _ & _ & _ & _ & _ & Hn & Hz & _ & _ & Hnames & _).
  assert (En : n_layers = PAtom (AInt 3)).
  { assert (E : DemoRnn.cfg_gru !! "rnn_n_layers" = Some (PAtom (AInt 3)))
      by (vm_compute; reflexivity).
    congruence. }
  subst n_layers. injection Hz as <-. exact Hnames.
Defined.


End RnnInstances.

Section AugmentInstances.

Import Augment.

(** X16 on a time dropper of rate 1/2 over four time steps: the last time
    step is kept. *)
Lemma forward_drops_stripes_witness :
  snd (DemoAugment.forward DemoAugment.half_time_dropper DemoAugment.spect DemoAugment.draws)
  = inr tt /\
  forall ix, nth 2 ix 0%nat = 3%nat ->
    data (fst (fst (DemoAugment.forward DemoAugment.half_time_dropper DemoAugment.spect
                      DemoAugment.draws))) ix
    = data DemoAugment.spect ix.
Proof.
  set (run := DemoAugment.forward DemoAugment.half_time_dropper DemoAugment.spect
                DemoAugment.draws).
  assert (H : run = (fst (fst run), snd (fst run), inr tt)).
  { assert (Hr : snd run = inr tt) by (vm_compute; reflexivity).
    rewrite <- Hr. now destruct run as [[? ?] ?]. }
  split; [rewrite H; reflexivity|].
  destruct (forward_drops_stripes _ 0 _ DemoAugment.float_is_zero DemoAugment.int_of_product
              _ DemoAugment.next 2 (1 # 2) 1 DemoAugment.half_time_dropper DemoAugment.spect
              DemoAugment.draws _ _ eq_refl eq_refl H)
    as (b & w & _ & Hw & _ & _ & _ & Hlast).
  injection Hw as <-. intros ix Hix. apply Hlast.
  change (Z.to_nat 2) with 2%nat. rewrite Hix. lia.
Defined.

(** X17 on a time dropper of rate 1/10 over four time steps. *)
Lemma forward_fails_on_narrow_input_witness :
  DemoAugment.forward DemoAugment.narrow_time_dropper DemoAugment.spect DemoAugment.draws
  = ((DemoAugment.spect, DemoAugment.draws),
     inl (RuntimeError "random_ expects 'from' to be less than 'to'")).
Proof.
  exact (forward_fails_on_narrow_input _ 0 _ DemoAugment.float_is_zero
           DemoAugment.int_of_product _ DemoAugment.next 2 (1 # 10) 1
           DemoAugment.narrow_time_dropper DemoAugment.spect DemoAugment.draws 2 4 0
           eq_refl eq_refl eq_refl eq_refl ltac:(lia) eq_refl
           ltac:(lia) eq_refl ltac:(lia)).
Defined.

End AugmentInstances.
